(** * Sequence packing for RL fine-tuning: a shallow embedding

    This development embeds the packing pipeline of
    [experiments/lib/tokenize.py] and [experiments/lib/pack.py]:

    - [TokenizedResult] and [without_prompt] (tokenize.py),
    - the grouping pass at the end of [TaskResultTokenizer.__call__],
    - [get_token_logprobs] (tokenize.py),
    - [packed_tensors_from_tokenized_results] (pack.py), with the torch
      operations it uses on the padded lists,
    - [packed_tensors_from_dir] and [packed_tensors_to_dir],
    - [PackedDataset].

    Python integers are [Z]; Python lists are [list]; a Python [str] is
    the list of its code points; a Python float is a [pyfloat], an exact
    rational or one of the IEEE specials, so that the arithmetic of the
    weight channel is the real-number arithmetic the floating-point code
    approximates.  A tensor of [torch.long] holds 64-bit integers:
    [torch.tensor] refuses a Python int outside that range.  Python
    exceptions are the [Raise] results of the [res] monad. *)

From Stdlib Require Import ZArith QArith Qabs Qround Lia.
From stdpp Require Import base list gmap sets strings.

(** ** Python exceptions *)

Inductive PyError : Type :=
  | AssertionError
  | IndexError
  | ZeroDivisionError
  | ValueError
  | RuntimeError.

Inductive res (A : Type) : Type :=
  | Ok (a : A)
  | Raise (e : PyError).
Arguments Ok {A} a.
Arguments Raise {A} e.

Definition bind {A B} (m : res A) (f : A -> res B) : res B :=
  match m with
  | Ok a => f a
  | Raise e => Raise e
  end.

Notation "x <- m ;; k" := (bind m (fun x => k))
  (at level 100, m at next level, right associativity).

(** ** Python floats *)

Inductive pyfloat : Type :=
  | FNum (q : Q)
  | FNaN
  | FInf (negative : bool).

Definition Qneg (q : Q) : bool :=
  match Qnum q with Zneg _ => true | _ => false end.

Definition fadd (x y : pyfloat) : pyfloat :=
  match x, y with
  | FNum a, FNum b => FNum (a + b)
  | FNaN, _ | _, FNaN => FNaN
  | FInf s, FInf s' => if Bool.eqb s s' then FInf s else FNaN
  | FInf s, FNum _ | FNum _, FInf s => FInf s
  end.

Definition fdiv (x y : pyfloat) : pyfloat :=
  match x, y with
  | FNum a, FNum b =>
      if Qeq_bool b 0
      then (if Qeq_bool a 0 then FNaN else FInf (Qneg a))
      else FNum (a / b)
  | FNaN, _ | _, FNaN => FNaN
  | FInf _, FInf _ => FNaN
  | FInf s, FNum b => FInf (xorb s (Qneg b))
  | FNum _, FInf _ => FNum 0
  end.

(** Truth value of a float operand of [or]: zero is falsy, NaN and the
    infinities are truthy. *)
Definition float_truthy (x : pyfloat) : bool :=
  match x with
  | FNum q => negb (Qeq_bool q 0)
  | _ => true
  end.

(** ** Python list operations *)

Definition py_len {A} (l : list A) : Z := Z.of_nat (length l).

(** Normalisation of a slice bound [i] against a list of length [len]:
    negative bounds count from the end, and both ends are clamped. *)
Definition slice_bound (i len : Z) : nat :=
  Z.to_nat (if (i <? 0)%Z then Z.max 0 (len + i) else Z.min i len).

(** [l[i:]] *)
Definition slice_from {A} (i : Z) (l : list A) : list A :=
  drop (slice_bound i (py_len l)) l.

(** [l[:i]] *)
Definition slice_to {A} (i : Z) (l : list A) : list A :=
  take (slice_bound i (py_len l)) l.

(** [[x] * n]; a negative count gives the empty list. *)
Definition py_repeat {A} (x : A) (n : Z) : list A := replicate (Z.to_nat n) x.

Definition py_sum (l : list Z) : Z := foldr Z.add 0%Z l.

(** Truth value of an [int] used as a condition. *)
Definition truthy (z : Z) : bool := negb (z =? 0)%Z.

(** [l[i] = x] for a non-negative [i]: out of range raises. *)
Definition list_set {A} (i : nat) (x : A) (l : list A) : res (list A) :=
  if decide (i < length l) then Ok (<[i := x]> l) else Raise IndexError.

(** [l[-1] = x] *)
Definition set_last_item {A} (x : A) (l : list A) : res (list A) :=
  match l with
  | [] => Raise IndexError
  | _ => Ok (<[pred (length l) := x]> l)
  end.

(** [[i for i, mask in enumerate(l) if mask]] *)
Fixpoint truthy_indices_from (i : nat) (l : list Z) : list nat :=
  match l with
  | [] => []
  | m :: l' =>
      if truthy m then i :: truthy_indices_from (S i) l'
      else truthy_indices_from (S i) l'
  end.

(** ** Random number generator

    The state of the [random] module is the sequence of raw values it is
    going to produce; [randint a b] maps the next one into [a..b]. *)

Definition RNG : Type := nat -> Z.

Definition randint (a b : Z) (g : RNG) : Z * RNG :=
  ((a + g 0%nat mod (b - a + 1))%Z, fun n => g (S n)).

Definition int64_min : Z := (- 2 ^ 63)%Z.
Definition int64_max : Z := (2 ^ 63 - 1)%Z.

(** ** Python strings *)

(** A [str] is the sequence of its code points, which [len] counts. *)
Abbreviation pystr := (list N).

(** The [str] of an ASCII literal. *)
Definition str (s : string) : pystr :=
  Ascii.N_of_ascii <$> String.list_ascii_of_string s.

(** ** tokenize.py *)

(** [ChatCompletionTokenLogprob]: the fields the pipeline reads. *)
Record ChatCompletionTokenLogprob : Type := {
  token : pystr;
  logprob : option pyfloat;
}.

(** [TokenizedResult].  The diagnostic fields [conversation],
    [chat_template] and [chat] are copied unchanged everywhere and are
    left out. *)
Record TokenizedResult : Type := {
  reward : pyfloat;
  advantage : pyfloat;
  deferred : bool;
  tokens : list pystr;
  token_ids : list Z;
  input_pos : list Z;
  assistant_mask : list Z;
  token_logprobs : option (list ChatCompletionTokenLogprob);
  prompt_id : Z;
  prompt_length : Z;
}.

Definition without_prompt (self : TokenizedResult) : TokenizedResult :=
  let assistant_mask' := slice_from (prompt_length self) (assistant_mask self) in
  {| reward := reward self;
     advantage := advantage self;
     deferred := deferred self;
     tokens := slice_from (prompt_length self) (tokens self);
     token_ids := slice_from (prompt_length self) (token_ids self);
     input_pos := slice_from (prompt_length self) (input_pos self);
     assistant_mask := assistant_mask';
     token_logprobs :=
       match token_logprobs self with
       | Some lps => Some (slice_from (py_len lps - py_sum assistant_mask') lps)
       | None => None
       end;
     prompt_id := prompt_id self;
     prompt_length := 0 |}.

(** *** The grouping pass of [TaskResultTokenizer.__call__] *)

(** [zip] over the unpacked lists: the columns of [first :: rest], up to
    the shortest of them. *)
Fixpoint zip_star_from (first : list Z) (rest : list (list Z)) : list (list Z) :=
  match first with
  | [] => []
  | x :: first' =>
      match mapM head rest with
      | Some xs => (x :: xs) :: zip_star_from first' (tail <$> rest)
      | None => []
      end
  end.

Definition zip_star (lists : list (list Z)) : list (list Z) :=
  match lists with
  | [] => []
  | first :: rest => zip_star_from first rest
  end.

Fixpoint takewhile {A} (p : A -> bool) (l : list A) : list A :=
  match l with
  | [] => []
  | x :: l' => if p x then x :: takewhile p l' else []
  end.

(** [lambda x: len(set(x)) == 1] *)
Definition single_valued (x : list Z) : bool :=
  bool_decide (size (list_to_set x : gset Z) = 1).

(** [result.assistant_mask[:prompt_length] = [0] * prompt_length] *)
Definition zero_prefix (prompt_length : Z) (mask : list Z) : list Z :=
  py_repeat 0%Z prompt_length ++ slice_from prompt_length mask.

Definition set_prompt (prompt_id' prompt_length' : Z) (result : TokenizedResult)
  : TokenizedResult :=
  {| reward := reward result;
     advantage := advantage result;
     deferred := deferred result;
     tokens := tokens result;
     token_ids := token_ids result;
     input_pos := input_pos result;
     assistant_mask := zero_prefix prompt_length' (assistant_mask result);
     token_logprobs := token_logprobs result;
     prompt_id := prompt_id';
     prompt_length := prompt_length' |}.

Definition common_prompt_length (tokenized_results : list TokenizedResult) : Z :=
  py_len (takewhile single_valued (zip_star (token_ids <$> tokenized_results))).

(** Lines 78-92 of tokenize.py, applied to the freshly tokenized siblings. *)
Definition group_results (g : RNG) (tokenized_results : list TokenizedResult)
  : RNG * list TokenizedResult :=
  let '(prompt_id', g') := randint int64_min int64_max g in
  let prompt_length' := common_prompt_length tokenized_results in
  (g', set_prompt prompt_id' prompt_length' <$> tokenized_results).

(** ** pack.py: the packer *)

(** The nine local lists of rows of [packed_tensors_from_tokenized_results];
    field [acc_x] is the local variable [x]. *)
Record Acc : Type := {
  acc_token_ids : list (list Z);
  acc_group_ids : list (list Z);
  acc_parent_ids : list (list Z);
  acc_input_pos : list (list Z);
  acc_assistant_mask : list (list Z);
  acc_logprobs : list (list pyfloat);
  acc_advantages : list (list pyfloat);
  acc_weights : list (list pyfloat);
  acc_deferred : list (list bool);
}.

(** Lines 47-55: every channel starts with one empty row. *)
Definition acc_init : Acc :=
  {| acc_token_ids := [[]];
     acc_group_ids := [[]];
     acc_parent_ids := [[]];
     acc_input_pos := [[]];
     acc_assistant_mask := [[]];
     acc_logprobs := [[]];
     acc_advantages := [[]];
     acc_weights := [[]];
     acc_deferred := [[]] |}.

(** [rows[-1]].  The channels are never empty lists, so the [IndexError] of
    an empty [rows] cannot happen and is not modelled. *)
Definition last_row {A} (rows : list (list A)) : list A := default [] (last rows).

(** [rows[-1] = row] *)
Fixpoint set_last_row {A} (row : A) (rows : list A) : list A :=
  match rows with
  | [] => []
  | [_] => [row]
  | r :: rows' => r :: set_last_row row rows'
  end.

(** Lines 74-82: [append([])] on every channel. *)
Definition new_row (acc : Acc) : Acc :=
  {| acc_token_ids := acc_token_ids acc ++ [[]];
     acc_group_ids := acc_group_ids acc ++ [[]];
     acc_parent_ids := acc_parent_ids acc ++ [[]];
     acc_input_pos := acc_input_pos acc ++ [[]];
     acc_assistant_mask := acc_assistant_mask acc ++ [[]];
     acc_logprobs := acc_logprobs acc ++ [[]];
     acc_advantages := acc_advantages acc ++ [[]];
     acc_weights := acc_weights acc ++ [[]];
     acc_deferred := acc_deferred acc ++ [[]] |}.

(** [token_logprob.logprob or float("nan")] *)
Definition logprob_or_nan (token_logprob : ChatCompletionTokenLogprob) : pyfloat :=
  match logprob token_logprob with
  | Some x => if float_truthy x then x else FNaN
  | None => FNaN
  end.

(** Lines 101-107: the loop over the zipped pairs. *)
Fixpoint write_logprobs (offset : nat)
    (pairs : list (nat * ChatCompletionTokenLogprob)) (row : list pyfloat)
  : res (list pyfloat) :=
  match pairs with
  | [] => Ok row
  | (idx, token_logprob) :: pairs' =>
      row' <- list_set (idx + offset) (logprob_or_nan token_logprob) row;;
      write_logprobs offset pairs' row'
  end.

(** Lines 96-107.  A list is truthy when it is not empty. *)
Definition overlay_logprobs (offset : nat) (result : TokenizedResult)
    (row : list pyfloat) : res (list pyfloat) :=
  match token_logprobs result with
  | Some ((_ :: _) as lps) =>
      let assistant_indices := truthy_indices_from 0 (assistant_mask result) in
      if decide (length assistant_indices ≤ length lps) then
        write_logprobs offset
          (zip assistant_indices
               (slice_from (py_len lps - py_len assistant_indices) lps))
          row
      else Raise AssertionError
  | _ => Ok row
  end.

(** [1 / n] on Python ints. *)
Definition py_inv (n : Z) : res pyfloat :=
  if (n =? 0)%Z then Raise ZeroDivisionError else Ok (FNum (1 / inject_Z n)).

(** Lines 114-123 on one channel. *)
Definition cut {A} (truncate_long_results : bool) (seq_len : Z) (row : list A)
  : list A :=
  if truncate_long_results then slice_to seq_len row else row.

(** Lines 88-89: the group ids written for [result]. *)
Definition group_span (group_id : Z) (result : TokenizedResult) : list Z :=
  py_repeat (prompt_id result) (prompt_length result)
  ++ py_repeat group_id (py_len (token_ids result) - prompt_length result).

(** Lines 86-123: append the effective [result] to the last row. *)
Definition append_result (seq_len : Z) (truncate_long_results : bool)
    (group_id : Z) (acc : Acc) (result : TokenizedResult) : res Acc :=
  let n := py_len (token_ids result) in
  let token_ids' := last_row (acc_token_ids acc) ++ token_ids result in
  let group_ids' := last_row (acc_group_ids acc) ++ group_span group_id result in
  let parent_ids' := last_row (acc_parent_ids acc) ++ py_repeat (prompt_id result) n in
  let input_pos' := last_row (acc_input_pos acc) ++ input_pos result in
  let assistant_mask' := last_row (acc_assistant_mask acc) ++ assistant_mask result in
  let offset := length (last_row (acc_logprobs acc)) in
  logprobs' <- overlay_logprobs offset result
                (last_row (acc_logprobs acc) ++ py_repeat FNaN n);;
  advantages' <- set_last_item (FNum 0)
                  (last_row (acc_advantages acc) ++ py_repeat (advantage result) n);;
  w <- py_inv (py_sum (assistant_mask result));;
  let weights' := last_row (acc_weights acc) ++ py_repeat w n in
  let deferred' := last_row (acc_deferred acc) ++ py_repeat (deferred result) n in
  let c {A} (row : list A) := cut truncate_long_results seq_len row in
  Ok {| acc_token_ids := set_last_row (c token_ids') (acc_token_ids acc);
        acc_group_ids := set_last_row (c group_ids') (acc_group_ids acc);
        acc_parent_ids := set_last_row (c parent_ids') (acc_parent_ids acc);
        acc_input_pos := set_last_row (c input_pos') (acc_input_pos acc);
        acc_assistant_mask := set_last_row (c assistant_mask') (acc_assistant_mask acc);
        acc_logprobs := set_last_row (c logprobs') (acc_logprobs acc);
        acc_advantages := set_last_row (c advantages') (acc_advantages acc);
        acc_weights := set_last_row (c weights') (acc_weights acc);
        acc_deferred := set_last_row (c deferred') (acc_deferred acc) |}.

(** Lines 58 and 62: the two reasons to skip a result. *)
Definition skipped (seq_len : Z) (truncate_long_results : bool)
    (result : TokenizedResult) : bool :=
  ((seq_len <? py_len (token_ids result))%Z && negb truncate_long_results)
  || (py_sum (assistant_mask result) =? 0)%Z.

(** [result.prompt_id in group_ids[-1]] *)
Definition prompt_in_row (acc : Acc) (result : TokenizedResult) : bool :=
  bool_decide (prompt_id result ∈ last_row (acc_group_ids acc)).

(** Lines 84-85: the result that is appended. *)
Definition effective (acc : Acc) (result : TokenizedResult) : TokenizedResult :=
  if prompt_in_row acc result then without_prompt result else result.

(** Lines 65-73: the length the last row would get. *)
Definition would_be_length (acc : Acc) (result : TokenizedResult) : Z :=
  (py_len (last_row (acc_token_ids acc))
   + (if prompt_in_row acc result
      then py_len (token_ids (without_prompt result))
      else py_len (token_ids result)))%Z.

(** Lines 65-82 *)
Definition maybe_flush (seq_len : Z) (acc : Acc) (result : TokenizedResult) : Acc :=
  if (seq_len <? would_be_length acc result)%Z then new_row acc else acc.

(** One iteration of the loop of lines 57-123. *)
Definition pack_iter (seq_len : Z) (truncate_long_results : bool)
    (s : RNG * Acc) (result : TokenizedResult) : res (RNG * Acc) :=
  if skipped seq_len truncate_long_results result then Ok s
  else
    let acc := maybe_flush seq_len s.2 result in
    let '(group_id, g) := randint int64_min int64_max s.1 in
    acc' <- append_result seq_len truncate_long_results group_id acc
             (effective acc result);;
    Ok (g, acc').

Fixpoint pack_loop (seq_len : Z) (truncate_long_results : bool)
    (s : RNG * Acc) (tokenized_results : list TokenizedResult) : res (RNG * Acc) :=
  match tokenized_results with
  | [] => Ok s
  | result :: rest =>
      s' <- pack_iter seq_len truncate_long_results s result;;
      pack_loop seq_len truncate_long_results s' rest
  end.

(** *** Tensors *)

(** A tensor is its shape and its elements in row-major order. *)
Record Tensor (A : Type) : Type := {
  shape : list nat;
  elems : list A;
}.
Arguments shape {A} _.
Arguments elems {A} _.

(** A Python int that fits [torch.long], the element type [torch.tensor]
    infers for a list of ints. *)
Definition fits_int64 (z : Z) : bool :=
  (int64_min <=? z)%Z && (z <=? int64_max)%Z.

(** [torch.tensor] on a list of rows.  The shape is read off the first
    row.  When that row is empty the tensor has no element and nothing is
    stored; otherwise each row is stored in turn, and a row of another
    length (ragged rows) or an element that cannot be stored is refused. *)
Definition torch_tensor_of {A} (storable : A -> bool) (rows : list (list A))
  : res (Tensor A) :=
  match rows with
  | [] => Ok {| shape := [0]; elems := [] |}
  | r :: _ =>
      if length r =? 0 then Ok {| shape := [length rows; 0]; elems := [] |}
      else if forallb (fun r' => (length r' =? length r) && forallb storable r')
                rows
      then Ok {| shape := [length rows; length r]; elems := concat rows |}
      else Raise ValueError
  end.

(** [torch.tensor] on rows of floats or bools, and on rows of ints under
    [dtype=torch.bool]: every element can be stored. *)
Definition torch_tensor {A} (rows : list (list A)) : res (Tensor A) :=
  torch_tensor_of (fun _ => true) rows.

(** [torch.tensor] on rows of ints: an int outside the range of
    [torch.long] is refused. *)
Definition torch_tensor_long (rows : list (list Z)) : res (Tensor Z) :=
  torch_tensor_of fits_int64 rows.

(** The rows of a 2-D tensor. *)
Definition tensor_rows {A} (t : Tensor A) : list (list A) :=
  match shape t with
  | [R; L] => reshape (replicate R L) (elems t)
  | _ => []
  end.

(** [torch.where(cond, x, y)] on tensors of one shape; broadcasting of
    unequal shapes is not modelled. *)
Definition torch_where {A} (cond : Tensor bool) (x y : Tensor A) : res (Tensor A) :=
  if decide (shape cond = shape x ∧ shape y = shape x) then
    Ok {| shape := shape x;
          elems := zip_with (fun (c : bool) xy => if c then xy.1 else xy.2)
                     (elems cond) (zip (elems x) (elems y)) |}
  else Raise RuntimeError.

Definition zeros_like {A} (t : Tensor A) : Tensor pyfloat :=
  {| shape := shape t; elems := replicate (length (elems t)) (FNum 0) |}.

(** The elements of [xs] at the positions where [ms] is true. *)
Definition select {A} (ms : list bool) (xs : list A) : list A :=
  snd <$> filter (fun p => p.1 = true) (zip ms xs).

(** [t[mask]]: the selected elements, in row-major order. *)
Definition masked_select {A} (t : Tensor A) (mask : Tensor bool) : list A :=
  select (elems mask) (elems t).

Definition fsum (l : list pyfloat) : pyfloat := foldr fadd (FNum 0) l.

(** [.mean()]; the mean of no element is NaN. *)
Definition torch_mean (l : list pyfloat) : pyfloat :=
  fdiv (fsum l) (FNum (inject_Z (py_len l))).

(** [t[mask] /= d] *)
Definition masked_div (t : Tensor pyfloat) (mask : Tensor bool) (d : pyfloat)
  : Tensor pyfloat :=
  {| shape := shape t;
     elems := zip_with (fun (m : bool) x => if m then fdiv x d else x)
                (elems mask) (elems t) |}.

(** Lines 125-129.  The rows are padded in place, each channel once. *)
Definition pad {A} (seq_len : Z) (values : list (list A)) (pad_value : A)
  : list (list A) :=
  (fun value => value ++ py_repeat pad_value (seq_len - py_len value)) <$> values.

Record PackedTensors : Type := {
  pt_tokens : Tensor Z;
  pt_group_ids : Tensor Z;
  pt_parent_ids : Tensor Z;
  pt_input_pos : Tensor Z;
  pt_assistant_mask : Tensor bool;
  pt_logprobs : Tensor pyfloat;
  pt_advantages : Tensor pyfloat;
  pt_weights : Tensor pyfloat;
  pt_deferred : Tensor bool;
}.

(** Lines 131-138 *)
Definition normalized_weights (seq_len : Z) (acc : Acc)
  : res (Tensor bool * Tensor pyfloat) :=
  assistant_mask_tensor <-
    torch_tensor (map (map truthy) (pad seq_len (acc_assistant_mask acc) 0%Z));;
  weights_tensor <- torch_tensor (pad seq_len (acc_weights acc) (FNum 0));;
  weights_tensor <- torch_where assistant_mask_tensor weights_tensor
                      (zeros_like weights_tensor);;
  Ok (assistant_mask_tensor,
      masked_div weights_tensor assistant_mask_tensor
        (torch_mean (masked_select weights_tensor assistant_mask_tensor))).

(** Lines 125-150 *)
Definition finalize (seq_len pad_token_id : Z) (acc : Acc) : res PackedTensors :=
  mw <- normalized_weights seq_len acc;;
  let '(assistant_mask_tensor, weights_tensor) := mw in
  tokens_t <- torch_tensor_long (pad seq_len (acc_token_ids acc) pad_token_id);;
  group_ids_t <- torch_tensor_long (pad seq_len (acc_group_ids acc) (-1)%Z);;
  parent_ids_t <- torch_tensor_long (pad seq_len (acc_parent_ids acc) (-1)%Z);;
  input_pos_t <- torch_tensor_long (pad seq_len (acc_input_pos acc) 0%Z);;
  logprobs_t <- torch_tensor (pad seq_len (acc_logprobs acc) FNaN);;
  advantages_t <- torch_tensor (pad seq_len (acc_advantages acc) (FNum 0));;
  deferred_t <- torch_tensor (pad seq_len (acc_deferred acc) false);;
  Ok {| pt_tokens := tokens_t;
        pt_group_ids := group_ids_t;
        pt_parent_ids := parent_ids_t;
        pt_input_pos := input_pos_t;
        pt_assistant_mask := assistant_mask_tensor;
        pt_logprobs := logprobs_t;
        pt_advantages := advantages_t;
        pt_weights := weights_tensor;
        pt_deferred := deferred_t |}.

(** Lines 47-123: the rows before padding. *)
Definition pack_rows (g : RNG) (tokenized_results : list TokenizedResult)
    (seq_len : Z) (truncate_long_results : bool) : res Acc :=
  s <- pack_loop seq_len truncate_long_results (g, acc_init) tokenized_results;;
  Ok s.2.

Definition packed_tensors_from_tokenized_results (g : RNG)
    (tokenized_results : list TokenizedResult) (seq_len : Z)
    (pad_token_id : Z) (truncate_long_results : bool) : res PackedTensors :=
  acc <- pack_rows g tokenized_results seq_len truncate_long_results;;
  finalize seq_len pad_token_id acc.

(** ** pack.py: the storage adapter *)

(** The content of a buffer file, by element type. *)
Inductive Buffer : Type :=
  | LongBuffer (l : list Z)
  | BoolBuffer (l : list bool)
  | FloatBuffer (l : list pyfloat).

(** The largest [k] with [2 ^ k <= q], for a positive [q]. *)
Definition Qlog2 (q : Q) : Z :=
  let k := (Z.log2 (Qnum q) - Z.log2 (Zpos (Qden q)))%Z in
  if Qle_bool (2 ^ k) q then k else (k - 1)%Z.

(** A [torch.float32] after the first byte of its little-endian
    representation, the low eight bits of the significand, has been zeroed:
    the magnitude is cut down to a multiple of the weight of the ninth bit
    (a significand has 24 bits; the smallest exponent of a bit is -149).
    Zero and the infinities have no bit set there, nor has the quiet NaN. *)
Definition f32_zero_first_byte (x : pyfloat) : pyfloat :=
  match x with
  | FNum q =>
      if Qeq_bool q 0 then x
      else
        let u := (2 ^ Z.max (Qlog2 (Qabs q) - 15) (-141))%Q in
        let k := inject_Z (Qfloor (Qabs q / u)) in
        FNum ((if Qneg q then - k else k) * u)
  | _ => x
  end.

(** The element types [torch.long], [torch.bool] and [torch.float32].
    [dt_zero_first_byte x] is the element read back after the first byte of
    the little-endian representation of [x] has been zeroed. *)
Class DType (A : Type) : Type := {
  dt_zero : A;
  dt_zero_first_byte : A -> A;
  dt_wrap : list A -> Buffer;
  dt_unwrap : Buffer -> option (list A);
  dt_unwrap_wrap : forall l, dt_unwrap (dt_wrap l) = Some l;
}.

#[global] Instance long_dtype : DType Z :=
  {| dt_zero := 0%Z;
     dt_zero_first_byte z := (z - z mod 256)%Z;
     dt_wrap := LongBuffer;
     dt_unwrap b := match b with LongBuffer l => Some l | _ => None end;
     dt_unwrap_wrap l := eq_refl |}.

#[global] Instance bool_dtype : DType bool :=
  {| dt_zero := false;
     dt_zero_first_byte _ := false;
     dt_wrap := BoolBuffer;
     dt_unwrap b := match b with BoolBuffer l => Some l | _ => None end;
     dt_unwrap_wrap l := eq_refl |}.

#[global] Instance float_dtype : DType pyfloat :=
  {| dt_zero := FNum 0;
     dt_zero_first_byte := f32_zero_first_byte;
     dt_wrap := FloatBuffer;
     dt_unwrap b := match b with FloatBuffer l => Some l | _ => None end;
     dt_unwrap_wrap l := eq_refl |}.

(** The files, by directory and channel name: the file of channel [key] in
    directory [dir] is [dir/key.pt]. *)
Abbreviation FS := (gmap (string * string) Buffer).

Record DiskPackedTensors : Type := {
  dir : string;
  num_sequences : nat;
  sequence_length : nat;
}.

(** The content of the file [path] once it has been mapped with [size]
    elements: a missing file is created with [size] zeros; a file of fewer
    elements is grown with zeros to [size] elements, and the first byte of
    the file is zeroed; a file of [size] elements or more is left as it is.
    Reading a file under another element type than the one it was written
    with is not modelled: such a file counts as missing. *)
Definition mapped_file {A} `{DType A} (fs : FS) (path : string * string)
    (size : nat) : list A :=
  match fs !! path ≫= dt_unwrap with
  | Some l =>
      if decide (length l < size) then
        match l with
        | x :: l' =>
            dt_zero_first_byte x :: l' ++ replicate (size - length l) dt_zero
        | [] => replicate size dt_zero
        end
      else l
  | None => replicate size dt_zero
  end.

(** [torch.from_file(path, shared=True, size=size, dtype=dtype)]: the file
    is mapped, and its first [size] elements are the tensor. *)
Definition from_file {A} `{DType A} (fs : FS) (path : string * string)
    (size : nat) : FS * list A :=
  let file : list A := mapped_file fs path size in
  (<[path := dt_wrap file]> fs, take size file).

Definition prod_list (l : list nat) : nat := foldr Nat.mul 1 l.

(** [.view(n, l, -1)]: the last dimension is inferred. *)
Definition view_infer_last {A} (n l : nat) (flat : list A) : res (Tensor A) :=
  if decide (n * l = 0) then Raise RuntimeError
  else if decide (length flat mod (n * l) = 0)
  then Ok {| shape := [n; l; length flat / (n * l)]; elems := flat |}
  else Raise RuntimeError.

(** [.squeeze()]: every dimension of size 1 is removed. *)
Definition squeeze {A} (t : Tensor A) : Tensor A :=
  {| shape := filter (fun d => d <> 1) (shape t); elems := elems t |}.

(** Lines 156-165 for one channel: map the file, view it and squeeze. *)
Definition open_channel {A} `{DType A} (fs : FS) (d : DiskPackedTensors)
    (key : string) : res (FS * Tensor A) :=
  let size :=
    num_sequences d * sequence_length d
    * (if String.eqb key "mask" then sequence_length d else 1) in
  let '(fs, flat) := from_file fs (dir d, key) size in
  t <- view_infer_last (num_sequences d) (sequence_length d) flat;;
  Ok (fs, squeeze t).

Definition packed_tensors_from_dir (fs : FS) (d : DiskPackedTensors)
  : res (FS * PackedTensors) :=
  r <- open_channel (A := Z) fs d "tokens";;
  let '(fs, tokens_t) := r in
  r <- open_channel (A := Z) fs d "group_ids";;
  let '(fs, group_ids_t) := r in
  r <- open_channel (A := Z) fs d "parent_ids";;
  let '(fs, parent_ids_t) := r in
  r <- open_channel (A := Z) fs d "input_pos";;
  let '(fs, input_pos_t) := r in
  r <- open_channel (A := bool) fs d "assistant_mask";;
  let '(fs, assistant_mask_t) := r in
  r <- open_channel (A := pyfloat) fs d "logprobs";;
  let '(fs, logprobs_t) := r in
  r <- open_channel (A := pyfloat) fs d "advantages";;
  let '(fs, advantages_t) := r in
  r <- open_channel (A := pyfloat) fs d "weights";;
  let '(fs, weights_t) := r in
  r <- open_channel (A := bool) fs d "deferred";;
  let '(fs, deferred_t) := r in
  Ok (fs,
      {| pt_tokens := tokens_t;
         pt_group_ids := group_ids_t;
         pt_parent_ids := parent_ids_t;
         pt_input_pos := input_pos_t;
         pt_assistant_mask := assistant_mask_t;
         pt_logprobs := logprobs_t;
         pt_advantages := advantages_t;
         pt_weights := weights_t;
         pt_deferred := deferred_t |}).

(** The elements of a tensor of shape [ss] expanded to the shape [ts] of the
    same number of dimensions: a dimension of size 1 is repeated. *)
Fixpoint expand_aligned {A} (ss ts : list nat) (data : list A) : option (list A) :=
  match ss, ts with
  | [], [] => Some data
  | s :: ss', t :: ts' =>
      match mapM (expand_aligned ss' ts')
                 (reshape (replicate s (prod_list ss')) data) with
      | Some chunks =>
          if decide (s = t) then Some (concat chunks)
          else if decide (s = 1) then Some (concat (replicate t (concat chunks)))
          else None
      | None => None
      end
  | _, _ => None
  end.

(** Broadcasting [src] to the shape of the destination of an in-place
    operation: [src] may have fewer dimensions, never more. *)
Definition expand {A} (target : list nat) (src : Tensor A) : option (list A) :=
  if decide (length (shape src) <= length target) then
    expand_aligned
      (replicate (length target - length (shape src)) 1 ++ shape src)
      target (elems src)
  else None.

(** [tensor.copy_(src)] on the mapped view [tensor] of the file [path]:
    the elements of the view are overwritten, the rest of the file stays. *)
Definition copy_ {A} `{DType A} (fs : FS) (path : string * string)
    (tensor src : Tensor A) : res FS :=
  match expand (shape tensor) src with
  | Some data =>
      let file : list A := default [] (fs !! path ≫= dt_unwrap) in
      Ok (<[path := dt_wrap (data ++ drop (length data) file)]> fs)
  | None => Raise RuntimeError
  end.

Definition packed_tensors_to_dir (fs : FS) (tensors : PackedTensors)
    (dir' : string) : res (FS * DiskPackedTensors) :=
  match shape (pt_tokens tensors) with
  | n :: l :: _ =>
      let disk_packed_tensors :=
        {| dir := dir'; num_sequences := n; sequence_length := l |} in
      r <- packed_tensors_from_dir fs disk_packed_tensors;;
      let '(fs, views) := r in
      fs <- copy_ fs (dir', "tokens") (pt_tokens views) (pt_tokens tensors);;
      fs <- copy_ fs (dir', "group_ids") (pt_group_ids views)
              (pt_group_ids tensors);;
      fs <- copy_ fs (dir', "parent_ids") (pt_parent_ids views)
              (pt_parent_ids tensors);;
      fs <- copy_ fs (dir', "input_pos") (pt_input_pos views)
              (pt_input_pos tensors);;
      fs <- copy_ fs (dir', "assistant_mask") (pt_assistant_mask views)
              (pt_assistant_mask tensors);;
      fs <- copy_ fs (dir', "logprobs") (pt_logprobs views)
              (pt_logprobs tensors);;
      fs <- copy_ fs (dir', "advantages") (pt_advantages views)
              (pt_advantages tensors);;
      fs <- copy_ fs (dir', "weights") (pt_weights views) (pt_weights tensors);;
      fs <- copy_ fs (dir', "deferred") (pt_deferred views)
              (pt_deferred tensors);;
      Ok (fs, disk_packed_tensors)
  | _ => Raise IndexError
  end.

(** ** tokenize.py: [get_token_logprobs] *)

(** [ChoiceLogprobs]: the field the pipeline reads. *)
Record ChoiceLogprobs : Type := {
  content : option (list ChatCompletionTokenLogprob);
}.

(** The empty string joined over [l]. *)
Definition join (l : list pystr) : pystr := concat l.

(** [ChatCompletionTokenLogprob(token=tok, logprob=float("nan"),
    top_logprobs=[])] *)
Definition nan_logprob (tok : pystr) : ChatCompletionTokenLogprob :=
  {| token := tok; logprob := Some FNaN |}.

(** Lines 190-226: the loop that realigns the tokens of the tokenizer with
    the tokens of the completion.  Each [pop(0)] of an empty list raises
    the [IndexError] that ends the loop with the entries collected so far;
    the last branch gives up with [None]. *)
Fixpoint align_tokens (assistant_tokens : list pystr)
  : list ChatCompletionTokenLogprob -> pystr -> pystr ->
    list ChatCompletionTokenLogprob -> option (list ChatCompletionTokenLogprob) :=
  fix inner (result_token_logprobs : list ChatCompletionTokenLogprob)
      (completion result_completion : pystr)
      (token_logprobs : list ChatCompletionTokenLogprob)
      {struct result_token_logprobs}
    : option (list ChatCompletionTokenLogprob) :=
    if bool_decide (completion = result_completion) then
      match assistant_tokens with
      | [] => Some token_logprobs
      | tok :: assistant_tokens' =>
          match result_token_logprobs with
          | [] => Some token_logprobs
          | result_token_logprob :: result_token_logprobs' =>
              let result_token := token result_token_logprob in
              align_tokens assistant_tokens' result_token_logprobs'
                (completion ++ tok)
                (result_completion ++ result_token)
                (token_logprobs
                 ++ [if bool_decide (tok = result_token)
                     then result_token_logprob
                     else nan_logprob tok])
          end
      end
    else if length completion <? length result_completion then
      match assistant_tokens with
      | [] => Some token_logprobs
      | tok :: assistant_tokens' =>
          align_tokens assistant_tokens' result_token_logprobs
            (completion ++ tok) result_completion
            (token_logprobs ++ [nan_logprob tok])
      end
    else if length result_completion <? length completion then
      match result_token_logprobs with
      | [] => Some token_logprobs
      | result_token_logprob :: result_token_logprobs' =>
          inner result_token_logprobs' completion
            (result_completion ++ token result_token_logprob)
            token_logprobs
      end
    else None.

(** Lines 166-227, on [choice.logprobs]. *)
Definition get_token_logprobs (choice_logprobs : option ChoiceLogprobs)
    (assistant_tokens : list pystr)
  : option (list ChatCompletionTokenLogprob) :=
  match choice_logprobs with
  | None => None
  | Some logprobs =>
      match content logprobs with
      | None | Some [] => None
      | Some result_token_logprobs =>
          if negb (bool_decide (join assistant_tokens
                                = join (token <$> result_token_logprobs)))
             && negb (length assistant_tokens =? length result_token_logprobs)
          then None
          else if bool_decide
                    (assistant_tokens = token <$> result_token_logprobs)
          then Some result_token_logprobs
          else align_tokens assistant_tokens result_token_logprobs [] [] []
      end
  end.

(** ** pack.py: [PackedDataset] *)

Record PackedDataset : Type := {
  tensors : PackedTensors;
}.

(** [PackedDataset.__init__] *)
Definition PackedDataset_init (fs : FS) (d : DiskPackedTensors)
  : res (FS * PackedDataset) :=
  r <- packed_tensors_from_dir fs d;;
  Ok (r.1, {| tensors := r.2 |}).

(** [PackedDataset.__len__]: [shape[0]] of the token tensor. *)
Definition PackedDataset_len (self : PackedDataset) : res nat :=
  match shape (pt_tokens (tensors self)) with
  | n :: _ => Ok n
  | [] => Raise IndexError
  end.

(** [tensor[index]] for an integer index: the sub-tensor at [index] along
    the first dimension; a negative index counts from the end.  The
    conversion of the index to a 64-bit integer, which torch performs
    first, is not modelled. *)
Definition tensor_getitem {A} (t : Tensor A) (index : Z) : res (Tensor A) :=
  match shape t with
  | [] => Raise IndexError
  | n :: ds =>
      let i := if (index <? 0)%Z then (index + Z.of_nat n)%Z else index in
      if (0 <=? i)%Z && (i <? Z.of_nat n)%Z then
        Ok {| shape := ds;
              elems := take (prod_list ds)
                         (drop (Z.to_nat i * prod_list ds) (elems t)) |}
      else Raise IndexError
  end.

(** [PackedDataset.__getitem__] *)
Definition PackedDataset_getitem (self : PackedDataset) (index : Z)
  : res PackedTensors :=
  tokens_t <- tensor_getitem (pt_tokens (tensors self)) index;;
  group_ids_t <- tensor_getitem (pt_group_ids (tensors self)) index;;
  parent_ids_t <- tensor_getitem (pt_parent_ids (tensors self)) index;;
  input_pos_t <- tensor_getitem (pt_input_pos (tensors self)) index;;
  assistant_mask_t <- tensor_getitem (pt_assistant_mask (tensors self)) index;;
  logprobs_t <- tensor_getitem (pt_logprobs (tensors self)) index;;
  advantages_t <- tensor_getitem (pt_advantages (tensors self)) index;;
  weights_t <- tensor_getitem (pt_weights (tensors self)) index;;
  deferred_t <- tensor_getitem (pt_deferred (tensors self)) index;;
  Ok {| pt_tokens := tokens_t;
        pt_group_ids := group_ids_t;
        pt_parent_ids := parent_ids_t;
        pt_input_pos := input_pos_t;
        pt_assistant_mask := assistant_mask_t;
        pt_logprobs := logprobs_t;
        pt_advantages := advantages_t;
        pt_weights := weights_t;
        pt_deferred := deferred_t |}.

(** * Vocabulary of the statements *)

(** The structural invariant of a [TokenizedResult]: the per-token lists
    have one length and [prompt_length] counts leading tokens. *)
Record wf_result (r : TokenizedResult) : Prop := {
  wf_input_pos : length (input_pos r) = length (token_ids r);
  wf_assistant_mask : length (assistant_mask r) = length (token_ids r);
  wf_prompt_length : (0 <= prompt_length r <= py_len (token_ids r))%Z;
}.

Definition lens {A} (rows : list (list A)) : list nat := length <$> rows.

(** All nine channels have the same rows of the same lengths. *)
Record aligned (acc : Acc) : Prop := {
  al_group_ids : lens (acc_group_ids acc) = lens (acc_token_ids acc);
  al_parent_ids : lens (acc_parent_ids acc) = lens (acc_token_ids acc);
  al_input_pos : lens (acc_input_pos acc) = lens (acc_token_ids acc);
  al_assistant_mask : lens (acc_assistant_mask acc) = lens (acc_token_ids acc);
  al_logprobs : lens (acc_logprobs acc) = lens (acc_token_ids acc);
  al_advantages : lens (acc_advantages acc) = lens (acc_token_ids acc);
  al_weights : lens (acc_weights acc) = lens (acc_token_ids acc);
  al_deferred : lens (acc_deferred acc) = lens (acc_token_ids acc);
}.

Record acc_ok (seq_len : Z) (acc : Acc) : Prop := {
  ok_nonempty : acc_token_ids acc <> [];
  ok_aligned : aligned acc;
  ok_bounded : Forall (fun row => (py_len row <= seq_len)%Z) (acc_token_ids acc);
}.

(** The flat contents of the mask and weight channels after padding. *)
Definition mask_elems (seq_len : Z) (acc : Acc) : list bool :=
  concat (map (map truthy) (pad seq_len (acc_assistant_mask acc) 0%Z)).

Definition where_elems (seq_len : Z) (acc : Acc) : list pyfloat :=
  zip_with (fun (c : bool) xy => if c then xy.1 else xy.2)
    (mask_elems seq_len acc)
    (zip (concat (pad seq_len (acc_weights acc) (FNum 0)))
         (replicate (length (concat (pad seq_len (acc_weights acc) (FNum 0))))
            (FNum 0))).

(** The range of [torch.long]. *)
Definition in_int64 (z : Z) : Prop := (int64_min <= z <= int64_max)%Z.

(** The token ids and positions of a result fit [torch.long]. *)
Definition int64_tokens (r : TokenizedResult) : Prop :=
  Forall in_int64 (token_ids r) /\ Forall in_int64 (input_pos r).

(** All the integers of a result that reach a tensor fit [torch.long]. *)
Definition int64_result (r : TokenizedResult) : Prop :=
  int64_tokens r /\ in_int64 (prompt_id r).

(** The rows of the four integer channels hold integers of [torch.long]. *)
Record acc_int64 (acc : Acc) : Prop := {
  i64_token_ids : Forall (Forall in_int64) (acc_token_ids acc);
  i64_group_ids : Forall (Forall in_int64) (acc_group_ids acc);
  i64_parent_ids : Forall (Forall in_int64) (acc_parent_ids acc);
  i64_input_pos : Forall (Forall in_int64) (acc_input_pos acc);
}.

(** Whether every integer of every row can be stored. *)
Definition storable_rows (rows : list (list Z)) : bool :=
  forallb (forallb fits_int64) rows.

(** Whether the four padded integer channels can be stored: rows of no
    element always can. *)
Definition channels_fit (seq_len pad_token_id : Z) (acc : Acc) : bool :=
  (Z.to_nat seq_len =? 0)
  || (storable_rows (pad seq_len (acc_token_ids acc) pad_token_id)
      && storable_rows (pad seq_len (acc_group_ids acc) (-1)%Z)
      && storable_rows (pad seq_len (acc_parent_ids acc) (-1)%Z)
      && storable_rows (pad seq_len (acc_input_pos acc) 0%Z)).

(** A tensor of [R] rows and [L] columns. *)
Definition has_shape {A} (R L : nat) (t : Tensor A) : Prop :=
  shape t = [R; L] /\ length (elems t) = R * L.

(** Every row of every channel holds at most [seq_len] elements. *)
Definition rows_bounded (seq_len : Z) (acc : Acc) : Prop :=
  Forall (fun row => (py_len row <= seq_len)%Z) (acc_token_ids acc)
  /\ Forall (fun row => (py_len row <= seq_len)%Z) (acc_group_ids acc)
  /\ Forall (fun row => (py_len row <= seq_len)%Z) (acc_parent_ids acc)
  /\ Forall (fun row => (py_len row <= seq_len)%Z) (acc_input_pos acc)
  /\ Forall (fun row => (py_len row <= seq_len)%Z) (acc_assistant_mask acc)
  /\ Forall (fun row => (py_len row <= seq_len)%Z) (acc_logprobs acc)
  /\ Forall (fun row => (py_len row <= seq_len)%Z) (acc_advantages acc)
  /\ Forall (fun row => (py_len row <= seq_len)%Z) (acc_weights acc)
  /\ Forall (fun row => (py_len row <= seq_len)%Z) (acc_deferred acc).

(** Sample inputs used to exercise the statements below. *)
Definition sample_rng : RNG := fun n => Z.of_nat n.

(** A random stream whose second draw from the signed 64-bit range is 9. *)
Definition colliding_rng : RNG :=
  fun n => match n with 1 => (2 ^ 63 + 9)%Z | _ => 0%Z end.

Definition sample_logprob (q : Q) : ChatCompletionTokenLogprob :=
  {| token := str "t"; logprob := Some (FNum q) |}.

Definition sample_result (adv : Q) (ids mask : list Z)
    (lps : option (list ChatCompletionTokenLogprob)) (pid pl : Z)
  : TokenizedResult :=
  {| reward := FNum 0; advantage := FNum adv; deferred := false; tokens := [];
     token_ids := ids; input_pos := Z.of_nat <$> seq 0 (length ids);
     assistant_mask := mask; token_logprobs := lps;
     prompt_id := pid; prompt_length := pl |}.

(** Two siblings of one prompt: three and two tokens, one prompt token. *)
Definition sample_batch : list TokenizedResult :=
  [ sample_result 1 [5; 6; 7]%Z [0; 1; 1]%Z
      (Some [sample_logprob (-1); sample_logprob 0; sample_logprob (-3)]) 9 1;
    sample_result 2 [5; 8]%Z [0; 1]%Z None 9 1 ].


(** A result of three tokens, longer than a row of two. *)
Definition long_result : TokenizedResult :=
  sample_result 1 [5; 6; 7]%Z [0; 1; 1]%Z None 9 1.

Definition Qsum (qs : list Q) : Q := foldr Qplus 0%Q qs.

Definition pos_float (x : pyfloat) : Prop := exists q, x = FNum q /\ (0 < q)%Q.

Definition mask01 (r : TokenizedResult) : Prop :=
  Forall (fun m => m = 0%Z \/ m = 1%Z) (assistant_mask r).

(** A result whose completion is empty: all of its mask is 0. *)
Definition unsupervised_result : TokenizedResult :=
  sample_result 1 [5; 6; 7]%Z [0; 0; 0]%Z None 9 3.

(** A result whose only assistant position lies beyond a row of two. *)
Definition late_result : TokenizedResult :=
  sample_result 1 [5; 6; 7]%Z [0; 0; 1]%Z None 9 2.

(** A result that carries one log-probability for two assistant positions. *)
Definition partial_logprobs_result : TokenizedResult :=
  sample_result 1 [5; 6; 7]%Z [0; 1; 1]%Z (Some [sample_logprob (-1)]) 9 1.

(** Three log-probabilities for two assistant positions: the last two are
    used. *)
Definition surplus_logprobs_result : TokenizedResult :=
  sample_result 1 [5; 6; 7]%Z [0; 1; 1]%Z
    (Some [sample_logprob (-1); sample_logprob (-2); sample_logprob (-3)]) 9 1.

(** The middle one of three log-probabilities is 0.0. *)
Definition zero_logprob_result : TokenizedResult :=
  sample_result 1 [5; 6; 7]%Z [0; 1; 1]%Z
    (Some [sample_logprob (-1); sample_logprob 0; sample_logprob (-3)]) 9 1.

Definition uniform_column (rs : list TokenizedResult) (j : nat) : Prop :=
  exists tok, forall r, r ∈ rs -> token_ids r !! j = Some tok.

(** What the packer needs from a result to process it without exception:
    the structural invariant, a 0/1 mask that is 0 on the prompt (as the
    grouping pass leaves it), and log-probabilities that are absent, empty
    or at least as many as the assistant positions. *)
Record packable (r : TokenizedResult) : Prop := {
  pk_wf : wf_result r;
  pk_mask01 : mask01 r;
  pk_prompt :
    Forall (fun m => m = 0%Z)
      (take (Z.to_nat (prompt_length r)) (assistant_mask r));
  pk_logprobs :
    forall lps, token_logprobs r = Some lps ->
      lps = [] \/ length (truthy_indices_from 0 (assistant_mask r)) <= length lps;
}.

(** The file [path] starts with the elements [xs]. *)
Definition holds {A} `{DType A} (fs : FS) (path : string * string)
    (xs : list A) : Prop :=
  exists rest, fs !! path = Some (dt_wrap (xs ++ rest)).

(** A directory that holds the channels of [pt]. *)
Record stored (fs : FS) (dir' : string) (pt : PackedTensors) : Prop := {
  st_tokens : holds fs (dir', "tokens") (elems (pt_tokens pt));
  st_group_ids : holds fs (dir', "group_ids") (elems (pt_group_ids pt));
  st_parent_ids : holds fs (dir', "parent_ids") (elems (pt_parent_ids pt));
  st_input_pos : holds fs (dir', "input_pos") (elems (pt_input_pos pt));
  st_assistant_mask :
    holds fs (dir', "assistant_mask") (elems (pt_assistant_mask pt));
  st_logprobs : holds fs (dir', "logprobs") (elems (pt_logprobs pt));
  st_advantages : holds fs (dir', "advantages") (elems (pt_advantages pt));
  st_weights : holds fs (dir', "weights") (elems (pt_weights pt));
  st_deferred : holds fs (dir', "deferred") (elems (pt_deferred pt));
}.

(** All nine channels have [n] rows and [l] columns. *)
Record all_shaped (n l : nat) (pt : PackedTensors) : Prop := {
  sh_tokens : has_shape n l (pt_tokens pt);
  sh_group_ids : has_shape n l (pt_group_ids pt);
  sh_parent_ids : has_shape n l (pt_parent_ids pt);
  sh_input_pos : has_shape n l (pt_input_pos pt);
  sh_assistant_mask : has_shape n l (pt_assistant_mask pt);
  sh_logprobs : has_shape n l (pt_logprobs pt);
  sh_advantages : has_shape n l (pt_advantages pt);
  sh_weights : has_shape n l (pt_weights pt);
  sh_deferred : has_shape n l (pt_deferred pt);
}.

(** A result that takes part in the packing. *)
Definition kept (seq_len : Z) (truncate_long_results : bool)
    (result : TokenizedResult) : Prop :=
  skipped seq_len truncate_long_results result = false.

#[global] Instance kept_dec seq_len t r : Decision (kept seq_len t r).
Proof. unfold kept. apply _. Defined.

(** A tensor of one row that holds [x] everywhere. *)
Definition padding_row {A} (n : nat) (x : A) : Tensor A :=
  {| shape := [1; n]; elems := replicate n x |}.

(** The output for a batch without content. *)
Definition padding_only (seq_len pad_token_id : Z) : PackedTensors :=
  {| pt_tokens := padding_row (Z.to_nat seq_len) pad_token_id;
     pt_group_ids := padding_row (Z.to_nat seq_len) (-1)%Z;
     pt_parent_ids := padding_row (Z.to_nat seq_len) (-1)%Z;
     pt_input_pos := padding_row (Z.to_nat seq_len) 0%Z;
     pt_assistant_mask := padding_row (Z.to_nat seq_len) false;
     pt_logprobs := padding_row (Z.to_nat seq_len) FNaN;
     pt_advantages := padding_row (Z.to_nat seq_len) (FNum 0);
     pt_weights := padding_row (Z.to_nat seq_len) (FNum 0);
     pt_deferred := padding_row (Z.to_nat seq_len) false |}.

(** One of the two forms in which a result is appended. *)
Definition form_of (r e : TokenizedResult) : Prop := e = r \/ e = without_prompt r.

(** A sibling of [sample_batch]'s first result whose only assistant
    position is its prompt token. *)
Definition prompt_only_result : TokenizedResult :=
  sample_result 2 [5; 8]%Z [1; 0]%Z None 9 1.

(** When a result carries log-probabilities, there is at least one per
    assistant position. *)
Definition enough_logprobs (r : TokenizedResult) : Prop :=
  forall lps, token_logprobs r = Some lps ->
    lps = [] \/ length (truthy_indices_from 0 (assistant_mask r)) <= length lps.

(** A completion whose first token spans two tokens of the tokenizer. *)
Definition sample_choice_logprobs : option ChoiceLogprobs :=
  Some {| content :=
            Some [ {| token := str "ab"; logprob := Some (FNum (-1)) |};
                   {| token := str "c"; logprob := Some (FNum (-2)) |} ] |}.

Definition sample_assistant_tokens : list pystr := [str "a"; str "b"; str "c"].

(** [item] is row [i] of the two-dimensional tensor [t], as a tensor of one
    dimension. *)
Definition row_of {A} (i l : nat) (t item : Tensor A) : Prop :=
  shape item = [l] /\ tensor_rows t !! i = Some (elems item).

(** [item] holds row [i] of every channel of [pt]. *)
Record item_of (i l : nat) (pt item : PackedTensors) : Prop := {
  it_tokens : row_of i l (pt_tokens pt) (pt_tokens item);
  it_group_ids : row_of i l (pt_group_ids pt) (pt_group_ids item);
  it_parent_ids : row_of i l (pt_parent_ids pt) (pt_parent_ids item);
  it_input_pos : row_of i l (pt_input_pos pt) (pt_input_pos item);
  it_assistant_mask : row_of i l (pt_assistant_mask pt) (pt_assistant_mask item);
  it_logprobs : row_of i l (pt_logprobs pt) (pt_logprobs item);
  it_advantages : row_of i l (pt_advantages pt) (pt_advantages item);
  it_weights : row_of i l (pt_weights pt) (pt_weights item);
  it_deferred : row_of i l (pt_deferred pt) (pt_deferred item);
}.

(** A tensor of two rows of two elements. *)
Definition two_by_two {A} (a b c d : A) : Tensor A :=
  {| shape := [2; 2]; elems := [a; b; c; d] |}.

(** A dataset of two rows of two tokens. *)
Definition sample_dataset : PackedDataset :=
  {| tensors :=
       {| pt_tokens := two_by_two 5 6 7 (-100);
          pt_group_ids := two_by_two 0 0 1 (-1);
          pt_parent_ids := two_by_two 0 0 1 (-1);
          pt_input_pos := two_by_two 0 1 0 0;
          pt_assistant_mask := two_by_two false true true false;
          pt_logprobs := two_by_two FNaN FNaN FNaN FNaN;
          pt_advantages := two_by_two (FNum 1) (FNum 1) (FNum 2) (FNum 0);
          pt_weights := two_by_two (FNum 0) (FNum 1) (FNum 1) (FNum 0);
          pt_deferred := two_by_two false false false false |} |}%Z.

(** Three log-probabilities for four assistant positions. *)
Definition short_logprobs_result : TokenizedResult :=
  sample_result 1 [5; 6; 7; 8; 9]%Z [0; 1; 1; 1; 1]%Z
    (Some [sample_logprob (-1); sample_logprob (-2); sample_logprob (-3)]) 9 1.

(** * Properties *)

(** ** The [res] monad *)

Lemma bind_Ok {A B} (m : res A) (f : A -> res B) (b : B) :
  bind m f = Ok b -> exists a, m = Ok a /\ f a = Ok b.
Proof. destruct m as [a|e]; simpl; [eauto | discriminate]. Qed.

Ltac inv_bind H :=
  let a := fresh "a" in
  let Ha := fresh "Ha" in
  apply bind_Ok in H; destruct H as (a & Ha & H).

(** ** Python list operations *)

Lemma py_len_nonneg {A} (l : list A) : (0 <= py_len l)%Z.
Proof. unfold py_len. lia. Qed.

Lemma py_len_app {A} (l k : list A) : py_len (l ++ k) = (py_len l + py_len k)%Z.
Proof. unfold py_len. rewrite length_app. lia. Qed.

Lemma slice_to_fits {A} (i : Z) (l : list A) :
  (py_len l <= i)%Z -> slice_to i l = l.
Proof.
  intros Hle. unfold slice_to, slice_bound. apply take_ge.
  pose proof (py_len_nonneg l). unfold py_len in *.
  destruct (Z.ltb_spec i 0); lia.
Qed.

Lemma slice_to_bounded {A} (i : Z) (l : list A) :
  (0 <= i)%Z -> (py_len (slice_to i l) <= i)%Z.
Proof.
  intros Hi. unfold slice_to, slice_bound, py_len. rewrite length_take.
  destruct (Z.ltb_spec i 0); lia.
Qed.

Lemma slice_to_length_congr {A B} (i : Z) (l : list A) (k : list B) :
  length l = length k -> length (slice_to i l) = length (slice_to i k).
Proof.
  intros Hlen. unfold slice_to, py_len. rewrite !length_take, Hlen. reflexivity.
Qed.

Lemma slice_from_nonneg {A} (i : Z) (l : list A) :
  (0 <= i)%Z -> slice_from i l = drop (Z.to_nat i) l.
Proof.
  intros Hi. unfold slice_from, slice_bound.
  destruct (Z.ltb_spec i 0); [lia|].
  destruct (Z.le_gt_cases i (py_len l)).
  - rewrite Z.min_l by lia. reflexivity.
  - rewrite Z.min_r by lia. unfold py_len in *.
    rewrite !drop_ge by lia. reflexivity.
Qed.

Lemma slice_from_length_congr {A B} (i : Z) (l : list A) (k : list B) :
  length l = length k -> length (slice_from i l) = length (slice_from i k).
Proof.
  intros Hlen. unfold slice_from, py_len. rewrite !length_drop, Hlen. reflexivity.
Qed.

Lemma py_repeat_length {A} (x : A) (n : Z) :
  length (py_repeat x n) = Z.to_nat n.
Proof. unfold py_repeat. apply length_replicate. Qed.

Lemma cut_length_congr {A B} (t : bool) (i : Z) (l : list A) (k : list B) :
  length l = length k -> length (cut t i l) = length (cut t i k).
Proof. destruct t; simpl; [apply slice_to_length_congr | done]. Qed.

Lemma cut_fits {A} (t : bool) (i : Z) (l : list A) :
  (py_len l <= i)%Z -> cut t i l = l.
Proof. destruct t; simpl; [apply slice_to_fits | done]. Qed.

(** ** Rows *)

Lemma snoc_cases {A} (l : list A) : l <> [] -> exists init x, l = init ++ [x].
Proof.
  destruct l as [|y l] using rev_ind; [done | eauto].
Qed.

Lemma last_row_snoc {A} (rows : list (list A)) (r : list A) :
  last_row (rows ++ [r]) = r.
Proof. unfold last_row. rewrite last_snoc. reflexivity. Qed.

Lemma set_last_row_snoc {A} (row r : A) (rows : list A) :
  set_last_row row (rows ++ [r]) = rows ++ [row].
Proof.
  induction rows as [|r0 rows IH]; [done|].
  simpl. rewrite IH. destruct rows; reflexivity.
Qed.

Lemma set_last_row_fmap {A B} (f : A -> B) (row : A) (rows : list A) :
  f <$> set_last_row row rows = set_last_row (f row) (f <$> rows).
Proof.
  induction rows as [|r0 rows IH]; [done|].
  destruct rows as [|r1 rows]; [done|].
  change (f r0 :: (f <$> set_last_row row (r1 :: rows))
          = f r0 :: set_last_row (f row) (f <$> r1 :: rows)).
  by rewrite IH.
Qed.

Lemma last_row_length {A} (rows : list (list A)) :
  length (last_row rows) = default 0 (last (length <$> rows)).
Proof. unfold last_row. rewrite fmap_last. by destruct (last rows). Qed.

Lemma set_last_row_nonempty {A} (row : A) (rows : list A) :
  rows <> [] -> set_last_row row rows <> [].
Proof. destruct rows as [|r0 [|r1 rows]]; done. Qed.

Lemma set_last_row_Forall {A} (P : A -> Prop) (row : A) (rows : list A) :
  Forall P rows -> P row -> Forall P (set_last_row row rows).
Proof.
  intros Hrows Hrow. induction Hrows as [|r0 rows H0 Hrows IH]; [constructor|].
  destruct rows as [|r1 rows]; [by repeat constructor|].
  change (Forall P (r0 :: set_last_row row (r1 :: rows))). by constructor.
Qed.

Lemma last_row_set_last_row {A} (row : list A) (rows : list (list A)) :
  rows <> [] -> last_row (set_last_row row rows) = row.
Proof.
  intros Hne. destruct (snoc_cases rows Hne) as (init & x & ->).
  by rewrite set_last_row_snoc, last_row_snoc.
Qed.

Lemma set_last_row_length {A} (row : A) (rows : list A) :
  length (set_last_row row rows) = length rows.
Proof.
  induction rows as [|r0 rows IH]; [done|].
  destruct rows as [|r1 rows]; [done|].
  change (S (length (set_last_row row (r1 :: rows))) = S (length (r1 :: rows))).
  by rewrite IH.
Qed.

(** ** Well-formed inputs and the loop invariant *)

Lemma without_prompt_wf (r : TokenizedResult) :
  wf_result r -> wf_result (without_prompt r).
Proof.
  intros [Hpos Hmask Hpl]. split; simpl.
  - by apply slice_from_length_congr.
  - by apply slice_from_length_congr.
  - pose proof (py_len_nonneg (slice_from (prompt_length r) (token_ids r))). lia.
Qed.

Lemma lens_last_row {A B} (rows : list (list A)) (rows' : list (list B)) :
  lens rows = lens rows' -> length (last_row rows) = length (last_row rows').
Proof. unfold lens. intros H. by rewrite !last_row_length, H. Qed.

Lemma lens_set_last_row {A B} (row : list A) (row' : list B) rows rows' :
  lens rows = lens rows' -> length row = length row' ->
  lens (set_last_row row rows) = lens (set_last_row row' rows').
Proof. unfold lens. intros H Hrow. by rewrite !set_last_row_fmap, H, Hrow. Qed.

Lemma lens_snoc {A B} (rows : list (list A)) (rows' : list (list B)) :
  lens rows = lens rows' -> lens (rows ++ [[]]) = lens (rows' ++ [[]]).
Proof. unfold lens. intros H. by rewrite !fmap_app, H. Qed.

Lemma acc_init_ok (seq_len : Z) : (0 <= seq_len)%Z -> acc_ok seq_len acc_init.
Proof.
  intros Hs. split; [done | by split |].
  repeat constructor. exact Hs.
Qed.

Lemma new_row_ok (seq_len : Z) (acc : Acc) :
  (0 <= seq_len)%Z -> acc_ok seq_len acc -> acc_ok seq_len (new_row acc).
Proof.
  intros Hs [Hne [] Hb]. split; simpl.
  - by destruct (acc_token_ids acc).
  - split; simpl; by apply lens_snoc.
  - apply Forall_app. split; [done|]. repeat constructor. exact Hs.
Qed.

Lemma maybe_flush_ok (seq_len : Z) (acc : Acc) (r : TokenizedResult) :
  (0 <= seq_len)%Z -> acc_ok seq_len acc -> acc_ok seq_len (maybe_flush seq_len acc r).
Proof.
  intros Hs Hok. unfold maybe_flush.
  destruct (seq_len <? would_be_length acc r)%Z; [by apply new_row_ok | done].
Qed.

(** The lengths of the pieces of one appended span. *)

Lemma list_set_length {A} (i : nat) (x : A) (l l' : list A) :
  list_set i x l = Ok l' -> length l' = length l.
Proof.
  unfold list_set. destruct (decide _); [|done].
  intros [= <-]. apply length_insert.
Qed.

Lemma write_logprobs_length offset pairs row row' :
  write_logprobs offset pairs row = Ok row' -> length row' = length row.
Proof.
  revert row. induction pairs as [|[idx lp] pairs IH]; intros row H; simpl in H.
  - by injection H as <-.
  - inv_bind H. apply IH in H. apply list_set_length in Ha. congruence.
Qed.

Lemma overlay_logprobs_length offset r row row' :
  overlay_logprobs offset r row = Ok row' -> length row' = length row.
Proof.
  unfold overlay_logprobs. destruct (token_logprobs r) as [[|lp lps]|].
  - by intros [= <-].
  - destruct (decide _); [apply write_logprobs_length | done].
  - by intros [= <-].
Qed.

Lemma set_last_item_length {A} (x : A) (l l' : list A) :
  set_last_item x l = Ok l' -> length l' = length l.
Proof.
  destruct l; [done|]. intros [= <-]. apply length_insert.
Qed.

Lemma group_span_length (e : TokenizedResult) (gid : Z) :
  wf_result e ->
  length (group_span gid e) = length (token_ids e).
Proof.
  intros [_ _ Hpl]. unfold group_span. rewrite length_app, !py_repeat_length.
  unfold py_len in *. lia.
Qed.

Lemma repeat_span_length {A B} (x : A) (l : list B) :
  length (py_repeat x (py_len l)) = length l.
Proof. rewrite py_repeat_length. unfold py_len. lia. Qed.

Lemma append_result_aligned seq_len t gid acc e acc' :
  wf_result e -> aligned acc ->
  append_result seq_len t gid acc e = Ok acc' -> aligned acc'.
Proof.
  intros Hwf Hal H. unfold append_result in H.
  apply bind_Ok in H as (lp' & Hlp & H).
  apply bind_Ok in H as (adv' & Hadv & H).
  apply bind_Ok in H as (w & Hw & H).
  apply overlay_logprobs_length in Hlp.
  apply set_last_item_length in Hadv.
  injection H as <-.
  pose proof (group_span_length e gid Hwf) as Hgs.
  destruct Hwf as [Hpos Hmask _], Hal.
  split; simpl; (apply lens_set_last_row; [done|]);
    apply cut_length_congr;
    rewrite ?Hlp, ?Hadv, !(length_app (last_row _)), ?repeat_span_length, ?Hgs,
      ?Hpos, ?Hmask;
    f_equal; by apply lens_last_row.
Qed.

Lemma effective_wf acc r : wf_result r -> wf_result (effective acc r).
Proof.
  intros Hwf. unfold effective.
  destruct (prompt_in_row acc r); [by apply without_prompt_wf | done].
Qed.

Lemma skipped_false seq_len t r :
  skipped seq_len t r = false ->
  (t = true \/ (py_len (token_ids r) <= seq_len)%Z)
  /\ py_sum (assistant_mask r) <> 0%Z.
Proof.
  unfold skipped. intros H. apply orb_false_iff in H as [H1 H2].
  apply Z.eqb_neq in H2. split; [|done].
  destruct t; [by left | right]. simpl in H1.
  rewrite andb_true_r in H1. by apply Z.ltb_ge in H1.
Qed.

Lemma prompt_in_new_row acc r : prompt_in_row (new_row acc) r = false.
Proof.
  unfold prompt_in_row. simpl. rewrite last_row_snoc.
  apply bool_decide_eq_false. apply not_elem_of_nil.
Qed.

(** After the flush test, a result no longer than [seq_len] fits in the
    last row. *)
Lemma append_fits seq_len acc r :
  (py_len (token_ids r) <= seq_len)%Z ->
  (py_len (last_row (acc_token_ids (maybe_flush seq_len acc r)))
   + py_len (token_ids (effective (maybe_flush seq_len acc r) r)) <= seq_len)%Z.
Proof.
  intros Hlen. unfold maybe_flush.
  destruct (Z.ltb_spec seq_len (would_be_length acc r)) as [Hlt|Hge].
  - unfold effective. rewrite prompt_in_new_row. simpl.
    rewrite last_row_snoc. unfold py_len at 1. simpl. lia.
  - unfold would_be_length in Hge. unfold effective.
    by destruct (prompt_in_row acc r).
Qed.

Lemma append_result_token_ids seq_len t gid acc e acc' :
  append_result seq_len t gid acc e = Ok acc' ->
  acc_token_ids acc'
  = set_last_row (cut t seq_len (last_row (acc_token_ids acc) ++ token_ids e))
      (acc_token_ids acc).
Proof.
  intros H. unfold append_result in H.
  apply bind_Ok in H as (lp' & Hlp & H).
  apply bind_Ok in H as (adv' & Hadv & H).
  apply bind_Ok in H as (w & Hw & H).
  by injection H as <-.
Qed.

Lemma cut_bounded {A} (seq_len : Z) (row : list A) :
  (0 <= seq_len)%Z -> (py_len (cut true seq_len row) <= seq_len)%Z.
Proof. apply slice_to_bounded. Qed.

Lemma pack_iter_unfold seq_len t s r :
  skipped seq_len t r = false ->
  pack_iter seq_len t s r
  = (acc' <- append_result seq_len t (randint int64_min int64_max s.1).1
               (maybe_flush seq_len s.2 r)
               (effective (maybe_flush seq_len s.2 r) r);;
     Ok ((randint int64_min int64_max s.1).2, acc')).
Proof. intros Hs. unfold pack_iter. by rewrite Hs. Qed.

Lemma pack_iter_ok seq_len t s r s' :
  (0 <= seq_len)%Z -> wf_result r -> acc_ok seq_len s.2 ->
  pack_iter seq_len t s r = Ok s' -> acc_ok seq_len s'.2.
Proof.
  intros Hs Hwf Hok H.
  destruct (skipped seq_len t r) eqn:Hsk.
  { unfold pack_iter in H. rewrite Hsk in H. by injection H as <-. }
  rewrite pack_iter_unfold in H by done.
  apply bind_Ok in H as (acc' & Happ & H). injection H as <-. simpl.
  pose proof (maybe_flush_ok seq_len s.2 r Hs Hok) as [Hne Hal Hb].
  split.
  - rewrite (append_result_token_ids _ _ _ _ _ _ Happ).
    by apply set_last_row_nonempty.
  - eapply append_result_aligned; [|exact Hal|exact Happ].
    by apply effective_wf.
  - rewrite (append_result_token_ids _ _ _ _ _ _ Happ).
    apply set_last_row_Forall; [done|].
    apply skipped_false in Hsk as [[->|Hlen] _].
    + by apply cut_bounded.
    + rewrite cut_fits; rewrite py_len_app; by apply append_fits.
Qed.

Lemma pack_loop_ok seq_len t rs s s' :
  (0 <= seq_len)%Z -> Forall wf_result rs -> acc_ok seq_len s.2 ->
  pack_loop seq_len t s rs = Ok s' -> acc_ok seq_len s'.2.
Proof.
  intros Hs Hwf. revert s. induction Hwf as [|r rs Hr Hrs IH]; intros s Hok H.
  - by injection H as <-.
  - simpl in H. apply bind_Ok in H as (s1 & H1 & H).
    apply (IH s1); [|done]. by eapply pack_iter_ok.
Qed.

(** The loop over [rs ++ [r]] is the loop over [rs] followed by one
    iteration on [r]: every iteration of the packer is a [pack_iter] from a
    state the loop has reached. *)
Lemma pack_loop_snoc seq_len t rs r s :
  pack_loop seq_len t s (rs ++ [r])
  = (s' <- pack_loop seq_len t s rs;; pack_iter seq_len t s' r).
Proof.
  revert s. induction rs as [|r0 rs IH]; intros s; simpl.
  - by destruct (pack_iter seq_len t s r).
  - destruct (pack_iter seq_len t s r0) as [s1|e]; simpl; [apply IH | done].
Qed.

Lemma pack_rows_ok g rs seq_len t acc :
  (0 <= seq_len)%Z -> Forall wf_result rs ->
  pack_rows g rs seq_len t = Ok acc -> acc_ok seq_len acc.
Proof.
  intros Hs Hwf H. unfold pack_rows in H.
  apply bind_Ok in H as (s & Hloop & H). injection H as <-.
  eapply pack_loop_ok; [done | done | | exact Hloop].
  by apply acc_init_ok.
Qed.

(** ** Padding and tensor construction *)

Lemma lens_bounded {A B} (seq_len : Z) (rows : list (list A)) (rows' : list (list B)) :
  lens rows = lens rows' ->
  Forall (fun row => (py_len row <= seq_len)%Z) rows' ->
  Forall (fun row => (py_len row <= seq_len)%Z) rows.
Proof.
  unfold lens, py_len. intros Hl Hb.
  assert (Forall (fun n : nat => (Z.of_nat n <= seq_len)%Z) (length <$> rows))
    as H by (rewrite Hl; apply Forall_fmap; exact Hb).
  rewrite Forall_fmap in H. exact H.
Qed.

Lemma lens_length {A B} (rows : list (list A)) (rows' : list (list B)) :
  lens rows = lens rows' -> length rows = length rows'.
Proof.
  unfold lens. intros H. apply (f_equal length) in H.
  by rewrite !length_fmap in H.
Qed.

Lemma pad_lens {A} (seq_len : Z) (rows : list (list A)) (v : A) :
  Forall (fun row => (py_len row <= seq_len)%Z) rows ->
  lens (pad seq_len rows v) = replicate (length rows) (Z.to_nat seq_len).
Proof.
  unfold lens, pad. induction 1 as [|row rows Hrow Hrows IH]; [done|].
  rewrite !fmap_cons. cbn [length replicate]. f_equal; [|exact IH].
  rewrite length_app, py_repeat_length. unfold py_len in *. lia.
Qed.

Lemma lens_map_map {A B} (f : A -> B) (rows : list (list A)) :
  lens (map (map f) rows) = lens rows.
Proof.
  unfold lens. induction rows as [|row rows IH]; [done|].
  cbn [map]. by rewrite !fmap_cons, IH, length_map.
Qed.

Lemma concat_empty_rows {A} (rows : list (list A)) (R : nat) :
  lens rows = replicate R 0 -> concat rows = [].
Proof.
  unfold lens. revert R. induction rows as [|row rows IH]; intros R H; [done|].
  destruct R as [|R]; [done|]. rewrite fmap_cons in H. cbn [replicate] in H.
  injection H as Hrow Hrows. destruct row; [|done]. simpl. by apply (IH R).
Qed.

Lemma forallb_replicate_lens {A} (storable : A -> bool) (rows : list (list A))
    (R L : nat) :
  lens rows = replicate R L ->
  forallb (fun r' => (length r' =? L) && forallb storable r') rows
  = forallb (forallb storable) rows.
Proof.
  unfold lens. revert R. induction rows as [|row rows IH]; intros R H; [done|].
  destruct R as [|R]; [done|]. rewrite fmap_cons in H. cbn [replicate] in H.
  injection H as Hrow Hrows.
  cbn [forallb]. rewrite Hrow, Nat.eqb_refl. simpl. by rewrite (IH R).
Qed.

Lemma forallb_all_true {A} (rows : list (list A)) :
  forallb (forallb (fun _ => true)) rows = true.
Proof.
  induction rows as [|row rows IH]; [done|]. simpl. rewrite IH, andb_true_r.
  by induction row.
Qed.

(** [torch.tensor] on rows of one length. *)
Lemma torch_tensor_of_rect {A} (storable : A -> bool) (rows : list (list A))
    (R L : nat) :
  0 < R -> lens rows = replicate R L ->
  torch_tensor_of storable rows
  = if (L =? 0) || forallb (forallb storable) rows
    then Ok {| shape := [R; L]; elems := concat rows |}
    else Raise ValueError.
Proof.
  intros HR Hl.
  pose proof (forallb_replicate_lens storable rows R L Hl) as Hall.
  assert (length rows = R) as HlenR.
  { apply (f_equal length) in Hl. unfold lens in Hl.
    by rewrite length_fmap, length_replicate in Hl. }
  destruct rows as [|row rows]; [simpl in HlenR; lia|].
  assert (length row = L) as Hrow.
  { destruct R; [lia|]. simpl in Hl. by injection Hl. }
  unfold torch_tensor_of. rewrite Hrow, Hall, HlenR.
  destruct (Nat.eqb_spec L 0) as [->|]; [|done].
  rewrite (concat_empty_rows _ _ Hl). reflexivity.
Qed.

Lemma torch_tensor_rect {A} (rows : list (list A)) (R L : nat) :
  0 < R -> lens rows = replicate R L ->
  torch_tensor rows = Ok {| shape := [R; L]; elems := concat rows |}.
Proof.
  intros HR Hl. unfold torch_tensor.
  rewrite (torch_tensor_of_rect _ rows R L HR Hl), forallb_all_true.
  by rewrite orb_true_r.
Qed.

Lemma channel_tensor {A} (seq_len : Z) (rows : list (list A)) (v : A)
    (toks : list (list Z)) :
  toks <> [] ->
  Forall (fun row => (py_len row <= seq_len)%Z) toks ->
  lens rows = lens toks ->
  torch_tensor (pad seq_len rows v)
  = Ok {| shape := [length toks; Z.to_nat seq_len];
          elems := concat (pad seq_len rows v) |}.
Proof.
  intros Hne Hb Hl. apply torch_tensor_rect.
  - destruct toks; [done | simpl; lia].
  - rewrite pad_lens by (by eapply lens_bounded).
    by rewrite (lens_length _ _ Hl).
Qed.

Lemma channel_tensor_long (seq_len : Z) (rows : list (list Z)) (v : Z)
    (toks : list (list Z)) :
  toks <> [] ->
  Forall (fun row => (py_len row <= seq_len)%Z) toks ->
  lens rows = lens toks ->
  torch_tensor_long (pad seq_len rows v)
  = if (Z.to_nat seq_len =? 0) || storable_rows (pad seq_len rows v)
    then Ok {| shape := [length toks; Z.to_nat seq_len];
               elems := concat (pad seq_len rows v) |}
    else Raise ValueError.
Proof.
  intros Hne Hb Hl. apply torch_tensor_of_rect.
  - destruct toks; [done | simpl; lia].
  - rewrite pad_lens by (by eapply lens_bounded).
    by rewrite (lens_length _ _ Hl).
Qed.

Lemma normalized_weights_ok (seq_len : Z) (acc : Acc) :
  (0 <= seq_len)%Z -> acc_ok seq_len acc ->
  let sh := [length (acc_token_ids acc); Z.to_nat seq_len] in
  let m := {| shape := sh; elems := mask_elems seq_len acc |} in
  let w := {| shape := sh; elems := where_elems seq_len acc |} in
  normalized_weights seq_len acc
  = Ok (m, masked_div w m (torch_mean (masked_select w m))).
Proof.
  intros Hs [Hne Hal Hb]. destruct Hal. simpl.
  unfold normalized_weights.
  rewrite (torch_tensor_rect _ (length (acc_token_ids acc)) (Z.to_nat seq_len)).
  2:{ destruct (acc_token_ids acc); [done | simpl; lia]. }
  2:{ rewrite lens_map_map, pad_lens by (by eapply lens_bounded).
      by rewrite (lens_length _ _ al_assistant_mask0). }
  simpl. rewrite (channel_tensor seq_len _ _ (acc_token_ids acc)) by done.
  simpl. unfold torch_where, zeros_like. simpl.
  rewrite decide_True by done. reflexivity.
Qed.

(** The outcome of lines 125-150 on rows that the loop has built: the
    tensors of the padded rows, unless an integer cannot be stored. *)
Lemma finalize_ok (seq_len pad_token_id : Z) (acc : Acc) :
  (0 <= seq_len)%Z -> acc_ok seq_len acc ->
  let sh := [length (acc_token_ids acc); Z.to_nat seq_len] in
  let m := {| shape := sh; elems := mask_elems seq_len acc |} in
  let w := {| shape := sh; elems := where_elems seq_len acc |} in
  finalize seq_len pad_token_id acc
  = if channels_fit seq_len pad_token_id acc then
      Ok {| pt_tokens :=
              {| shape := sh;
                 elems := concat (pad seq_len (acc_token_ids acc) pad_token_id) |};
            pt_group_ids :=
              {| shape := sh;
                 elems := concat (pad seq_len (acc_group_ids acc) (-1)%Z) |};
            pt_parent_ids :=
              {| shape := sh;
                 elems := concat (pad seq_len (acc_parent_ids acc) (-1)%Z) |};
            pt_input_pos :=
              {| shape := sh;
                 elems := concat (pad seq_len (acc_input_pos acc) 0%Z) |};
            pt_assistant_mask := m;
            pt_logprobs :=
              {| shape := sh;
                 elems := concat (pad seq_len (acc_logprobs acc) FNaN) |};
            pt_advantages :=
              {| shape := sh;
                 elems := concat (pad seq_len (acc_advantages acc) (FNum 0)) |};
            pt_weights := masked_div w m (torch_mean (masked_select w m));
            pt_deferred :=
              {| shape := sh;
                 elems := concat (pad seq_len (acc_deferred acc) false) |} |}
    else Raise ValueError.
Proof.
  intros Hs Hok. simpl. unfold finalize, channels_fit.
  rewrite (normalized_weights_ok seq_len acc Hs Hok).
  destruct Hok as [Hne Hal Hb]. destruct Hal. simpl.
  rewrite !(channel_tensor_long seq_len _ _ (acc_token_ids acc)) by done.
  rewrite !(channel_tensor seq_len _ _ (acc_token_ids acc)) by done.
  destruct (Z.to_nat seq_len =? 0); [reflexivity|]. simpl.
  destruct (storable_rows (pad seq_len (acc_token_ids acc) pad_token_id));
    [|reflexivity].
  destruct (storable_rows (pad seq_len (acc_group_ids acc) (-1)%Z));
    [|reflexivity].
  destruct (storable_rows (pad seq_len (acc_parent_ids acc) (-1)%Z));
    [|reflexivity].
  destruct (storable_rows (pad seq_len (acc_input_pos acc) 0%Z)); reflexivity.
Qed.

(** What the packer returns, when it returns. *)
Lemma finalize_inv (seq_len pad_token_id : Z) (acc : Acc) (pt : PackedTensors) :
  (0 <= seq_len)%Z -> acc_ok seq_len acc ->
  finalize seq_len pad_token_id acc = Ok pt ->
  channels_fit seq_len pad_token_id acc = true.
Proof.
  intros Hs Hok H. rewrite (finalize_ok seq_len pad_token_id acc Hs Hok) in H.
  by destruct (channels_fit seq_len pad_token_id acc).
Qed.

Lemma concat_length_rect {A} (rows : list (list A)) (R L : nat) :
  lens rows = replicate R L -> length (concat rows) = R * L.
Proof.
  unfold lens. revert R. induction rows as [|row rows IH]; intros [|R] H;
    try done.
  rewrite fmap_cons in H. cbn [replicate] in H. injection H as Hrow Hrows.
  cbn [concat]. rewrite length_app, (IH R Hrows), Hrow. lia.
Qed.

Lemma pad_concat_length {A} (seq_len : Z) (rows : list (list A)) (v : A)
    (toks : list (list Z)) :
  Forall (fun row => (py_len row <= seq_len)%Z) toks ->
  lens rows = lens toks ->
  length (concat (pad seq_len rows v)) = length toks * Z.to_nat seq_len.
Proof.
  intros Hb Hl. apply concat_length_rect.
  rewrite pad_lens by (by eapply lens_bounded).
  by rewrite (lens_length _ _ Hl).
Qed.

Lemma mask_elems_length (seq_len : Z) (acc : Acc) :
  acc_ok seq_len acc ->
  length (mask_elems seq_len acc)
  = length (acc_token_ids acc) * Z.to_nat seq_len.
Proof.
  intros [Hne [] Hb]. unfold mask_elems. apply concat_length_rect.
  rewrite lens_map_map, pad_lens by (by eapply lens_bounded).
  by rewrite (lens_length _ _ al_assistant_mask0).
Qed.

Lemma where_elems_length (seq_len : Z) (acc : Acc) :
  acc_ok seq_len acc ->
  length (where_elems seq_len acc)
  = length (acc_token_ids acc) * Z.to_nat seq_len.
Proof.
  intros Hok. unfold where_elems.
  rewrite length_zip_with, length_zip, length_replicate, mask_elems_length by done.
  destruct Hok as [Hne [] Hb].
  rewrite (pad_concat_length seq_len _ _ (acc_token_ids acc)) by done. lia.
Qed.

Lemma acc_ok_rows_bounded (seq_len : Z) (acc : Acc) :
  acc_ok seq_len acc -> rows_bounded seq_len acc.
Proof.
  intros [Hne [] Hb]. unfold rows_bounded.
  repeat split; try done; by eapply lens_bounded.
Qed.

Lemma packed_inv g rs seq_len pad_token_id t pt :
  packed_tensors_from_tokenized_results g rs seq_len pad_token_id t = Ok pt ->
  exists acc, pack_rows g rs seq_len t = Ok acc
              /\ finalize seq_len pad_token_id acc = Ok pt.
Proof.
  unfold packed_tensors_from_tokenized_results. intros H.
  apply bind_Ok in H as (acc & Hrows & H). eauto.
Qed.

Lemma sample_batch_wf : Forall wf_result sample_batch.
Proof. repeat constructor; simpl; unfold py_len; simpl; lia. Qed.

(** ** Shape of the output *)

(** C5: for well-formed results and a non-negative [seq_len], whatever the
    pad token and the truncation setting, the nine channels of the returned
    [PackedTensors] all have shape (R, seq_len) for one R >= 1, and after
    any number of processed results no row of any channel holds more than
    [seq_len] elements. *)
Theorem packed_shape_invariant g rs seq_len pad_token_id t pt :
  (0 <= seq_len)%Z ->
  Forall wf_result rs ->
  packed_tensors_from_tokenized_results g rs seq_len pad_token_id t = Ok pt ->
  (exists R, 1 <= R
     /\ has_shape R (Z.to_nat seq_len) (pt_tokens pt)
     /\ has_shape R (Z.to_nat seq_len) (pt_group_ids pt)
     /\ has_shape R (Z.to_nat seq_len) (pt_parent_ids pt)
     /\ has_shape R (Z.to_nat seq_len) (pt_input_pos pt)
     /\ has_shape R (Z.to_nat seq_len) (pt_assistant_mask pt)
     /\ has_shape R (Z.to_nat seq_len) (pt_logprobs pt)
     /\ has_shape R (Z.to_nat seq_len) (pt_advantages pt)
     /\ has_shape R (Z.to_nat seq_len) (pt_weights pt)
     /\ has_shape R (Z.to_nat seq_len) (pt_deferred pt))
  /\ (forall processed acc,
        processed `prefix_of` rs ->
        pack_rows g processed seq_len t = Ok acc -> rows_bounded seq_len acc).
Proof.
  intros Hs Hwf H. split.
  - apply packed_inv in H as (acc & Hrows & Hfin).
    pose proof (pack_rows_ok _ _ _ _ _ Hs Hwf Hrows) as Hok.
    rewrite (finalize_ok seq_len pad_token_id acc Hs Hok) in Hfin.
    destruct (channels_fit seq_len pad_token_id acc); [|discriminate].
    injection Hfin as <-. exists (length (acc_token_ids acc)).
    pose proof (mask_elems_length _ _ Hok) as Hm.
    pose proof (where_elems_length _ _ Hok) as Hw.
    destruct Hok as [Hne Hal Hb]. destruct Hal.
    split; [destruct (acc_token_ids acc); [done | simpl; lia]|].
    unfold has_shape; simpl.
    rewrite !(pad_concat_length seq_len _ _ (acc_token_ids acc)) by done.
    rewrite length_zip_with, Hm, Hw. repeat split; lia.
  - intros processed acc [rest ->] Hrows.
    apply acc_ok_rows_bounded. eapply pack_rows_ok; [done| |exact Hrows].
    by apply Forall_app in Hwf as [? _].
Qed.

Lemma packed_shape_invariant_witness :
  exists pt,
    packed_tensors_from_tokenized_results sample_rng sample_batch 4 (-100) true
    = Ok pt
    /\ (exists R, 1 <= R
          /\ has_shape R (Z.to_nat 4) (pt_tokens pt)
          /\ has_shape R (Z.to_nat 4) (pt_group_ids pt)
          /\ has_shape R (Z.to_nat 4) (pt_parent_ids pt)
          /\ has_shape R (Z.to_nat 4) (pt_input_pos pt)
          /\ has_shape R (Z.to_nat 4) (pt_assistant_mask pt)
          /\ has_shape R (Z.to_nat 4) (pt_logprobs pt)
          /\ has_shape R (Z.to_nat 4) (pt_advantages pt)
          /\ has_shape R (Z.to_nat 4) (pt_weights pt)
          /\ has_shape R (Z.to_nat 4) (pt_deferred pt))
    /\ (forall processed acc,
          processed `prefix_of` sample_batch ->
          pack_rows sample_rng processed 4 true = Ok acc -> rows_bounded 4 acc).
Proof.
  eexists. split; [vm_compute; reflexivity|].
  apply (packed_shape_invariant sample_rng sample_batch 4 (-100) true);
    [lia | exact sample_batch_wf | vm_compute; reflexivity].
Defined.

(** ** One appended span *)

Lemma append_result_inv seq_len t gid acc e acc' :
  append_result seq_len t gid acc e = Ok acc' ->
  exists logprobs' advantages' w,
    overlay_logprobs (length (last_row (acc_logprobs acc))) e
      (last_row (acc_logprobs acc) ++ py_repeat FNaN (py_len (token_ids e)))
    = Ok logprobs'
    /\ set_last_item (FNum 0)
         (last_row (acc_advantages acc)
          ++ py_repeat (advantage e) (py_len (token_ids e)))
       = Ok advantages'
    /\ py_inv (py_sum (assistant_mask e)) = Ok w
    /\ acc_token_ids acc'
       = set_last_row
           (cut t seq_len (last_row (acc_token_ids acc) ++ token_ids e))
           (acc_token_ids acc)
    /\ acc_group_ids acc'
       = set_last_row
           (cut t seq_len (last_row (acc_group_ids acc) ++ group_span gid e))
           (acc_group_ids acc)
    /\ acc_assistant_mask acc'
       = set_last_row
           (cut t seq_len (last_row (acc_assistant_mask acc) ++ assistant_mask e))
           (acc_assistant_mask acc)
    /\ acc_logprobs acc' = set_last_row (cut t seq_len logprobs') (acc_logprobs acc)
    /\ acc_advantages acc'
       = set_last_row (cut t seq_len advantages') (acc_advantages acc)
    /\ acc_weights acc'
       = set_last_row
           (cut t seq_len
              (last_row (acc_weights acc) ++ py_repeat w (py_len (token_ids e))))
           (acc_weights acc).
Proof.
  intros H. unfold append_result in H.
  apply bind_Ok in H as (lp' & Hlp & H).
  apply bind_Ok in H as (adv' & Hadv & H).
  apply bind_Ok in H as (w & Hw & H).
  injection H as <-. exists lp', adv', w. simpl. by repeat split.
Qed.


(** ** Advantage of the last position *)




(** The rows of a tensor built from rectangular rows are these rows. *)
Lemma reshape_concat {A} (rows : list (list A)) (R L : nat) :
  lens rows = replicate R L -> reshape (replicate R L) (concat rows) = rows.
Proof.
  unfold lens. revert R. induction rows as [|row rows IH]; intros [|R] H;
    try done.
  rewrite fmap_cons in H. cbn [replicate] in H. injection H as Hrow Hrows.
  cbn [concat replicate reshape].
  rewrite take_app_length', drop_app_length' by done.
  by rewrite (IH R Hrows).
Qed.

Lemma tensor_rows_pad {A} (seq_len : Z) (rows : list (list A)) (v : A)
    (toks : list (list Z)) :
  Forall (fun row => (py_len row <= seq_len)%Z) toks ->
  lens rows = lens toks ->
  tensor_rows {| shape := [length toks; Z.to_nat seq_len];
                 elems := concat (pad seq_len rows v) |}
  = pad seq_len rows v.
Proof.
  intros Hb Hl. unfold tensor_rows. simpl. apply reshape_concat.
  rewrite pad_lens by (by eapply lens_bounded).
  by rewrite (lens_length _ _ Hl).
Qed.





(** ** Weight normalisation *)

(** *** Arithmetic of the mean *)

Lemma Qeq_bool_false (q : Q) : ~ (q == 0)%Q -> Qeq_bool q 0 = false.
Proof.
  intros Hq. destruct (Qeq_bool q 0) eqn:E; [|done].
  by apply Qeq_bool_iff in E.
Qed.

Lemma pos_floats_nums (l : list pyfloat) :
  Forall pos_float l ->
  exists qs, l = FNum <$> qs /\ Forall (fun q => (0 < q)%Q) qs.
Proof.
  induction 1 as [|x l (q & -> & Hq) Hl (qs & -> & Hqs)].
  - by exists [].
  - exists (q :: qs). split; [done | by constructor].
Qed.

Lemma fsum_nums (qs : list Q) : fsum (FNum <$> qs) = FNum (Qsum qs).
Proof.
  induction qs as [|q qs IH]; [done|].
  rewrite fmap_cons. unfold fsum in *. cbn [foldr]. by rewrite IH.
Qed.

Lemma Qsum_pos (qs : list Q) :
  qs <> [] -> Forall (fun q => (0 < q)%Q) qs -> (0 < Qsum qs)%Q.
Proof.
  intros Hne Hqs. induction Hqs as [|q qs Hq Hqs IH]; [done|].
  cbn [Qsum foldr]. destruct qs as [|q' qs].
  - simpl. by rewrite Qplus_0_r.
  - apply (Qlt_trans _ (q + 0)%Q).
    + by rewrite Qplus_0_r.
    + apply Qplus_lt_r. by apply IH.
Qed.

Lemma Qsum_div (qs : list Q) (m : Q) :
  (Qsum ((fun q => q / m) <$> qs) == Qsum qs / m)%Q.
Proof.
  induction qs as [|q qs IH].
  - simpl. unfold Qdiv. by rewrite Qmult_0_l.
  - rewrite fmap_cons.
    change (q / m + Qsum ((fun q => q / m) <$> qs) == (q + Qsum qs) / m)%Q.
    rewrite IH. unfold Qdiv. by rewrite Qmult_plus_distr_l.
Qed.

Lemma inject_len_pos {A} (l : list A) : l <> [] -> (0 < inject_Z (py_len l))%Q.
Proof.
  intros Hne. unfold Qlt, py_len. simpl.
  destruct l; [done | simpl length; lia].
Qed.

(** Dividing positive numbers by their mean gives numbers of mean 1. *)
Lemma mean_of_normalized (l : list pyfloat) :
  l <> [] -> Forall pos_float l ->
  exists q, torch_mean ((fun x => fdiv x (torch_mean l)) <$> l) = FNum q
            /\ (q == 1)%Q.
Proof.
  intros Hne Hpos. destruct (pos_floats_nums l Hpos) as (qs & -> & Hqs).
  assert (qs <> []) as Hqne by (by destruct qs).
  pose proof (Qsum_pos qs Hqne Hqs) as Hsum.
  pose proof (inject_len_pos (FNum <$> qs) Hne) as Hn.
  set (n := inject_Z (py_len (FNum <$> qs))) in *.
  assert (~ (n == 0)%Q) as Hn0.
  { intros E. rewrite E in Hn. by apply Qlt_irrefl in Hn. }
  assert (~ (Qsum qs == 0)%Q) as Hs0.
  { intros E. rewrite E in Hsum. by apply Qlt_irrefl in Hsum. }
  assert (torch_mean (FNum <$> qs) = FNum (Qsum qs / n)) as Hmean.
  { unfold torch_mean. fold n. rewrite fsum_nums. simpl.
    by rewrite (Qeq_bool_false n Hn0). }
  rewrite Hmean. set (m := (Qsum qs / n)%Q) in *.
  assert (~ (m == 0)%Q) as Hm0.
  { unfold m. intros E. apply Hs0.
    rewrite <- (Qmult_div_r (Qsum qs) n Hn0). unfold Qdiv in E.
    unfold Qdiv. rewrite (Qmult_comm (Qsum qs)), Qmult_assoc in *.
    rewrite <- Qmult_assoc, E. ring. }
  assert ((fun x => fdiv x (FNum m)) <$> (FNum <$> qs)
          = FNum <$> ((fun q => q / m)%Q <$> qs)) as Hmap.
  { rewrite <- !list_fmap_compose. apply list_fmap_ext. intros i q _. simpl.
    by rewrite (Qeq_bool_false m Hm0). }
  rewrite Hmap. unfold torch_mean. rewrite fsum_nums.
  assert (py_len (FNum <$> ((fun q => q / m)%Q <$> qs)) = py_len (FNum <$> qs))
    as -> by (unfold py_len; by rewrite !length_fmap).
  fold n. simpl. rewrite (Qeq_bool_false n Hn0).
  eexists. split; [reflexivity|].
  rewrite Qsum_div. unfold m. field. split; done.
Qed.

(** *** Selection by a mask *)

Lemma select_cons {A} (m : bool) (ms : list bool) (x : A) (xs : list A) :
  select (m :: ms) (x :: xs) = if m then x :: select ms xs else select ms xs.
Proof.
  unfold select. cbn [zip zip_with]. rewrite filter_cons.
  case_decide as Hm; simpl in Hm; destruct m; done.
Qed.

Lemma select_nil_r {A} (ms : list bool) : select ms (@nil A) = [].
Proof. unfold select. by destruct ms. Qed.

Lemma select_app {A} (ms1 ms2 : list bool) (xs1 xs2 : list A) :
  length ms1 = length xs1 ->
  select (ms1 ++ ms2) (xs1 ++ xs2) = select ms1 xs1 ++ select ms2 xs2.
Proof.
  intros Hlen. unfold select.
  rewrite (zip_with_app pair ms1 ms2 xs1 xs2 Hlen).
  by rewrite filter_app, fmap_app.
Qed.

Lemma select_Forall {A} (P : A -> Prop) (ms : list bool) (xs : list A) :
  Forall P xs -> Forall P (select ms xs).
Proof.
  intros Hxs. revert ms. induction Hxs as [|x xs Hx Hxs IH]; intros ms.
  - by rewrite select_nil_r.
  - destruct ms as [|m ms]; [constructor|].
    rewrite select_cons. destruct m; [constructor|]; auto.
Qed.

Lemma select_replicate_false {A} (k : nat) (xs : list A) :
  select (replicate k false) xs = [].
Proof.
  revert xs. induction k as [|k IH]; intros xs; [done|].
  destruct xs as [|x xs]; [done|]. cbn [replicate]. by rewrite select_cons.
Qed.

Lemma select_zip_with {A B} (f g : A -> B) (ms : list bool) (xs : list A) :
  select ms (zip_with (fun (m : bool) x => if m then f x else g x) ms xs)
  = f <$> select ms xs.
Proof.
  revert xs. induction ms as [|m ms IH]; intros xs; [done|].
  destruct xs as [|x xs]; [done|]. cbn [zip_with].
  rewrite !select_cons, IH. by destruct m.
Qed.

Lemma select_nonempty {A} (ms : list bool) (xs : list A) (i : nat) :
  ms !! i = Some true -> i < length xs -> select ms xs <> [].
Proof.
  revert xs i. induction ms as [|m ms IH]; intros xs i Hi Hlen; [done|].
  destruct xs as [|x xs]; [simpl in Hlen; lia|]. rewrite select_cons.
  destruct i as [|i]; simpl in Hi.
  - by injection Hi as ->.
  - destruct m; [done|]. apply (IH xs i); [done | simpl in Hlen; lia].
Qed.

Lemma where_zeros (z : pyfloat) (ms : list bool) (ws : list pyfloat) :
  zip_with (fun (c : bool) (xy : pyfloat * pyfloat) => if c then xy.1 else xy.2)
    ms (zip ws (replicate (length ws) z))
  = zip_with (fun (m : bool) w => if m then w else z) ms ws.
Proof.
  revert ms. induction ws as [|w ws IH]; intros [|m ms]; try done.
  simpl. f_equal. apply IH.
Qed.

Lemma zip_with_mask_false {A} (f g : A -> A) (ms : list bool) (xs : list A) i :
  ms !! i = Some false ->
  zip_with (fun (m : bool) x => if m then f x else g x) ms xs !! i
  = g <$> xs !! i.
Proof.
  intros Hi. rewrite lookup_zip_with, Hi. simpl. by destruct (xs !! i).
Qed.

(** *** The weights in the rows are positive *)

Lemma effective_mask01 acc r : mask01 r -> mask01 (effective acc r).
Proof.
  unfold effective, mask01. intros H.
  destruct (prompt_in_row acc r); [|done]. simpl. by apply Forall_drop.
Qed.

Lemma py_sum_nonneg (l : list Z) :
  Forall (fun m => m = 0%Z \/ m = 1%Z) l -> (0 <= py_sum l)%Z.
Proof.
  induction 1 as [|m l Hm Hl IH]; [done|].
  change (0 <= m + py_sum l)%Z. lia.
Qed.

Lemma py_inv_pos (l : list Z) (w : pyfloat) :
  Forall (fun m => m = 0%Z \/ m = 1%Z) l ->
  py_inv (py_sum l) = Ok w -> pos_float w.
Proof.
  intros H01 H. unfold py_inv in H.
  destruct (Z.eqb_spec (py_sum l) 0) as [|Hne]; [done|]. injection H as <-.
  eexists. split; [reflexivity|].
  pose proof (py_sum_nonneg l H01).
  unfold Qdiv. rewrite Qmult_1_l. apply Qinv_lt_0_compat.
  unfold Qlt. simpl. lia.
Qed.

Lemma last_row_Forall {A} (P : A -> Prop) (rows : list (list A)) :
  Forall (Forall P) rows -> Forall P (last_row rows).
Proof.
  intros H. unfold last_row. destruct (last rows) as [row|] eqn:E; [|constructor].
  simpl. rewrite Forall_forall in H. apply H.
  rewrite last_lookup in E. by eapply list_elem_of_lookup_2.
Qed.

Lemma cut_Forall {A} (P : A -> Prop) t seq_len (row : list A) :
  Forall P row -> Forall P (cut t seq_len row).
Proof. destruct t; simpl; [apply Forall_take | done]. Qed.

(** ** Integers that fit [torch.long] *)

Lemma randint_range (g : RNG) :
  (int64_min <= (randint int64_min int64_max g).1 <= int64_max)%Z.
Proof.
  unfold randint, int64_min, int64_max. simpl fst.
  pose proof (Z.mod_pos_bound (g 0) (2 ^ 63 - 1 - - 2 ^ 63 + 1)%Z
                ltac:(lia)).
  lia.
Qed.

Lemma fits_int64_spec (z : Z) : fits_int64 z = true <-> in_int64 z.
Proof.
  unfold fits_int64, in_int64.
  rewrite andb_true_iff, Z.leb_le, Z.leb_le. reflexivity.
Qed.

Lemma storable_rows_spec (rows : list (list Z)) :
  Forall (Forall in_int64) rows -> storable_rows rows = true.
Proof.
  unfold storable_rows. intros H. induction H as [|row rows Hrow Hrows IH]; [done|].
  simpl. rewrite IH, andb_true_r.
  induction Hrow as [|z row Hz Hrow IHrow]; [done|].
  simpl. rewrite IHrow, andb_true_r. by apply fits_int64_spec.
Qed.

Lemma pad_int64 (seq_len : Z) (rows : list (list Z)) (v : Z) :
  Forall (Forall in_int64) rows -> in_int64 v ->
  Forall (Forall in_int64) (pad seq_len rows v).
Proof.
  intros Hrows Hv. unfold pad. apply Forall_fmap.
  eapply Forall_impl; [exact Hrows|]. intros row Hrow. simpl.
  apply Forall_app. split; [done|]. by apply Forall_replicate.
Qed.

Lemma in_int64_small (z : Z) : (-1 <= z <= 0)%Z -> in_int64 z.
Proof. unfold in_int64, int64_min, int64_max. lia. Qed.

(** Concrete integers of the range. *)
Ltac solve_int64 := repeat constructor; vm_compute; discriminate.

(** Rows of integers of [torch.long], padded with one, can be stored. *)
Lemma channels_fit_int64 (seq_len pad_token_id : Z) (acc : Acc) :
  acc_int64 acc -> in_int64 pad_token_id ->
  channels_fit seq_len pad_token_id acc = true.
Proof.
  intros [] Hpad. unfold channels_fit.
  rewrite !storable_rows_spec;
    [apply orb_true_r | apply pad_int64 ..]; try done;
    apply in_int64_small; lia.
Qed.

Lemma acc_init_int64 : acc_int64 acc_init.
Proof. split; repeat constructor. Qed.

Lemma new_row_int64 (acc : Acc) : acc_int64 acc -> acc_int64 (new_row acc).
Proof.
  intros []. split; simpl; (apply Forall_app; split; [done|]);
    repeat constructor.
Qed.

Lemma without_prompt_int64 (r : TokenizedResult) :
  int64_result r -> int64_result (without_prompt r).
Proof.
  intros [[Htok Hpos] Hpid]. split; [split|]; simpl; [| |done];
    unfold slice_from; by apply Forall_drop.
Qed.

Lemma group_span_int64 (gid : Z) (r : TokenizedResult) :
  in_int64 gid -> in_int64 (prompt_id r) -> Forall in_int64 (group_span gid r).
Proof.
  intros Hgid Hpid. unfold group_span, py_repeat.
  apply Forall_app. split; by apply Forall_replicate.
Qed.

Lemma append_result_int64 seq_len t gid acc e acc' :
  acc_int64 acc -> int64_result e -> in_int64 gid ->
  append_result seq_len t gid acc e = Ok acc' -> acc_int64 acc'.
Proof.
  intros [] [[Htok Hpos] Hpid] Hgid H. unfold append_result in H.
  apply bind_Ok in H as (lp' & _ & H).
  apply bind_Ok in H as (adv' & _ & H).
  apply bind_Ok in H as (w & _ & H).
  injection H as <-.
  split; simpl; (apply set_last_row_Forall; [done|]); apply cut_Forall;
    (apply Forall_app; split; [by apply last_row_Forall|]).
  - done.
  - by apply group_span_int64.
  - by apply Forall_replicate.
  - done.
Qed.

Lemma pack_iter_int64 seq_len t s r s' :
  int64_result r -> acc_int64 s.2 ->
  pack_iter seq_len t s r = Ok s' -> acc_int64 s'.2.
Proof.
  intros Hr Hacc H.
  destruct (skipped seq_len t r) eqn:Hsk.
  { unfold pack_iter in H. rewrite Hsk in H. by injection H as <-. }
  rewrite pack_iter_unfold in H by done.
  apply bind_Ok in H as (acc' & Happ & H). injection H as <-. simpl.
  eapply append_result_int64; [| | apply randint_range | exact Happ].
  - unfold maybe_flush. destruct (seq_len <? _)%Z; [by apply new_row_int64 | done].
  - unfold effective. destruct (prompt_in_row _ r);
      [by apply without_prompt_int64 | done].
Qed.

Lemma pack_loop_int64 seq_len t rs s s' :
  Forall int64_result rs -> acc_int64 s.2 ->
  pack_loop seq_len t s rs = Ok s' -> acc_int64 s'.2.
Proof.
  intros Hrs. revert s. induction Hrs as [|r rs Hr Hrs IH]; intros s Hacc H.
  - by injection H as <-.
  - simpl in H. apply bind_Ok in H as (s1 & H1 & H).
    apply (IH s1); [|done]. by eapply pack_iter_int64.
Qed.

Lemma pack_rows_int64 g rs seq_len t acc :
  Forall int64_result rs -> pack_rows g rs seq_len t = Ok acc -> acc_int64 acc.
Proof.
  intros Hrs H. unfold pack_rows in H.
  apply bind_Ok in H as (s & Hloop & H). injection H as <-.
  apply (pack_loop_int64 seq_len t rs (g, acc_init) s Hrs acc_init_int64 Hloop).
Qed.

Lemma pack_iter_weights_pos seq_len t s r s' :
  mask01 r ->
  Forall (Forall pos_float) (acc_weights s.2) ->
  pack_iter seq_len t s r = Ok s' ->
  Forall (Forall pos_float) (acc_weights s'.2).
Proof.
  intros H01 Hpos H.
  destruct (skipped seq_len t r) eqn:Hsk.
  { unfold pack_iter in H. rewrite Hsk in H. by injection H as <-. }
  rewrite pack_iter_unfold in H by done.
  apply bind_Ok in H as (acc' & Happ & H). injection H as <-. simpl.
  assert (Forall (Forall pos_float) (acc_weights (maybe_flush seq_len s.2 r)))
    as Hpos1.
  { unfold maybe_flush. destruct (seq_len <? _)%Z; [|done]. simpl.
    apply Forall_app. split; [done|]. repeat constructor. }
  apply append_result_inv in Happ
    as (lp' & adv' & w & _ & _ & Hw & _ & _ & _ & _ & _ & ->).
  apply set_last_row_Forall; [done|]. apply cut_Forall.
  apply Forall_app. split; [by apply last_row_Forall|].
  apply Forall_replicate. eapply py_inv_pos; [|exact Hw].
  by apply effective_mask01.
Qed.

Lemma pack_loop_weights_pos seq_len t rs s s' :
  Forall mask01 rs ->
  Forall (Forall pos_float) (acc_weights s.2) ->
  pack_loop seq_len t s rs = Ok s' ->
  Forall (Forall pos_float) (acc_weights s'.2).
Proof.
  intros H01. revert s. induction H01 as [|r rs Hr Hrs IH]; intros s Hpos H.
  - by injection H as <-.
  - simpl in H. apply bind_Ok in H as (s1 & H1 & H).
    apply (IH s1); [|done]. by eapply pack_iter_weights_pos.
Qed.

Lemma pack_rows_weights_pos g rs seq_len t acc :
  Forall mask01 rs ->
  pack_rows g rs seq_len t = Ok acc ->
  Forall (Forall pos_float) (acc_weights acc).
Proof.
  intros H01 H. unfold pack_rows in H.
  apply bind_Ok in H as (s & Hloop & H). injection H as <-.
  eapply pack_loop_weights_pos; [done| |exact Hloop].
  repeat constructor.
Qed.

Lemma map_replicate {A B} (f : A -> B) (n : nat) (x : A) :
  map f (replicate n x) = replicate n (f x).
Proof. induction n as [|n IH]; [done|]. simpl. by rewrite IH. Qed.

(** After padding, the selected weights are the positive weights written
    by the loop: padding is never selected. *)
Lemma padded_select_pos (seq_len : Z) (Ms : list (list Z))
    (Ws : list (list pyfloat)) :
  lens Ms = lens Ws ->
  Forall (Forall pos_float) Ws ->
  Forall pos_float
    (select (concat (map (map truthy) (pad seq_len Ms 0%Z)))
            (concat (pad seq_len Ws (FNum 0)))).
Proof.
  unfold lens, pad. revert Ws.
  induction Ms as [|mrow Ms IH]; intros [|wrow Ws] Hl Hpos;
    [by apply Forall_nil | done | done |].
  rewrite !fmap_cons in Hl. injection Hl as Hrow Hrows.
  apply Forall_cons in Hpos as [Hwrow Hpos].
  rewrite !fmap_cons. cbn [map concat]. rewrite select_app.
  2:{ rewrite length_map, !length_app, !py_repeat_length. unfold py_len.
      by rewrite Hrow. }
  apply Forall_app. split; [|by apply IH].
  rewrite map_app, select_app by (by rewrite length_map).
  apply Forall_app. split; [by apply select_Forall|].
  unfold py_repeat. rewrite map_replicate. simpl.
  rewrite select_replicate_false. constructor.
Qed.

Lemma where_elems_alt (seq_len : Z) (acc : Acc) :
  where_elems seq_len acc
  = zip_with (fun (m : bool) w => if m then w else FNum 0)
      (mask_elems seq_len acc)
      (concat (pad seq_len (acc_weights acc) (FNum 0))).
Proof. unfold where_elems. apply where_zeros. Qed.

Lemma select_where_elems (seq_len : Z) (acc : Acc) :
  select (mask_elems seq_len acc) (where_elems seq_len acc)
  = select (mask_elems seq_len acc)
      (concat (pad seq_len (acc_weights acc) (FNum 0))).
Proof.
  rewrite where_elems_alt.
  rewrite (select_zip_with (fun w => w) (fun _ => FNum 0)).
  apply list_fmap_id.
Qed.

Lemma where_elems_false (seq_len : Z) (acc : Acc) (i : nat) :
  acc_ok seq_len acc ->
  mask_elems seq_len acc !! i = Some false ->
  where_elems seq_len acc !! i = Some (FNum 0).
Proof.
  intros Hok Hi. pose proof (lookup_lt_Some _ _ _ Hi) as Hlt.
  rewrite mask_elems_length in Hlt by done.
  rewrite where_elems_alt.
  rewrite (zip_with_mask_false (fun w => w) (fun _ => FNum 0)) by done.
  destruct Hok as [Hne [] Hb].
  destruct (lookup_lt_is_Some_2
              (concat (pad seq_len (acc_weights acc) (FNum 0))) i) as [w ->];
    [|done].
  by rewrite (pad_concat_length seq_len _ _ (acc_token_ids acc)).
Qed.

Lemma sample_batch_mask01 : Forall mask01 sample_batch.
Proof.
  unfold mask01.
  repeat (apply Forall_cons; split); try apply Forall_nil; simpl; auto.
Qed.

(** C2: for a batch of well-formed results with 0/1 masks whose output has
    at least one assistant position, the weights at the assistant positions
    of the returned [PackedTensors] have mean 1 (in exact arithmetic), and
    the weights at all other positions are 0. *)
Theorem weights_mean_one g rs seq_len pad_token_id t pt :
  (0 <= seq_len)%Z ->
  Forall wf_result rs ->
  Forall mask01 rs ->
  packed_tensors_from_tokenized_results g rs seq_len pad_token_id t = Ok pt ->
  (exists i, elems (pt_assistant_mask pt) !! i = Some true) ->
  (exists q,
     torch_mean (masked_select (pt_weights pt) (pt_assistant_mask pt)) = FNum q
     /\ (q == 1)%Q)
  /\ (forall i, elems (pt_assistant_mask pt) !! i = Some false ->
                elems (pt_weights pt) !! i = Some (FNum 0)).
Proof.
  intros Hs Hwf H01 H Hsome.
  apply packed_inv in H as (acc & Hrows & Hfin).
  pose proof (pack_rows_ok _ _ _ _ _ Hs Hwf Hrows) as Hok.
  pose proof (pack_rows_weights_pos _ _ _ _ _ H01 Hrows) as Hpos.
  rewrite (finalize_ok seq_len pad_token_id acc Hs Hok) in Hfin.
  destruct (channels_fit seq_len pad_token_id acc); [|discriminate].
  injection Hfin as <-. simpl in *. split.
  - unfold masked_select, masked_div. simpl.
    rewrite (select_zip_with (fun x => fdiv x _) (fun x => x)).
    apply mean_of_normalized.
    + destruct Hsome as [i Hi]. apply (select_nonempty _ _ i Hi).
      pose proof (lookup_lt_Some _ _ _ Hi) as Hlt.
      by rewrite where_elems_length, <- (mask_elems_length seq_len acc).
    + rewrite select_where_elems. apply padded_select_pos; [|done].
      destruct Hok as [_ [] _]. congruence.
  - intros i Hi. unfold masked_div. simpl.
    rewrite (zip_with_mask_false (fun x => fdiv x _) (fun x => x)) by done.
    by rewrite where_elems_false.
Qed.

Lemma weights_mean_one_witness :
  exists pt,
    packed_tensors_from_tokenized_results sample_rng sample_batch 4 (-100) true
    = Ok pt
    /\ (exists q,
          torch_mean (masked_select (pt_weights pt) (pt_assistant_mask pt))
          = FNum q
          /\ (q == 1)%Q)
    /\ (forall i, elems (pt_assistant_mask pt) !! i = Some false ->
                  elems (pt_weights pt) !! i = Some (FNum 0)).
Proof.
  eexists. split; [vm_compute; reflexivity|].
  apply (weights_mean_one sample_rng sample_batch 4 (-100) true).
  - lia.
  - exact sample_batch_wf.
  - exact sample_batch_mask01.
  - vm_compute; reflexivity.
  - exists 1. reflexivity.
Defined.

Lemma select_all_false {A} (ms : list bool) (xs : list A) :
  Forall (fun m => m = false) ms -> select ms xs = [].
Proof.
  intros H. revert xs. induction H as [|m ms -> Hms IH]; intros xs; [done|].
  destruct xs as [|x xs]; [done|]. by rewrite select_cons.
Qed.

(** ** A batch without assistant positions *)

(** C4, as stated, fails: for a batch whose only result has no assistant
    position the packer raises nothing; it returns a [PackedTensors] whose
    mask is false and whose weights are 0 everywhere. *)
Lemma no_assistant_positions_counterexample :
  exists pt,
    packed_tensors_from_tokenized_results sample_rng [unsupervised_result] 4
      (-100) true = Ok pt
    /\ elems (pt_assistant_mask pt) = [false; false; false; false]
    /\ elems (pt_weights pt) = [FNum 0; FNum 0; FNum 0; FNum 0]
    /\ forall e,
         packed_tensors_from_tokenized_results sample_rng [unsupervised_result]
           4 (-100) true <> Raise e.
Proof.
  eexists. split; [vm_compute; reflexivity|].
  split; [reflexivity|]. split; [reflexivity|]. intros e. discriminate.
Qed.

(** C4 (amended): no "empty batch" error exists.  Once the loop over
    well-formed results has ended without an exception (it can raise the
    [AssertionError] of line 100 and the [ZeroDivisionError] of line 112),
    and the token ids, positions, prompt ids and the pad token fit
    [torch.long], the packer returns a [PackedTensors].  If that output has
    no assistant position, the mean is taken over no element and divides no
    element, and every weight of the result is 0. *)
Theorem no_assistant_positions_zero_weights g rs seq_len pad_token_id t acc :
  (0 <= seq_len)%Z ->
  Forall wf_result rs ->
  Forall int64_result rs ->
  in_int64 pad_token_id ->
  pack_rows g rs seq_len t = Ok acc ->
  exists pt,
    packed_tensors_from_tokenized_results g rs seq_len pad_token_id t = Ok pt
    /\ (Forall (fun m => m = false) (elems (pt_assistant_mask pt)) ->
        masked_select (pt_weights pt) (pt_assistant_mask pt) = []
        /\ Forall (fun w => w = FNum 0) (elems (pt_weights pt))).
Proof.
  intros Hs Hwf Hint Hpad Hrows.
  pose proof (pack_rows_ok _ _ _ _ _ Hs Hwf Hrows) as Hok.
  pose proof (pack_rows_int64 _ _ _ _ _ Hint Hrows) as Hacc.
  unfold packed_tensors_from_tokenized_results. rewrite Hrows. simpl.
  rewrite (finalize_ok seq_len pad_token_id acc Hs Hok).
  rewrite (channels_fit_int64 seq_len pad_token_id acc Hacc Hpad).
  eexists. split; [reflexivity|]. simpl. intros Hfalse.
  split.
  - unfold masked_select. simpl. apply select_all_false. exact Hfalse.
  - unfold masked_div. simpl. apply Forall_lookup. intros i w Hi.
    apply lookup_zip_with_Some in Hi as (m & x & -> & Hm & Hx).
    rewrite Forall_lookup in Hfalse. pose proof (Hfalse i m Hm) as ->.
    rewrite (where_elems_false seq_len acc i Hok Hm) in Hx. by injection Hx.
Qed.

Lemma no_assistant_positions_zero_weights_witness :
  exists acc pt,
    pack_rows sample_rng [late_result] 2 true = Ok acc
    /\ packed_tensors_from_tokenized_results sample_rng [late_result] 2
         (-100) true = Ok pt
    /\ masked_select (pt_weights pt) (pt_assistant_mask pt) = []
    /\ Forall (fun w => w = FNum 0) (elems (pt_weights pt)).
Proof.
  assert (exists acc, pack_rows sample_rng [late_result] 2 true = Ok acc)
    as [acc Hacc] by (eexists; vm_compute; reflexivity).
  assert (Forall wf_result [late_result]) as Hwf
    by (repeat constructor; simpl; unfold py_len; simpl; lia).
  assert (Forall int64_result [late_result]) as Hint by solve_int64.
  assert (in_int64 (-100)) as Hpad by solve_int64.
  destruct (no_assistant_positions_zero_weights sample_rng [late_result] 2
              (-100) true acc ltac:(lia) Hwf Hint Hpad Hacc) as (pt & Hpt & Hzero).
  exists acc, pt. split; [done|]. split; [done|]. apply Hzero.
  vm_compute in Hpt. injection Hpt as <-. simpl. repeat constructor.
Defined.

(** ** Opening a new row *)

Lemma would_be_length_effective acc r :
  would_be_length acc r
  = (py_len (last_row (acc_token_ids acc))
     + py_len (token_ids (effective acc r)))%Z.
Proof.
  unfold would_be_length, effective. by destruct (prompt_in_row acc r).
Qed.

(** What one iteration does to the token rows of a result that is not
    skipped: either a fresh row is opened and holds the full result, or the
    effective result is appended to the current row. *)
Lemma pack_iter_token_rows seq_len t s r s' :
  skipped seq_len t r = false ->
  pack_iter seq_len t s r = Ok s' ->
  ((seq_len < would_be_length s.2 r)%Z
   /\ acc_token_ids s'.2 = acc_token_ids s.2 ++ [cut t seq_len (token_ids r)])
  \/ ((would_be_length s.2 r <= seq_len)%Z
      /\ acc_token_ids s'.2
         = set_last_row
             (last_row (acc_token_ids s.2) ++ token_ids (effective s.2 r))
             (acc_token_ids s.2)).
Proof.
  intros Hsk H. rewrite pack_iter_unfold in H by done.
  apply bind_Ok in H as (acc' & Happ & H). injection H as <-. simpl.
  apply append_result_inv in Happ
    as (lp' & adv' & w & _ & _ & _ & -> & _).
  unfold maybe_flush in *.
  destruct (Z.ltb_spec seq_len (would_be_length s.2 r)) as [Hlt|Hge].
  - left. split; [done|]. unfold effective. rewrite prompt_in_new_row. simpl.
    by rewrite last_row_snoc, set_last_row_snoc.
  - right. split; [done|]. rewrite cut_fits; [done|].
    by rewrite py_len_app, <- would_be_length_effective.
Qed.

(** C6: for a result that is appended, a fresh row is opened before the
    append exactly when the filled length of the current row plus the length
    of the effective result (stripped when the prompt id is among the group
    ids of the current row, full otherwise) is strictly greater than
    [seq_len]; the closed rows are left as they are.  Otherwise, and in
    particular when the sum is exactly [seq_len], the effective result is
    appended to the current row. *)
Theorem flush_iff_overflow seq_len t s r s' :
  acc_token_ids s.2 <> [] ->
  skipped seq_len t r = false ->
  pack_iter seq_len t s r = Ok s' ->
  let old := acc_token_ids s.2 in
  let new := acc_token_ids s'.2 in
  let would_be :=
    (py_len (last_row old) + py_len (token_ids (effective s.2 r)))%Z in
  (length new = S (length old) <-> (seq_len < would_be)%Z)
  /\ (length new = length old <-> (would_be <= seq_len)%Z)
  /\ ((seq_len < would_be)%Z ->
      take (length old) new = old
      /\ last_row new = cut t seq_len (token_ids r))
  /\ ((would_be <= seq_len)%Z ->
      last_row new = last_row old ++ token_ids (effective s.2 r))
  /\ (would_be = seq_len -> py_len (last_row new) = seq_len).
Proof.
  intros Hne Hsk H. simpl.
  rewrite <- would_be_length_effective.
  destruct (pack_iter_token_rows seq_len t s r s' Hsk H) as [[Hlt ->]|[Hge ->]].
  - rewrite length_app. simpl.
    repeat split; try lia.
    + by rewrite take_app_length.
    + by rewrite last_row_snoc.
  - rewrite set_last_row_length, last_row_set_last_row by done.
    repeat split; try lia; try done.
    intros Heq. by rewrite py_len_app, <- would_be_length_effective.
Qed.

(** Two results of two tokens each with different prompts: the second
    fills a row of four exactly. *)
Lemma flush_iff_overflow_witness :
  exists s1 s2,
    pack_iter 4 true (sample_rng, acc_init)
      (sample_result 1 [5; 6]%Z [0; 1]%Z None 9 1) = Ok s1
    /\ pack_iter 4 true s1 (sample_result 2 [7; 8]%Z [0; 1]%Z None 10 1) = Ok s2
    /\ last_row (acc_token_ids s2.2) = [5; 6; 7; 8]%Z
    /\ (length (acc_token_ids s2.2) = length (acc_token_ids s1.2)
        <-> (py_len (last_row (acc_token_ids s1.2))
             + py_len (token_ids
                         (effective s1.2
                            (sample_result 2 [7; 8]%Z [0; 1]%Z None 10 1)))
             <= 4)%Z).
Proof.
  eexists _, _.
  split; [vm_compute; reflexivity|].
  split; [vm_compute; reflexivity|].
  split; [reflexivity|].
  eapply (flush_iff_overflow 4 true).
  - discriminate.
  - reflexivity.
  - vm_compute; reflexivity.
Defined.

(** ** Prompt deduplication inside a row *)

Lemma cut_app_keep {A} t (seq_len : Z) (old span : list A) :
  (py_len old <= seq_len)%Z ->
  exists rest, cut t seq_len (old ++ span) = old ++ rest.
Proof.
  intros Hold. destruct t; simpl; [|by exists span].
  unfold slice_to. exists (take (slice_bound seq_len (py_len (old ++ span))
                                 - length old) span).
  apply take_app_ge. unfold slice_bound, py_len in *. rewrite length_app.
  destruct (Z.ltb_spec seq_len 0); lia.
Qed.

Lemma pack_iter_group_rows seq_len t s r s' :
  skipped seq_len t r = false ->
  pack_iter seq_len t s r = Ok s' ->
  let gid := (randint int64_min int64_max s.1).1 in
  ((seq_len < would_be_length s.2 r)%Z
   /\ acc_group_ids s'.2
      = acc_group_ids s.2 ++ [cut t seq_len (group_span gid r)])
  \/ ((would_be_length s.2 r <= seq_len)%Z
      /\ acc_group_ids s'.2
         = set_last_row
             (cut t seq_len
                (last_row (acc_group_ids s.2) ++ group_span gid (effective s.2 r)))
             (acc_group_ids s.2)).
Proof.
  intros Hsk H. rewrite pack_iter_unfold in H by done.
  apply bind_Ok in H as (acc' & Happ & H). injection H as <-. simpl.
  apply append_result_inv in Happ
    as (lp' & adv' & w & _ & _ & _ & _ & -> & _).
  unfold maybe_flush in *.
  destruct (Z.ltb_spec seq_len (would_be_length s.2 r)) as [Hlt|Hge].
  - left. split; [done|]. unfold effective. rewrite prompt_in_new_row. simpl.
    by rewrite last_row_snoc, set_last_row_snoc.
  - by right.
Qed.

Lemma pack_iter_rows_mono seq_len t s r s' :
  pack_iter seq_len t s r = Ok s' ->
  length (acc_token_ids s.2) <= length (acc_token_ids s'.2).
Proof.
  intros H. destruct (skipped seq_len t r) eqn:Hsk.
  { unfold pack_iter in H. rewrite Hsk in H. by injection H as <-. }
  destruct (pack_iter_token_rows seq_len t s r s' Hsk H) as [[_ ->]|[_ ->]].
  - rewrite length_app. lia.
  - by rewrite set_last_row_length.
Qed.

Lemma pack_loop_rows_mono seq_len t rs s s' :
  pack_loop seq_len t s rs = Ok s' ->
  length (acc_token_ids s.2) <= length (acc_token_ids s'.2).
Proof.
  revert s. induction rs as [|r rs IH]; intros s H.
  - by injection H as <-.
  - simpl in H. apply bind_Ok in H as (s1 & H1 & H).
    apply pack_iter_rows_mono in H1. apply IH in H. lia.
Qed.

(** While no row is opened, a group id of the current row stays there. *)
Lemma pack_iter_keeps_group seq_len t s r s' (p : Z) :
  (0 <= seq_len)%Z -> acc_ok seq_len s.2 ->
  pack_iter seq_len t s r = Ok s' ->
  length (acc_token_ids s'.2) = length (acc_token_ids s.2) ->
  p ∈ last_row (acc_group_ids s.2) -> p ∈ last_row (acc_group_ids s'.2).
Proof.
  intros Hs Hok H Hlen Hp. destruct (skipped seq_len t r) eqn:Hsk.
  { unfold pack_iter in H. rewrite Hsk in H. by injection H as <-. }
  destruct (pack_iter_token_rows seq_len t s r s' Hsk H) as [[_ Ht]|[Hge _]].
  { rewrite Ht, length_app in Hlen. simpl in Hlen. lia. }
  destruct (pack_iter_group_rows seq_len t s r s' Hsk H) as [[Hlt _]|[_ ->]];
    [lia|].
  destruct Hok as [Hne [] Hb].
  assert (acc_group_ids s.2 <> []) as Hgne.
  { intros E. apply lens_length in al_group_ids0. rewrite E in al_group_ids0.
    by destruct (acc_token_ids s.2). }
  rewrite last_row_set_last_row by done.
  destruct (cut_app_keep t seq_len (last_row (acc_group_ids s.2))
              (group_span (randint int64_min int64_max s.1).1 (effective s.2 r)))
    as [rest ->].
  - unfold py_len. rewrite (lens_last_row _ _ al_group_ids0).
    apply (Forall_forall (fun row => (py_len row <= seq_len)%Z)
             (acc_token_ids s.2)); [done|].
    unfold last_row. destruct (last (acc_token_ids s.2)) as [row|] eqn:E.
    + rewrite last_lookup in E. by eapply list_elem_of_lookup_2.
    + apply last_None in E. done.
  - apply elem_of_app. by left.
Qed.

Lemma pack_loop_keeps_group seq_len t rs s s' (p : Z) :
  (0 <= seq_len)%Z -> Forall wf_result rs -> acc_ok seq_len s.2 ->
  pack_loop seq_len t s rs = Ok s' ->
  length (acc_token_ids s'.2) = length (acc_token_ids s.2) ->
  p ∈ last_row (acc_group_ids s.2) -> p ∈ last_row (acc_group_ids s'.2).
Proof.
  intros Hs Hwf. revert s.
  induction Hwf as [|r rs Hr Hrs IH]; intros s Hok H Hlen Hp.
  - by injection H as <-.
  - simpl in H. apply bind_Ok in H as (s1 & H1 & H).
    pose proof (pack_iter_rows_mono _ _ _ _ _ H1).
    pose proof (pack_loop_rows_mono _ _ _ _ _ H).
    apply (IH s1); [by eapply pack_iter_ok | done | lia |].
    eapply pack_iter_keeps_group; [done | done | exact H1 | lia | done].
Qed.

Lemma last_row_bounded (seq_len : Z) (rows : list (list Z)) :
  (0 <= seq_len)%Z ->
  Forall (fun row => (py_len row <= seq_len)%Z) rows ->
  (py_len (last_row rows) <= seq_len)%Z.
Proof.
  intros Hs Hb. unfold last_row. destruct (last rows) as [row|] eqn:E.
  - simpl. rewrite Forall_forall in Hb. apply Hb.
    rewrite last_lookup in E. by eapply list_elem_of_lookup_2.
  - done.
Qed.

Lemma group_rows_nonempty seq_len acc :
  acc_ok seq_len acc -> acc_group_ids acc <> [].
Proof.
  intros [Hne [] _] E. apply lens_length in al_group_ids0.
  rewrite E in al_group_ids0. by destruct (acc_token_ids acc).
Qed.

Lemma cut_head {A} t (seq_len : Z) (x : A) (rest : list A) :
  (0 < seq_len)%Z -> exists rest', cut t seq_len (x :: rest) = x :: rest'.
Proof.
  intros Hs. destruct t; simpl; [|by exists rest].
  unfold slice_to, slice_bound, py_len.
  destruct (Z.ltb_spec seq_len 0); [lia|].
  destruct (Z.to_nat (Z.min seq_len (Z.of_nat (length (x :: rest))))) as [|n]
    eqn:E; [simpl in E; lia|].
  by exists (take n rest).
Qed.

Lemma group_span_head gid r :
  (0 < prompt_length r)%Z -> exists rest, group_span gid r = prompt_id r :: rest.
Proof.
  intros Hk. unfold group_span, py_repeat.
  destruct (Z.to_nat (prompt_length r)) as [|n] eqn:E; [lia|].
  simpl. eauto.
Qed.

(** A result with a non-empty prompt leaves its prompt id among the group
    ids of the row it is appended to. *)
Lemma pack_iter_adds_prompt seq_len t s a s' :
  (0 < seq_len)%Z -> wf_result a -> acc_ok seq_len s.2 ->
  skipped seq_len t a = false ->
  (0 < prompt_length a)%Z ->
  pack_iter seq_len t s a = Ok s' ->
  prompt_id a ∈ last_row (acc_group_ids s'.2).
Proof.
  intros Hs Hwf Hok Hsk Hk H.
  pose proof (group_rows_nonempty _ _ Hok) as Hgne.
  destruct (group_span_head (randint int64_min int64_max s.1).1 a Hk)
    as [rest Hspan].
  destruct (pack_iter_group_rows seq_len t s a s' Hsk H) as [[_ ->]|[Hge ->]].
  - rewrite last_row_snoc, Hspan.
    destruct (cut_head t seq_len (prompt_id a) rest Hs) as [rest' ->].
    apply elem_of_cons. by left.
  - rewrite last_row_set_last_row by done.
    destruct Hok as [Hne [] Hb].
    assert (py_len (last_row (acc_group_ids s.2)) <= seq_len)%Z as Hold.
    { unfold py_len. rewrite (lens_last_row _ _ al_group_ids0).
      apply last_row_bounded; [lia | done]. }
    unfold effective in *. destruct (prompt_in_row s.2 a) eqn:Hin.
    + destruct (cut_app_keep t seq_len (last_row (acc_group_ids s.2))
                  (group_span (randint int64_min int64_max s.1).1
                     (without_prompt a)) Hold) as [rest' ->].
      apply elem_of_app. left. by apply bool_decide_eq_true in Hin.
    + rewrite cut_fits.
      * rewrite Hspan. apply elem_of_app. right. apply elem_of_cons. by left.
      * rewrite would_be_length_effective in Hge. unfold effective in Hge.
        rewrite Hin in Hge. unfold py_len in *.
        rewrite length_app, (lens_last_row _ _ al_group_ids0),
          (group_span_length _ _ Hwf).
        lia.
Qed.

Lemma group_span_without_prompt gid r :
  group_span gid (without_prompt r)
  = replicate (length (token_ids (without_prompt r))) gid.
Proof.
  unfold group_span, py_repeat, py_len. simpl.
  f_equal. lia.
Qed.

Lemma effective_zero_prompt acc gid r :
  prompt_length r = 0%Z ->
  token_ids (effective acc r) = token_ids (without_prompt r)
  /\ group_span gid (effective acc r) = group_span gid (without_prompt r).
Proof.
  intros Hk. unfold effective. destruct (prompt_in_row acc r); [done|].
  unfold group_span. simpl. rewrite Hk. unfold slice_from, slice_bound. simpl.
  rewrite Z.min_l by apply py_len_nonneg. simpl. by rewrite drop_0.
Qed.

(** C7, as stated, fails: the group id of a result is drawn by
    [random.randint] and is not checked against the prompt id.  With a
    random stream whose second draw is the shared prompt id 9, the two
    siblings of [sample_batch] are packed into one row, the second one
    without its prompt token, and the group id written for the second one
    (the last position) is the shared prompt id. *)
Lemma prompt_dedup_collision_counterexample :
  exists pt,
    packed_tensors_from_tokenized_results colliding_rng sample_batch 4 (-100)
      true = Ok pt
    /\ Forall (fun r => prompt_id r = 9%Z) sample_batch
    /\ tensor_rows (pt_tokens pt) = [[5; 6; 7; 8]%Z]
    /\ tensor_rows (pt_group_ids pt) = [[9; int64_min; int64_min; 9]%Z].
Proof.
  eexists. split; [vm_compute; reflexivity|].
  split; [by repeat constructor|]. split; reflexivity.
Qed.

(** C7 (amended): let two results share their prompt (same [prompt_id] and
    [prompt_length]) and be appended to the same row, the first one before
    the second, with any results in between.  Then the tokens appended for
    the second one are those of its [without_prompt] form, the tokens after
    the shared prefix, and every group id written for it is the one group
    id drawn for it, an integer of the signed 64-bit range.  The shared
    [prompt_id] is among the group ids written for it exactly when it has a
    token left and the draw is the [prompt_id]. *)
Theorem prompt_dedup seq_len t s0 a s1 mid s2 b s3 :
  (0 < seq_len)%Z ->
  acc_ok seq_len s0.2 ->
  wf_result a -> Forall wf_result mid -> wf_result b ->
  prompt_id a = prompt_id b ->
  prompt_length a = prompt_length b ->
  skipped seq_len t a = false ->
  pack_iter seq_len t s0 a = Ok s1 ->
  pack_loop seq_len t s1 mid = Ok s2 ->
  skipped seq_len t b = false ->
  pack_iter seq_len t s2 b = Ok s3 ->
  length (acc_token_ids s3.2) = length (acc_token_ids s1.2) ->
  let gid := (randint int64_min int64_max s2.1).1 in
  let n := length (token_ids (without_prompt b)) in
  let written :=
    drop (length (last_row (acc_group_ids s2.2))) (last_row (acc_group_ids s3.2)) in
  token_ids (without_prompt b) = drop (Z.to_nat (prompt_length b)) (token_ids b)
  /\ last_row (acc_token_ids s3.2)
     = last_row (acc_token_ids s2.2) ++ token_ids (without_prompt b)
  /\ last_row (acc_group_ids s3.2)
     = last_row (acc_group_ids s2.2) ++ replicate n gid
  /\ (int64_min <= gid <= int64_max)%Z
  /\ (prompt_id b ∈ written <-> 0 < n /\ gid = prompt_id b).
Proof.
  intros Hs Hok0 Hwa Hwmid Hwb Hpid Hpl Hska Ha Hmid Hskb Hb Hsame gid n written.
  assert (0 <= seq_len)%Z as Hs0 by lia.
  pose proof (pack_iter_ok _ _ _ _ _ Hs0 Hwa Hok0 Ha) as Hok1.
  pose proof (pack_loop_ok _ _ _ _ _ Hs0 Hwmid Hok1 Hmid) as Hok2.
  pose proof (pack_loop_rows_mono _ _ _ _ _ Hmid) as Hm1.
  pose proof (pack_iter_rows_mono _ _ _ _ _ Hb) as Hm2.
  split.
  { simpl. apply slice_from_nonneg. destruct Hwb as [_ _ Hk]. lia. }
  assert (token_ids (effective s2.2 b) = token_ids (without_prompt b)
          /\ group_span gid (effective s2.2 b) = replicate n gid) as [Htok Hgrp].
  { destruct (Z.eq_dec (prompt_length b) 0%Z) as [Hz|Hnz].
    - destruct (effective_zero_prompt s2.2 gid b Hz) as [-> ->].
      split; [done | apply group_span_without_prompt].
    - assert (prompt_in_row s2.2 b = true) as Hin.
      { apply bool_decide_eq_true. rewrite <- Hpid.
        eapply (pack_loop_keeps_group seq_len t mid s1 s2);
          [done | done | done | done | lia |].
        eapply pack_iter_adds_prompt; [done | done | exact Hok0 | done | | done].
        destruct Hwb as [_ _ Hk]. lia. }
      unfold effective. rewrite Hin.
      split; [done | apply group_span_without_prompt]. }
  destruct (pack_iter_token_rows seq_len t s2 b s3 Hskb Hb) as [[_ Ht]|[Hge Ht]].
  { rewrite Ht, length_app in Hsame. simpl in Hsame. lia. }
  destruct (pack_iter_group_rows seq_len t s2 b s3 Hskb Hb) as [[Hlt _]|[_ Hg]];
    [lia|].
  pose proof (group_rows_nonempty _ _ Hok2) as Hgne.
  assert (last_row (acc_group_ids s3.2)
          = last_row (acc_group_ids s2.2) ++ replicate n gid) as Hrow.
  { destruct Hok2 as [Hne [] Hb2].
    rewrite Hg, last_row_set_last_row by done. fold gid. rewrite Hgrp.
    apply cut_fits. rewrite would_be_length_effective, Htok in Hge.
    unfold py_len in *.
    rewrite length_app, length_replicate, (lens_last_row _ _ al_group_ids0).
    lia. }
  split.
  { destruct Hok2 as [Hne [] Hb2].
    rewrite Ht, last_row_set_last_row by done. by rewrite Htok. }
  split; [exact Hrow|]. split; [apply randint_range|].
  unfold written. rewrite Hrow, drop_app_length.
  rewrite elem_of_replicate. split; [intros [-> Hn]; split; [lia | done]|].
  intros [Hn ->]. split; [done | lia].
Qed.

Lemma prompt_dedup_witness :
  let a := sample_result 1 [5; 6; 7]%Z [0; 1; 1]%Z None 9 1 in
  let b := sample_result 2 [5; 8]%Z [0; 1]%Z None 9 1 in
  exists s1 s3,
    pack_iter 4 true (sample_rng, acc_init) a = Ok s1
    /\ pack_iter 4 true s1 b = Ok s3
    /\ token_ids (without_prompt b) = drop (Z.to_nat (prompt_length b)) (token_ids b)
    /\ last_row (acc_token_ids s3.2)
       = last_row (acc_token_ids s1.2) ++ token_ids (without_prompt b)
    /\ last_row (acc_group_ids s3.2)
       = last_row (acc_group_ids s1.2)
         ++ replicate (length (token_ids (without_prompt b)))
              (randint int64_min int64_max s1.1).1
    /\ (int64_min <= (randint int64_min int64_max s1.1).1 <= int64_max)%Z
    /\ (prompt_id b
         ∈ drop (length (last_row (acc_group_ids s1.2)))
             (last_row (acc_group_ids s3.2))
        <-> 0 < length (token_ids (without_prompt b))
            /\ (randint int64_min int64_max s1.1).1 = prompt_id b).
Proof.
  intros a b. eexists _, _.
  split; [vm_compute; reflexivity|].
  split; [vm_compute; reflexivity|].
  eapply (prompt_dedup 4 true (sample_rng, acc_init) a _ [] _ b).
  - lia.
  - apply acc_init_ok. lia.
  - split; simpl; unfold py_len; simpl; lia.
  - constructor.
  - split; simpl; unfold py_len; simpl; lia.
  - reflexivity.
  - reflexivity.
  - reflexivity.
  - vm_compute; reflexivity.
  - reflexivity.
  - reflexivity.
  - vm_compute; reflexivity.
  - reflexivity.
Defined.

(** ** The log-probability overlay *)

Lemma truthy_indices_from_bounds (i0 : nat) (l : list Z) (idx : nat) :
  idx ∈ truthy_indices_from i0 l -> i0 <= idx < i0 + length l.
Proof.
  revert i0. induction l as [|m l IH]; intros i0 H; simpl in H.
  - by apply elem_of_nil in H.
  - destruct (truthy m).
    + apply elem_of_cons in H as [->|H]; [simpl; lia|].
      apply IH in H. simpl. lia.
    + apply IH in H. simpl. lia.
Qed.

Lemma truthy_indices_from_NoDup (i0 : nat) (l : list Z) :
  NoDup (truthy_indices_from i0 l).
Proof.
  revert i0. induction l as [|m l IH]; intros i0; simpl; [constructor|].
  destruct (truthy m); [|apply IH].
  constructor; [|apply IH].
  intros H. apply truthy_indices_from_bounds in H. lia.
Qed.

Lemma write_logprobs_spec offset pairs row :
  NoDup pairs.*1 ->
  Forall (fun p => p.1 + offset < length row) pairs ->
  exists row',
    write_logprobs offset pairs row = Ok row'
    /\ (forall idx lp, (idx, lp) ∈ pairs ->
          row' !! (idx + offset) = Some (logprob_or_nan lp))
    /\ (forall i, (forall p, p ∈ pairs -> p.1 + offset <> i) ->
          row' !! i = row !! i).
Proof.
  revert row. induction pairs as [|[idx lp] pairs IH]; intros row Hnd Hb.
  - exists row. split; [done|]. split; [|done].
    intros idx lp H. by apply elem_of_nil in H.
  - rewrite fmap_cons in Hnd. apply NoDup_cons in Hnd as [Hnotin Hnd].
    apply Forall_cons in Hb as [Hidx Hb]. simpl in Hidx.
    destruct (IH (<[idx + offset := logprob_or_nan lp]> row) Hnd)
      as (row' & Hw & Hset & Hkeep).
    { by rewrite length_insert. }
    exists row'. split.
    { simpl. unfold list_set. by rewrite decide_True. }
    split.
    + intros idx' lp' H. apply elem_of_cons in H as [[= -> ->]|H].
      * rewrite Hkeep; [by apply list_lookup_insert_eq|].
        intros [idx' lp'] Hin E. simpl in E. apply Hnotin.
        apply list_elem_of_fmap. exists (idx', lp'). split; [simpl; lia | done].
      * by apply Hset.
    + intros i Hi. rewrite Hkeep.
      * apply list_lookup_insert_ne. apply (Hi (idx, lp)), elem_of_cons. by left.
      * intros p Hp. apply Hi, elem_of_cons. by right.
Qed.

Lemma zip_fst_elem {A B} (l : list A) (k : list B) (p : A * B) :
  p ∈ zip l k -> p.1 ∈ l.
Proof.
  intros H. apply list_elem_of_lookup in H as [i Hi].
  apply lookup_zip_with_Some in Hi as (x & y & Hp & Hx & _). subst p.
  by eapply list_elem_of_lookup_2.
Qed.

Lemma zip_fst_NoDup {A B} (l : list A) (k : list B) :
  NoDup l -> NoDup (zip l k).*1.
Proof.
  intros Hnd. revert k. induction Hnd as [|x l Hx Hnd IH]; intros [|y k];
    try apply NoDup_nil_2.
  simpl. apply NoDup_cons_2; [|apply IH].
  intros H. apply Hx. apply list_elem_of_fmap in H as (p & Hpx & Hp).
  subst x. by apply zip_fst_elem in Hp.
Qed.

(** The row after the overlay: the old part is untouched, the trailing
    log-probabilities sit on the assistant positions of the new span and
    the rest of the span is NaN. *)
Lemma overlay_logprobs_spec (old : list pyfloat) (e : TokenizedResult)
    (lps : list ChatCompletionTokenLogprob) :
  let ai := truthy_indices_from 0 (assistant_mask e) in
  length (assistant_mask e) = length (token_ids e) ->
  token_logprobs e = Some lps ->
  lps <> [] ->
  length ai <= length lps ->
  exists span,
    overlay_logprobs (length old) e (old ++ py_repeat FNaN (py_len (token_ids e)))
    = Ok (old ++ span)
    /\ length span = length (token_ids e)
    /\ (forall j idx lp,
          ai !! j = Some idx ->
          lps !! (length lps - length ai + j) = Some lp ->
          span !! idx = Some (logprob_or_nan lp))
    /\ (forall i, i < length span -> i ∉ ai -> span !! i = Some FNaN).
Proof.
  intros ai Hmask Hlps Hne Hle.
  set (row := old ++ py_repeat FNaN (py_len (token_ids e))).
  set (pairs := zip ai (slice_from (py_len lps - py_len ai) lps)).
  assert (length row = length old + length (token_ids e)) as Hrow.
  { unfold row. by rewrite length_app, repeat_span_length. }
  destruct (write_logprobs_spec (length old) pairs row)
    as (row' & Hw & Hset & Hkeep).
  { apply zip_fst_NoDup, truthy_indices_from_NoDup. }
  { apply Forall_forall. intros p Hp. apply zip_fst_elem in Hp.
    apply truthy_indices_from_bounds in Hp. lia. }
  pose proof (write_logprobs_length _ _ _ _ Hw) as Hlen'.
  assert (take (length old) row' = old) as Htake.
  { apply list_eq. intros i. destruct (decide (i < length old)) as [Hi|Hi].
    - rewrite lookup_take_lt by done. rewrite Hkeep.
      + unfold row. by rewrite lookup_app_l.
      + intros p _. lia.
    - rewrite lookup_take_ge by lia. symmetry. apply lookup_ge_None. lia. }
  exists (drop (length old) row'). split.
  { unfold overlay_logprobs. rewrite Hlps. destruct lps as [|lp0 lps0]; [done|].
    rewrite decide_True by done. fold ai. fold pairs. fold row.
    rewrite Hw. f_equal. rewrite <- Htake at 1. by rewrite take_drop. }
  split; [rewrite length_drop; lia|]. split.
  - intros j idx lp Hj Hlp. rewrite lookup_drop, Nat.add_comm.
    apply Hset. apply list_elem_of_lookup. exists j.
    apply lookup_zip_with_Some. exists idx, lp. split; [done|]. split; [done|].
    rewrite slice_from_nonneg by (unfold py_len; lia).
    rewrite lookup_drop. rewrite <- Hlp. f_equal. unfold py_len. lia.
  - intros i Hi Hnotin. rewrite length_drop in Hi.
    rewrite lookup_drop, Hkeep.
    + unfold row. rewrite lookup_app_r by lia.
      replace (length old + i - length old) with i by lia.
      apply lookup_replicate. split; [done|]. unfold py_len. lia.
    + intros p Hp E. apply zip_fst_elem in Hp.
      replace i with p.1 in Hnotin by lia. done.
Qed.

Lemma overlay_logprobs_reject offset (e : TokenizedResult) row
    (lps : list ChatCompletionTokenLogprob) :
  token_logprobs e = Some lps ->
  lps <> [] ->
  length lps < length (truthy_indices_from 0 (assistant_mask e)) ->
  overlay_logprobs offset e row = Raise AssertionError.
Proof.
  intros Hlps Hne Hlt. unfold overlay_logprobs. rewrite Hlps.
  destruct lps as [|lp0 lps0]; [done|]. rewrite decide_False by lia. done.
Qed.

Lemma overlay_logprobs_empty offset (e : TokenizedResult) row :
  token_logprobs e = Some [] \/ token_logprobs e = None ->
  overlay_logprobs offset e row = Ok row.
Proof. unfold overlay_logprobs. by intros [-> | ->]. Qed.

Lemma pack_iter_logprobs_inv seq_len t s r s' :
  skipped seq_len t r = false ->
  pack_iter seq_len t s r = Ok s' ->
  let acc1 := maybe_flush seq_len s.2 r in
  let e := effective acc1 r in
  exists logprobs',
    overlay_logprobs (length (last_row (acc_logprobs acc1))) e
      (last_row (acc_logprobs acc1) ++ py_repeat FNaN (py_len (token_ids e)))
    = Ok logprobs'
    /\ acc_logprobs s'.2
       = set_last_row (cut t seq_len logprobs') (acc_logprobs acc1).
Proof.
  intros Hsk H. rewrite pack_iter_unfold in H by done.
  apply bind_Ok in H as (acc' & Happ & H). injection H as <-. simpl.
  apply append_result_inv in Happ
    as (lp' & adv' & w & Hov & _ & _ & _ & _ & _ & -> & _).
  by exists lp'.
Qed.

(** The appended span of the log-probability channel, for a result that
    carries a non-empty list of log-probabilities and is accepted. *)
Lemma pack_iter_overlay seq_len t s r s' lps :
  wf_result r ->
  skipped seq_len t r = false ->
  let acc1 := maybe_flush seq_len s.2 r in
  let e := effective acc1 r in
  let ai := truthy_indices_from 0 (assistant_mask e) in
  token_logprobs e = Some lps ->
  lps <> [] ->
  pack_iter seq_len t s r = Ok s' ->
  length ai <= length lps
  /\ exists span,
       acc_logprobs s'.2
       = set_last_row
           (cut t seq_len (last_row (acc_logprobs acc1) ++ span))
           (acc_logprobs acc1)
       /\ length span = length (token_ids e)
       /\ (forall j idx lp,
             ai !! j = Some idx ->
             lps !! (length lps - length ai + j) = Some lp ->
             span !! idx = Some (logprob_or_nan lp))
       /\ (forall i, i < length span -> i ∉ ai -> span !! i = Some FNaN).
Proof.
  intros Hwf Hsk acc1 e ai Hlps Hne H.
  destruct (pack_iter_logprobs_inv seq_len t s r s' Hsk H) as (lp' & Hov & Hrows).
  fold acc1 in Hov, Hrows. fold e in Hov.
  destruct (decide (length ai <= length lps)) as [Hle|Hgt].
  - split; [done|].
    pose proof (effective_wf acc1 r Hwf) as [_ Hmask _]. fold e in Hmask.
    destruct (overlay_logprobs_spec (last_row (acc_logprobs acc1)) e lps
                Hmask Hlps Hne Hle) as (span & Hov' & Hspan).
    rewrite Hov' in Hov. injection Hov as <-. by exists span.
  - rewrite (overlay_logprobs_reject _ e _ lps Hlps Hne) in Hov by (fold ai; lia).
    done.
Qed.

(** C1, as stated, fails: a result with one log-probability for its two
    assistant positions is not packed with its leading assistant position
    left NaN; the assertion of line 100 rejects it. *)
Lemma partial_logprobs_counterexample :
  wf_result partial_logprobs_result
  /\ token_logprobs partial_logprobs_result = Some [sample_logprob (-1)]
  /\ truthy_indices_from 0 (assistant_mask partial_logprobs_result) = [1; 2]
  /\ packed_tensors_from_tokenized_results sample_rng [partial_logprobs_result]
       4 (-100) true = Raise AssertionError
  /\ packed_tensors_from_tokenized_results sample_rng [partial_logprobs_result]
       4 (-100) false = Raise AssertionError.
Proof.
  split; [split; simpl; unfold py_len; simpl; lia|].
  repeat split; vm_compute; reflexivity.
Qed.

(** C1 (amended): let a result that is not skipped carry a list of
    log-probabilities, and let [e] be its effective form.  If the list is
    not empty and has fewer entries than [e] has assistant positions, the
    iteration raises [AssertionError].  If the iteration succeeds with a
    non-empty list, the list has at least as many entries as there are
    assistant positions, its trailing entries lie one for one on the
    assistant positions of the appended span (a falsy value as NaN), and
    all other positions of the span are NaN.  With an empty list the whole
    span is NaN. *)
Theorem logprobs_overlay seq_len t s r s' lps :
  wf_result r ->
  skipped seq_len t r = false ->
  let acc1 := maybe_flush seq_len s.2 r in
  let e := effective acc1 r in
  let ai := truthy_indices_from 0 (assistant_mask e) in
  token_logprobs e = Some lps ->
  (lps <> [] -> length lps < length ai ->
   pack_iter seq_len t s r = Raise AssertionError)
  /\ (pack_iter seq_len t s r = Ok s' ->
      exists span,
        acc_logprobs s'.2
        = set_last_row
            (cut t seq_len (last_row (acc_logprobs acc1) ++ span))
            (acc_logprobs acc1)
        /\ length span = length (token_ids e)
        /\ (lps = [] -> span = replicate (length (token_ids e)) FNaN)
        /\ (lps <> [] ->
            length ai <= length lps
            /\ (forall j idx lp,
                  ai !! j = Some idx ->
                  lps !! (length lps - length ai + j) = Some lp ->
                  span !! idx = Some (logprob_or_nan lp))
            /\ (forall i, i < length span -> i ∉ ai -> span !! i = Some FNaN))).
Proof.
  intros Hwf Hsk acc1 e ai Hlps. split.
  - intros Hne Hlt. rewrite pack_iter_unfold by done. fold acc1. fold e.
    unfold append_result.
    by rewrite (overlay_logprobs_reject _ e _ lps Hlps Hne Hlt).
  - intros H. destruct lps as [|lp0 lps0].
    + destruct (pack_iter_logprobs_inv seq_len t s r s' Hsk H)
        as (lp' & Hov & Hrows).
      fold acc1 in Hov, Hrows. fold e in Hov.
      rewrite overlay_logprobs_empty in Hov by (by left).
      injection Hov as <-.
      exists (py_repeat FNaN (py_len (token_ids e))).
      split; [done|]. split; [apply repeat_span_length|].
      split; [|done]. intros _. unfold py_repeat, py_len. f_equal. lia.
    + destruct (pack_iter_overlay seq_len t s r s' (lp0 :: lps0) Hwf Hsk Hlps)
        as (Hle & span & Hrows & Hlen & Hset & Hnan); [done | done |].
      exists span. split; [done|]. split; [done|]. split; [done|].
      intros _. by repeat split.
Qed.

Lemma logprobs_overlay_witness :
  exists s',
    pack_iter 4 true (sample_rng, acc_init) surplus_logprobs_result = Ok s'
    /\ acc_logprobs s'.2 = [[FNaN; FNum (-2); FNum (-3)]]
    /\ exists span,
         acc_logprobs s'.2
         = set_last_row
             (cut true 4
                (last_row
                   (acc_logprobs
                      (maybe_flush 4 acc_init surplus_logprobs_result))
                 ++ span))
             (acc_logprobs (maybe_flush 4 acc_init surplus_logprobs_result))
         /\ span !! 1 = Some (FNum (-2))
         /\ span !! 2 = Some (FNum (-3))
         /\ span !! 0 = Some FNaN.
Proof.
  assert (exists s',
            pack_iter 4 true (sample_rng, acc_init) surplus_logprobs_result
            = Ok s') as [s' Hs'] by (eexists; vm_compute; reflexivity).
  exists s'. split; [exact Hs'|].
  split; [vm_compute in Hs'; by injection Hs' as <-|].
  assert (wf_result surplus_logprobs_result) as Hwf
    by (split; simpl; unfold py_len; simpl; lia).
  destruct (logprobs_overlay 4 true (sample_rng, acc_init)
              surplus_logprobs_result s'
              [sample_logprob (-1); sample_logprob (-2); sample_logprob (-3)]
              Hwf eq_refl eq_refl) as [_ Hok].
  destruct (Hok Hs') as (span & Hrows & Hlen & _ & Hset).
  destruct (Hset ltac:(discriminate)) as (_ & Hset' & Hnan).
  exists span. split; [exact Hrows|].
  split; [exact (Hset' 0 1 (sample_logprob (-2)) eq_refl eq_refl)|].
  split; [exact (Hset' 1 2 (sample_logprob (-3)) eq_refl eq_refl)|].
  apply Hnan.
  - rewrite Hlen. simpl. lia.
  - simpl. intros Hin. apply elem_of_cons in Hin as [Hin|Hin]; [lia|].
    apply elem_of_cons in Hin as [Hin|Hin]; [lia|]. by apply elem_of_nil in Hin.
Defined.

Lemma logprob_or_nan_falsy (lp : ChatCompletionTokenLogprob) :
  logprob lp = None
  \/ (exists q, logprob lp = Some (FNum q) /\ (q == 0)%Q) ->
  logprob_or_nan lp = FNaN.
Proof.
  unfold logprob_or_nan. intros [-> | (q & -> & Hq)]; [done|].
  simpl. apply Qeq_bool_iff in Hq. by rewrite Hq.
Qed.

(** C10: when a result is appended and the log-probability record that is
    overlaid on one of its assistant positions carries the number 0 (or no
    value), the log-probability channel holds NaN at that position of the
    appended span, not 0. *)
Theorem zero_logprob_stored_as_nan seq_len t s r s' lps j idx lp :
  wf_result r ->
  skipped seq_len t r = false ->
  let acc1 := maybe_flush seq_len s.2 r in
  let e := effective acc1 r in
  let ai := truthy_indices_from 0 (assistant_mask e) in
  token_logprobs e = Some lps ->
  pack_iter seq_len t s r = Ok s' ->
  ai !! j = Some idx ->
  lps !! (length lps - length ai + j) = Some lp ->
  (logprob lp = None \/ exists q, logprob lp = Some (FNum q) /\ (q == 0)%Q) ->
  exists span,
    acc_logprobs s'.2
    = set_last_row
        (cut t seq_len (last_row (acc_logprobs acc1) ++ span))
        (acc_logprobs acc1)
    /\ length span = length (token_ids e)
    /\ span !! idx = Some FNaN.
Proof.
  intros Hwf Hsk acc1 e ai Hlps H Hidx Hlp Hfalsy.
  assert (lps <> []) as Hne by (intros ->; done).
  destruct (pack_iter_overlay seq_len t s r s' lps Hwf Hsk Hlps Hne H)
    as (_ & span & Hrows & Hlen & Hset & _).
  exists span. split; [done|]. split; [done|].
  rewrite (Hset j idx lp Hidx Hlp). f_equal. by apply logprob_or_nan_falsy.
Qed.

Lemma zero_logprob_stored_as_nan_witness :
  exists s',
    pack_iter 4 true (sample_rng, acc_init) zero_logprob_result = Ok s'
    /\ acc_logprobs s'.2 = [[FNaN; FNaN; FNum (-3)]]
    /\ exists span,
         acc_logprobs s'.2
         = set_last_row
             (cut true 4
                (last_row
                   (acc_logprobs (maybe_flush 4 acc_init zero_logprob_result))
                 ++ span))
             (acc_logprobs (maybe_flush 4 acc_init zero_logprob_result))
         /\ length span
            = length (token_ids
                        (effective (maybe_flush 4 acc_init zero_logprob_result)
                           zero_logprob_result))
         /\ span !! 1 = Some FNaN.
Proof.
  assert (exists s',
            pack_iter 4 true (sample_rng, acc_init) zero_logprob_result = Ok s')
    as [s' Hs'] by (eexists; vm_compute; reflexivity).
  exists s'. split; [exact Hs'|].
  split; [vm_compute in Hs'; by injection Hs' as <-|].
  apply (zero_logprob_stored_as_nan 4 true (sample_rng, acc_init)
           zero_logprob_result s'
           [sample_logprob (-1); sample_logprob 0; sample_logprob (-3)]
           0 1 (sample_logprob 0)).
  - split; simpl; unfold py_len; simpl; lia.
  - reflexivity.
  - reflexivity.
  - exact Hs'.
  - reflexivity.
  - reflexivity.
  - right. exists 0%Q. split; reflexivity.
Defined.

(** ** The grouping pass *)

Lemma single_valued_spec (col : list Z) :
  single_valued col = true <-> exists tok, col <> [] /\ forall x, x ∈ col -> x = tok.
Proof.
  unfold single_valued. rewrite bool_decide_eq_true. split.
  - intros Hsize. destruct (size_1_elem_of _ Hsize) as [tok Htok].
    exists tok. split.
    + intros ->. rewrite list_to_set_nil in Htok.
      assert (tok ∈ (∅ : gset Z)) as H by (rewrite Htok; set_solver).
      set_solver.
    + intros x Hx. apply (elem_of_list_to_set (C := gset Z)) in Hx.
      rewrite Htok in Hx. set_solver.
  - intros (tok & Hne & Hall).
    assert ((list_to_set col : gset Z) = {[tok]}) as ->.
    { apply set_eq. intros y. rewrite elem_of_list_to_set, elem_of_singleton.
      split; [apply Hall|]. intros ->. destruct col as [|x col]; [done|].
      rewrite (Hall x) by (apply elem_of_cons; by left).
      apply elem_of_cons. by left. }
    apply size_singleton.
Qed.

Lemma takewhile_length_spec {A} (p : A -> bool) (l : list A) :
  (forall j, j < length (takewhile p l) ->
             exists x, l !! j = Some x /\ p x = true)
  /\ (forall x, l !! length (takewhile p l) = Some x -> p x = false).
Proof.
  induction l as [|y l [IH1 IH2]]; simpl.
  - split; [intros j Hj; lia | done].
  - destruct (p y) eqn:Hy; simpl.
    + split.
      * intros [|j] Hj; [by exists y|]. apply IH1. lia.
      * exact IH2.
    + split; [intros j Hj; lia|]. by intros x [= <-].
Qed.

Lemma mapM_lookup_tail (rest : list (list Z)) (j : nat) :
  mapM (fun l => l !! S j) rest = mapM (fun l => l !! j) (tail <$> rest).
Proof.
  induction rest as [|l rest IH]; [done|].
  rewrite fmap_cons. simpl. rewrite IH. by rewrite lookup_tail.
Qed.

Lemma mapM_lookup_head (rest : list (list Z)) :
  mapM (fun l => l !! 0) rest = mapM head rest.
Proof. apply mapM_ext. intros l. by rewrite head_lookup. Qed.

Lemma mapM_head_None (rest : list (list Z)) (j : nat) :
  mapM head rest = None -> mapM (fun l => l !! j) rest = None.
Proof.
  intros H. apply mapM_None in H. apply mapM_None.
  induction H as [l rest Hl|l rest H IH]; [left | by right].
  destruct l; [done | discriminate].
Qed.

(** The columns of the unpacked lists, by index. *)
Lemma zip_star_from_lookup (first : list Z) (rest : list (list Z)) (j : nat) :
  zip_star_from first rest !! j = mapM (fun l => l !! j) (first :: rest).
Proof.
  revert rest j. induction first as [|x first IH]; intros rest j; [done|].
  cbn [zip_star_from]. destruct (mapM head rest) as [xs|] eqn:Hh.
  - destruct j as [|j].
    + simpl. by rewrite mapM_lookup_head, Hh.
    + cbn [lookup list_lookup]. rewrite IH. simpl.
      by rewrite mapM_lookup_tail.
  - simpl. rewrite (mapM_head_None rest j Hh).
    by destruct ((x :: first) !! j).
Qed.

Lemma mapM_lookup_uniform (ls : list (list Z)) (j : nat) (tok : Z) :
  (forall l, l ∈ ls -> l !! j = Some tok) ->
  mapM (fun l => l !! j) ls = Some (replicate (length ls) tok).
Proof.
  induction ls as [|l ls IH]; intros H; [done|].
  simpl. rewrite (H l) by (apply elem_of_cons; by left). simpl.
  rewrite IH; [done|]. intros l' Hl'. apply H, elem_of_cons. by right.
Qed.

Lemma zip_star_lookup (ls : list (list Z)) (j : nat) :
  ls <> [] -> zip_star ls !! j = mapM (fun l => l !! j) ls.
Proof. destruct ls as [|l ls]; [done|]. intros _. apply zip_star_from_lookup. Qed.

Lemma column_uniform_iff (rs : list TokenizedResult) (j : nat) :
  rs <> [] ->
  uniform_column rs j
  <-> exists col, zip_star (token_ids <$> rs) !! j = Some col
                  /\ single_valued col = true.
Proof.
  intros Hne.
  assert (token_ids <$> rs <> []) as Hne' by (by destruct rs).
  rewrite zip_star_lookup by done. split.
  - intros [tok Htok]. exists (replicate (length (token_ids <$> rs)) tok). split.
    + apply mapM_lookup_uniform. intros l Hl.
      apply list_elem_of_fmap in Hl as (r & -> & Hr). by apply Htok.
    + apply single_valued_spec. exists tok. split.
      * destruct rs; [done | discriminate].
      * intros x Hx. by apply elem_of_replicate in Hx as [-> _].
  - intros (col & Hcol & Hsv).
    apply single_valued_spec in Hsv as (tok & _ & Hall).
    exists tok. intros r Hr. apply mapM_Some in Hcol.
    apply list_elem_of_lookup in Hr as [i Hi].
    assert ((token_ids <$> rs) !! i = Some (token_ids r)) as Hi'
      by (by rewrite list_lookup_fmap, Hi).
    destruct (Forall2_lookup_l _ _ _ _ _ Hcol Hi') as (y & Hy & Hlook).
    rewrite Hlook. f_equal. apply Hall. by eapply list_elem_of_lookup_2.
Qed.

(** C8: the grouping pass gives every sibling the same drawn 64-bit
    [prompt_id] and the same [prompt_length], which is the largest number
    of leading columns in which all siblings hold one token id (0 for no
    sibling), and zeroes the first [prompt_length] entries of every
    sibling's assistant mask. *)
Theorem grouping_pass (g : RNG) (rs : list TokenizedResult) :
  let p := (randint int64_min int64_max g).1 in
  let rs' := (group_results g rs).2 in
  exists n : nat,
    common_prompt_length rs = Z.of_nat n
    /\ (rs = [] -> n = 0)
    /\ (forall j, j < n -> uniform_column rs j)
    /\ (rs <> [] ->
        forall n', (forall j, j < n' -> uniform_column rs j) -> n' <= n)
    /\ (int64_min <= p <= int64_max)%Z
    /\ length rs' = length rs
    /\ (forall i r r',
          rs !! i = Some r -> rs' !! i = Some r' ->
          prompt_id r' = p
          /\ prompt_length r' = Z.of_nat n
          /\ token_ids r' = token_ids r
          /\ length (assistant_mask r') = Nat.max n (length (assistant_mask r))
          /\ (forall j, j < n -> assistant_mask r' !! j = Some 0%Z)
          /\ (forall j, n <= j -> assistant_mask r' !! j = assistant_mask r !! j)).
Proof.
  intros p rs'.
  set (cols := zip_star (token_ids <$> rs)).
  exists (length (takewhile single_valued cols)).
  destruct (takewhile_length_spec single_valued cols) as [Hpre Hstop].
  split; [done|]. split; [by intros ->|]. split.
  { intros j Hj. destruct (Hpre j Hj) as (col & Hcol & Hsv).
    destruct rs as [|r0 rs0]; [done|].
    apply column_uniform_iff; [done | eauto]. }
  split.
  { intros Hne n' Hn'.
    destruct (decide (n' <= length (takewhile single_valued cols)))
      as [|Hgt]; [done|].
    assert (uniform_column rs (length (takewhile single_valued cols))) as Hu
      by (apply Hn'; lia).
    apply column_uniform_iff in Hu as (col & Hcol & Hsv); [|done].
    fold cols in Hcol. rewrite (Hstop col Hcol) in Hsv. done. }
  split; [apply randint_range|].
  assert (rs' = set_prompt p (common_prompt_length rs) <$> rs) as -> by done.
  split; [by rewrite length_fmap|].
  intros i r r' Hr Hr'. rewrite list_lookup_fmap, Hr in Hr'.
  injection Hr' as <-. simpl.
  assert (common_prompt_length rs
          = Z.of_nat (length (takewhile single_valued cols))) as -> by done.
  split; [done|]. split; [done|]. split; [done|].
  set (n := length (takewhile single_valued cols)).
  assert (zero_prefix (Z.of_nat n) (assistant_mask r)
          = replicate n 0%Z ++ drop n (assistant_mask r)) as ->.
  { unfold zero_prefix, py_repeat. rewrite slice_from_nonneg by lia.
    by rewrite Nat2Z.id. }
  split; [rewrite length_app, length_replicate, length_drop; lia|]. split.
  - intros j Hj. rewrite lookup_app_l by (by rewrite length_replicate).
    by apply lookup_replicate.
  - intros j Hj. rewrite lookup_app_r by (rewrite length_replicate; lia).
    rewrite length_replicate, lookup_drop. f_equal. lia.
Qed.

(** ** Round trip through the storage adapter *)

Lemma mapped_file_length {A} `{DType A} (fs : FS) path size :
  size <= length (mapped_file (A := A) fs path size).
Proof.
  unfold mapped_file. destruct (fs !! path ≫= dt_unwrap) as [l|].
  - destruct (decide (length l < size)); [|lia].
    destruct l as [|x l]; simpl in *;
      rewrite ?length_app, length_replicate; lia.
  - rewrite length_replicate. lia.
Qed.

Lemma from_file_length {A} `{DType A} (fs : FS) path size :
  length (from_file (A := A) fs path size).2 = size.
Proof.
  unfold from_file. simpl. rewrite length_take.
  pose proof (mapped_file_length (A := A) fs path size). lia.
Qed.

Lemma view_infer_last_exact {A} (n l : nat) (flat : list A) :
  n * l <> 0 -> length flat = n * l * 1 ->
  view_infer_last n l flat = Ok {| shape := [n; l; 1]; elems := flat |}.
Proof.
  intros Hnl Hlen. unfold view_infer_last.
  rewrite decide_False by done. rewrite Hlen, Nat.mul_1_r.
  rewrite Nat.Div0.mod_same, decide_True by done.
  by rewrite Nat.div_same.
Qed.

Lemma open_channel_squeezed {A} `{DType A} (fs : FS) (d : DiskPackedTensors)
    (key : string) :
  num_sequences d * sequence_length d <> 0 ->
  String.eqb key "mask" = false ->
  exists fs' flat,
    open_channel (A := A) fs d key
    = Ok (fs',
          squeeze {| shape := [num_sequences d; sequence_length d; 1];
                     elems := flat |}).
Proof.
  intros Hnl Hkey. unfold open_channel. rewrite Hkey.
  pose proof (from_file_length (A := A) fs (dir d, key)
                (num_sequences d * sequence_length d * 1)) as Hlen.
  destruct (from_file fs (dir d, key) _) as [fs' flat]. simpl in Hlen.
  rewrite view_infer_last_exact by done.
  simpl. eauto.
Qed.

(** The views of a directory: each one has the squeezed shape. *)
Lemma from_dir_shapes (fs : FS) (d : DiskPackedTensors) :
  num_sequences d * sequence_length d <> 0 ->
  let sh := filter (fun n => n <> 1) [num_sequences d; sequence_length d; 1] in
  exists fs' views,
    packed_tensors_from_dir fs d = Ok (fs', views)
    /\ shape (pt_tokens views) = sh
    /\ shape (pt_group_ids views) = sh
    /\ shape (pt_parent_ids views) = sh
    /\ shape (pt_input_pos views) = sh
    /\ shape (pt_assistant_mask views) = sh
    /\ shape (pt_logprobs views) = sh
    /\ shape (pt_advantages views) = sh
    /\ shape (pt_weights views) = sh
    /\ shape (pt_deferred views) = sh.
Proof.
  intros Hnl sh. unfold packed_tensors_from_dir.
  destruct (open_channel_squeezed (A := Z) fs d "tokens" Hnl eq_refl)
    as (fs1 & f1 & ->). cbn [bind].
  destruct (open_channel_squeezed (A := Z) fs1 d "group_ids" Hnl eq_refl)
    as (fs2 & f2 & ->). cbn [bind].
  destruct (open_channel_squeezed (A := Z) fs2 d "parent_ids" Hnl eq_refl)
    as (fs3 & f3 & ->). cbn [bind].
  destruct (open_channel_squeezed (A := Z) fs3 d "input_pos" Hnl eq_refl)
    as (fs4 & f4 & ->). cbn [bind].
  destruct (open_channel_squeezed (A := bool) fs4 d "assistant_mask" Hnl eq_refl)
    as (fs5 & f5 & ->). cbn [bind].
  destruct (open_channel_squeezed (A := pyfloat) fs5 d "logprobs" Hnl eq_refl)
    as (fs6 & f6 & ->). cbn [bind].
  destruct (open_channel_squeezed (A := pyfloat) fs6 d "advantages" Hnl eq_refl)
    as (fs7 & f7 & ->). cbn [bind].
  destruct (open_channel_squeezed (A := pyfloat) fs7 d "weights" Hnl eq_refl)
    as (fs8 & f8 & ->). cbn [bind].
  destruct (open_channel_squeezed (A := bool) fs8 d "deferred" Hnl eq_refl)
    as (fs9 & f9 & ->). cbn [bind].
  eexists _, _. split; [reflexivity|]. by repeat split.
Qed.

(** A batch of one row cannot be written: the view of the token file has
    one dimension, the source two. *)
Lemma to_dir_single_row_raises (fs : FS) (pt : PackedTensors) (dir' : string)
    (l : nat) :
  shape (pt_tokens pt) = [1; l] -> 2 <= l ->
  packed_tensors_to_dir fs pt dir' = Raise RuntimeError.
Proof.
  intros Hshape Hl. unfold packed_tensors_to_dir. rewrite Hshape.
  destruct (from_dir_shapes fs
              {| dir := dir'; num_sequences := 1; sequence_length := l |})
    as (fs' & views & -> & Htok & _); [simpl; lia|].
  cbn [bind]. unfold copy_ at 1. rewrite Htok.
  cbn [num_sequences sequence_length].
  rewrite !filter_cons, filter_nil.
  rewrite (decide_False (P := 1 <> 1)) by (intros H; by apply H).
  rewrite (decide_True (P := l <> 1)) by lia.
  unfold expand. rewrite Hshape. rewrite decide_False by (simpl; lia).
  reflexivity.
Qed.

(** C9 at a batch of one row: the packed [sample_batch] has shape (1, 4).
    The views returned by [packed_tensors_from_dir] for this descriptor have
    shape (4), because [squeeze] also removes the row dimension of size 1:
    reading back cannot give the original shape, and the [copy_] of
    [packed_tensors_to_dir] from a source of shape (1, 4) into a view of
    shape (4) is refused. *)
Theorem single_row_round_trip_fails :
  exists pt fs' views,
    packed_tensors_from_tokenized_results sample_rng sample_batch 4 (-100) true
    = Ok pt
    /\ shape (pt_tokens pt) = [1; 4]
    /\ packed_tensors_from_dir ∅
         {| dir := "d"; num_sequences := 1; sequence_length := 4 |}
       = Ok (fs', views)
    /\ shape (pt_tokens views) = [4]
    /\ shape (pt_weights views) = [4]
    /\ packed_tensors_to_dir ∅ pt "d" = Raise RuntimeError.
Proof.
  destruct (from_dir_shapes ∅
              {| dir := "d"; num_sequences := 1; sequence_length := 4 |})
    as (fs' & views & Hfrom & Htok & _ & _ & _ & _ & _ & _ & Hw & _);
    [simpl; lia|].
  eexists _, fs', views.
  split; [vm_compute; reflexivity|]. split; [reflexivity|].
  split; [exact Hfrom|]. split; [by rewrite Htok|].
  split; [by rewrite Hw|].
  apply (to_dir_single_row_raises _ _ _ 4); [reflexivity | lia].
Qed.

(** ** The packer returns on grouped inputs *)

Lemma py_sum_app (l k : list Z) : py_sum (l ++ k) = (py_sum l + py_sum k)%Z.
Proof.
  induction l as [|x l IH]; [done|].
  change (x + py_sum (l ++ k) = x + py_sum l + py_sum k)%Z. lia.
Qed.

Lemma py_sum_zeros (l : list Z) : Forall (fun m => m = 0%Z) l -> py_sum l = 0%Z.
Proof.
  induction 1 as [|x l -> Hl IH]; [done|].
  change (0 + py_sum l = 0)%Z. lia.
Qed.

Lemma py_sum_counts (i0 : nat) (l : list Z) :
  Forall (fun m => m = 0%Z \/ m = 1%Z) l ->
  py_sum l = Z.of_nat (length (truthy_indices_from i0 l)).
Proof.
  intros H. revert i0. induction H as [|x l Hx Hl IH]; intros i0; [done|].
  change (py_sum (x :: l)) with (x + py_sum l)%Z. rewrite (IH (S i0)).
  destruct Hx as [-> | ->]; simpl; lia.
Qed.

Lemma truthy_indices_from_shift (i0 i1 : nat) (l : list Z) :
  length (truthy_indices_from i0 l) = length (truthy_indices_from i1 l).
Proof.
  revert i0 i1. induction l as [|x l IH]; intros i0 i1; [done|].
  simpl. destruct (truthy x); simpl; by rewrite (IH (S i0) (S i1)).
Qed.

Lemma without_prompt_mask_sum (r : TokenizedResult) :
  packable r ->
  py_sum (assistant_mask (without_prompt r)) = py_sum (assistant_mask r).
Proof.
  intros [[_ _ Hk] _ Hzero _]. simpl.
  rewrite slice_from_nonneg by lia.
  rewrite <- (take_drop (Z.to_nat (prompt_length r)) (assistant_mask r)) at 2.
  rewrite py_sum_app, (py_sum_zeros _ Hzero). lia.
Qed.

Lemma without_prompt_count (r : TokenizedResult) :
  packable r ->
  length (truthy_indices_from 0 (assistant_mask (without_prompt r)))
  = length (truthy_indices_from 0 (assistant_mask r)).
Proof.
  intros Hp. pose proof (without_prompt_mask_sum r Hp) as Hsum.
  destruct Hp as [_ H01 _ _].
  rewrite (py_sum_counts 0 (assistant_mask r) H01) in Hsum.
  rewrite (py_sum_counts 0) in Hsum; [lia|].
  simpl. by apply Forall_drop.
Qed.

(** The effective form of a packable result that is not skipped can be
    appended. *)
Lemma effective_appendable seq_len t acc r :
  packable r -> skipped seq_len t r = false ->
  let e := effective acc r in
  wf_result e
  /\ py_sum (assistant_mask e) <> 0%Z
  /\ token_ids e <> []
  /\ (forall lps, token_logprobs e = Some lps ->
        lps = [] \/ length (truthy_indices_from 0 (assistant_mask e)) <= length lps).
Proof.
  intros Hp Hsk e. pose proof (pk_wf r Hp) as Hwf.
  pose proof (effective_wf acc r Hwf) as Hwfe. fold e in Hwfe.
  apply skipped_false in Hsk as [_ Hsum].
  assert (py_sum (assistant_mask e) <> 0%Z) as Hsume.
  { unfold e, effective. destruct (prompt_in_row acc r); [|done].
    by rewrite without_prompt_mask_sum. }
  split; [done|]. split; [done|]. split.
  { intros E. destruct Hwfe as [_ Hm _]. rewrite E in Hm.
    destruct (assistant_mask e); [done | discriminate]. }
  unfold e, effective. destruct (prompt_in_row acc r); [|apply Hp].
  intros lps' Hlps'. rewrite without_prompt_count by done. simpl in Hlps'.
  destruct (token_logprobs r) as [lps|] eqn:Hlps; [|done].
  injection Hlps' as <-.
  destruct (pk_logprobs r Hp lps Hlps) as [-> | Hle];
    [left; unfold slice_from; apply drop_nil | right].
  pose proof (without_prompt_mask_sum r Hp) as Hs. simpl in Hs. rewrite Hs.
  rewrite (py_sum_counts 0 _ (pk_mask01 r Hp)).
  rewrite slice_from_nonneg by (unfold py_len; lia).
  rewrite length_drop. unfold py_len. lia.
Qed.

Lemma append_result_total seq_len t gid acc e :
  wf_result e ->
  py_sum (assistant_mask e) <> 0%Z ->
  token_ids e <> [] ->
  (forall lps, token_logprobs e = Some lps ->
     lps = [] \/ length (truthy_indices_from 0 (assistant_mask e)) <= length lps) ->
  exists acc', append_result seq_len t gid acc e = Ok acc'.
Proof.
  intros [_ Hmask _] Hsum Hne Hlps. unfold append_result.
  assert (exists lp',
            overlay_logprobs (length (last_row (acc_logprobs acc))) e
              (last_row (acc_logprobs acc)
               ++ py_repeat FNaN (py_len (token_ids e))) = Ok lp') as [lp' ->].
  { destruct (token_logprobs e) as [[|lp0 lps0]|] eqn:E.
    - eexists. apply overlay_logprobs_empty. by left.
    - destruct (Hlps _ eq_refl) as [|Hle]; [done|].
      destruct (overlay_logprobs_spec (last_row (acc_logprobs acc)) e
                  (lp0 :: lps0) Hmask E ltac:(done) Hle) as (span & -> & _).
      eauto.
    - eexists. apply overlay_logprobs_empty. by right. }
  simpl.
  assert (exists adv',
            set_last_item (FNum 0)
              (last_row (acc_advantages acc)
               ++ py_repeat (advantage e) (py_len (token_ids e))) = Ok adv')
    as [adv' ->].
  { unfold set_last_item.
    destruct (last_row (acc_advantages acc)
              ++ py_repeat (advantage e) (py_len (token_ids e))) eqn:E; [|eauto].
    apply (f_equal length) in E.
    rewrite length_app, repeat_span_length in E.
    destruct (token_ids e); [done | simpl in E; lia]. }
  simpl. unfold py_inv. destruct (Z.eqb_spec (py_sum (assistant_mask e)) 0);
    [done|]. simpl. eauto.
Qed.

Lemma pack_loop_total seq_len t rs s :
  Forall packable rs -> exists s', pack_loop seq_len t s rs = Ok s'.
Proof.
  intros Hp. revert s. induction Hp as [|r rs Hr Hrs IH]; intros s; [by exists s|].
  simpl. destruct (skipped seq_len t r) eqn:Hsk.
  - unfold pack_iter. rewrite Hsk. simpl. apply IH.
  - rewrite pack_iter_unfold by done.
    destruct (effective_appendable seq_len t (maybe_flush seq_len s.2 r) r Hr Hsk)
      as (Hwf & Hsum & Hne & Hlps).
    destruct (append_result_total seq_len t
                (randint int64_min int64_max s.1).1
                (maybe_flush seq_len s.2 r)
                (effective (maybe_flush seq_len s.2 r) r) Hwf Hsum Hne Hlps)
      as [acc' ->].
    simpl. apply IH.
Qed.

(** X18: the packer raises no exception on packable results whose token
    ids, positions and prompt id fit [torch.long]: for a non-negative
    [seq_len] and a pad token of that range, whatever the random draws and
    the truncation setting, it returns a [PackedTensors]. *)
Lemma packer_returns g rs seq_len pad_token_id t :
  (0 <= seq_len)%Z -> in_int64 pad_token_id ->
  Forall packable rs -> Forall int64_result rs ->
  exists pt,
    packed_tensors_from_tokenized_results g rs seq_len pad_token_id t = Ok pt.
Proof.
  intros Hs Hpad Hp Hint.
  destruct (pack_loop_total seq_len t rs (g, acc_init) Hp) as [s Hloop].
  assert (pack_rows g rs seq_len t = Ok s.2) as Hrows
    by (unfold pack_rows; by rewrite Hloop).
  assert (Forall wf_result rs) as Hwf
    by (eapply Forall_impl; [exact Hp | apply pk_wf]).
  pose proof (pack_rows_ok _ _ _ _ _ Hs Hwf Hrows) as Hok.
  pose proof (pack_rows_int64 _ _ _ _ _ Hint Hrows) as Hacc.
  unfold packed_tensors_from_tokenized_results. rewrite Hrows. simpl.
  rewrite (finalize_ok seq_len pad_token_id s.2 Hs Hok).
  rewrite (channels_fit_int64 seq_len pad_token_id s.2 Hacc Hpad). eauto.
Qed.

(** ** The round trip for at least two rows and two columns *)

Lemma reshape_chunks {A} (s m : nat) (data : list A) :
  length data = s * m ->
  Forall (fun c => length c = m) (reshape (replicate s m) data)
  /\ concat (reshape (replicate s m) data) = data.
Proof.
  revert data. induction s as [|s IH]; intros data Hlen.
  - simpl in *. split; [constructor|]. by destruct data.
  - cbn [replicate reshape concat].
    destruct (IH (drop m data)) as [Hall Hcat].
    { rewrite length_drop. lia. }
    split.
    + constructor; [|done]. rewrite length_take. lia.
    + rewrite Hcat. apply take_drop.
Qed.

Lemma mapM_fixed {A} (f : A -> option A) (l : list A) :
  Forall (fun x => f x = Some x) l -> mapM f l = Some l.
Proof.
  induction 1 as [|x l Hx Hl IH]; [done|]. simpl. by rewrite Hx, IH.
Qed.

Lemma expand_aligned_same {A} (ss : list nat) (data : list A) :
  length data = prod_list ss -> expand_aligned ss ss data = Some data.
Proof.
  revert data. induction ss as [|s ss IH]; intros data Hlen; [done|].
  cbn [expand_aligned]. cbn [prod_list foldr] in Hlen. fold (prod_list ss) in Hlen.
  destruct (reshape_chunks s (prod_list ss) data Hlen) as [Hall Hcat].
  rewrite mapM_fixed.
  - rewrite decide_True by done. by rewrite Hcat.
  - eapply Forall_impl; [exact Hall|]. intros c Hc. by apply IH.
Qed.

Lemma expand_same {A} (t : Tensor A) :
  length (elems t) = prod_list (shape t) -> expand (shape t) t = Some (elems t).
Proof.
  intros Hlen. unfold expand. rewrite decide_True by done.
  rewrite Nat.sub_diag. simpl. by apply expand_aligned_same.
Qed.

Lemma from_file_stored {A} `{DType A} (fs : FS) path (data : list A) :
  holds fs path data -> from_file fs path (length data) = (fs, data).
Proof.
  intros [rest Hfs]. unfold from_file, mapped_file. rewrite Hfs. simpl.
  rewrite dt_unwrap_wrap.
  rewrite decide_False by (rewrite length_app; lia).
  rewrite insert_id by done. by rewrite take_app_length.
Qed.

Lemma view_infer_last_flat {A} (n l : nat) (flat : list A) :
  2 <= n -> 2 <= l -> length flat = n * l ->
  view_infer_last n l flat = Ok {| shape := [n; l; 1]; elems := flat |}.
Proof.
  intros Hn Hl Hlen. unfold view_infer_last.
  rewrite decide_False by nia. rewrite Hlen.
  rewrite Nat.Div0.mod_same, decide_True by done.
  rewrite Nat.div_same by nia. done.
Qed.

Lemma squeeze_two_dims {A} (n l : nat) (flat : list A) :
  2 <= n -> 2 <= l ->
  squeeze {| shape := [n; l; 1]; elems := flat |}
  = {| shape := [n; l]; elems := flat |}.
Proof.
  intros Hn Hl. unfold squeeze. simpl. f_equal.
  rewrite !filter_cons, filter_nil.
  rewrite (decide_True (P := n <> 1)) by lia.
  rewrite (decide_True (P := l <> 1)) by lia.
  by rewrite decide_False by (intros H; by apply H).
Qed.

Lemma open_channel_views {A} `{DType A} (fs : FS) (d : DiskPackedTensors)
    (key : string) :
  2 <= num_sequences d -> 2 <= sequence_length d ->
  String.eqb key "mask" = false ->
  open_channel (A := A) fs d key
  = Ok ((from_file (A := A) fs (dir d, key)
           (num_sequences d * sequence_length d * 1)).1,
        {| shape := [num_sequences d; sequence_length d];
           elems := (from_file fs (dir d, key)
                       (num_sequences d * sequence_length d * 1)).2 |}).
Proof.
  intros Hn Hl Hkey. unfold open_channel. rewrite Hkey.
  pose proof (from_file_length (A := A) fs (dir d, key)
                (num_sequences d * sequence_length d * 1)) as Hlen.
  destruct (from_file fs (dir d, key) _) as [fs' flat]. simpl in *.
  rewrite view_infer_last_flat by (done || lia).
  simpl. by rewrite squeeze_two_dims.
Qed.

Lemma open_channel_stored {A} `{DType A} (fs : FS) (d : DiskPackedTensors)
    (key : string) (t : Tensor A) :
  2 <= num_sequences d -> 2 <= sequence_length d ->
  String.eqb key "mask" = false ->
  has_shape (num_sequences d) (sequence_length d) t ->
  holds fs (dir d, key) (elems t) ->
  open_channel (A := A) fs d key = Ok (fs, t).
Proof.
  intros Hn Hl Hkey [Hshape Hlen] Hfs.
  rewrite open_channel_views by done.
  replace (num_sequences d * sequence_length d * 1) with (length (elems t))
    by lia.
  rewrite (from_file_stored fs _ (elems t) Hfs).
  destruct t as [sh el]. simpl in *. by subst.
Qed.

(** Reading back a stored [PackedTensors] of at least two rows and two
    columns gives it back. *)
Lemma from_dir_stored (fs : FS) (dir' : string) (n l : nat)
    (pt : PackedTensors) :
  2 <= n -> 2 <= l -> all_shaped n l pt -> stored fs dir' pt ->
  packed_tensors_from_dir fs
    {| dir := dir'; num_sequences := n; sequence_length := l |}
  = Ok (fs, pt).
Proof.
  intros Hn Hl [] []. unfold packed_tensors_from_dir.
  rewrite (open_channel_stored fs _ "tokens" (pt_tokens pt)) by done. simpl.
  rewrite (open_channel_stored fs _ "group_ids" (pt_group_ids pt)) by done.
  simpl.
  rewrite (open_channel_stored fs _ "parent_ids" (pt_parent_ids pt)) by done.
  simpl.
  rewrite (open_channel_stored fs _ "input_pos" (pt_input_pos pt)) by done.
  simpl.
  rewrite (open_channel_stored fs _ "assistant_mask" (pt_assistant_mask pt))
    by done.
  simpl.
  rewrite (open_channel_stored fs _ "logprobs" (pt_logprobs pt)) by done.
  simpl.
  rewrite (open_channel_stored fs _ "advantages" (pt_advantages pt)) by done.
  simpl.
  rewrite (open_channel_stored fs _ "weights" (pt_weights pt)) by done.
  simpl.
  rewrite (open_channel_stored fs _ "deferred" (pt_deferred pt)) by done.
  simpl. by destruct pt.
Qed.

Lemma open_channel_inserts {A} `{DType A} (fs : FS) (d : DiskPackedTensors)
    (key : string) :
  2 <= num_sequences d -> 2 <= sequence_length d ->
  String.eqb key "mask" = false ->
  exists file flat,
    open_channel (A := A) fs d key
    = Ok (<[(dir d, key) := dt_wrap file]> fs,
          {| shape := [num_sequences d; sequence_length d]; elems := flat |}).
Proof.
  intros Hn Hl Hkey. rewrite open_channel_views by done.
  unfold from_file. simpl. eauto.
Qed.

Lemma copy_same {A} `{DType A} (fs : FS) path (n l : nat) (dst src : Tensor A) :
  shape dst = [n; l] -> has_shape n l src ->
  exists rest,
    copy_ fs path dst src = Ok (<[path := dt_wrap (elems src ++ rest)]> fs).
Proof.
  intros Hdst [Hsrc Hlen]. unfold copy_. rewrite Hdst, <- Hsrc.
  rewrite expand_same; [eauto|]. rewrite Hsrc, Hlen. simpl. lia.
Qed.

(** Writing a [PackedTensors] of at least two rows and two columns stores
    all of its channels. *)
Lemma to_dir_stored (fs : FS) (dir' : string) (n l : nat) (pt : PackedTensors) :
  2 <= n -> 2 <= l -> all_shaped n l pt ->
  exists fs',
    packed_tensors_to_dir fs pt dir'
    = Ok (fs', {| dir := dir'; num_sequences := n; sequence_length := l |})
    /\ stored fs' dir' pt.
Proof.
  intros Hn Hl Hsh. pose proof Hsh as [].
  unfold packed_tensors_to_dir. rewrite (proj1 sh_tokens0).
  unfold packed_tensors_from_dir.
  set (d := {| dir := dir'; num_sequences := n; sequence_length := l |}).
  destruct (open_channel_inserts (A := Z) fs d "tokens") as (f1 & v1 & ->);
    [done..|]. cbn [bind].
  destruct (open_channel_inserts (A := Z) (<[(dir d, "tokens") := dt_wrap f1]> fs)
              d "group_ids") as (f2 & v2 & ->); [done..|]. cbn [bind].
  match goal with |- context [open_channel ?fs' d "parent_ids"] =>
    destruct (open_channel_inserts (A := Z) fs' d "parent_ids")
      as (f3 & v3 & ->); [done..|] end. cbn [bind].
  match goal with |- context [open_channel ?fs' d "input_pos"] =>
    destruct (open_channel_inserts (A := Z) fs' d "input_pos")
      as (f4 & v4 & ->); [done..|] end. cbn [bind].
  match goal with |- context [open_channel ?fs' d "assistant_mask"] =>
    destruct (open_channel_inserts (A := bool) fs' d "assistant_mask")
      as (f5 & v5 & ->); [done..|] end. cbn [bind].
  match goal with |- context [open_channel ?fs' d "logprobs"] =>
    destruct (open_channel_inserts (A := pyfloat) fs' d "logprobs")
      as (f6 & v6 & ->); [done..|] end. cbn [bind].
  match goal with |- context [open_channel ?fs' d "advantages"] =>
    destruct (open_channel_inserts (A := pyfloat) fs' d "advantages")
      as (f7 & v7 & ->); [done..|] end. cbn [bind].
  match goal with |- context [open_channel ?fs' d "weights"] =>
    destruct (open_channel_inserts (A := pyfloat) fs' d "weights")
      as (f8 & v8 & ->); [done..|] end. cbn [bind].
  match goal with |- context [open_channel ?fs' d "deferred"] =>
    destruct (open_channel_inserts (A := bool) fs' d "deferred")
      as (f9 & v9 & ->); [done..|] end. cbn [bind].
  cbn [pt_tokens pt_group_ids pt_parent_ids pt_input_pos pt_assistant_mask
       pt_logprobs pt_advantages pt_weights pt_deferred dir d
       num_sequences sequence_length].
  repeat match goal with
         | |- context [copy_ ?fs' ?path ?dst ?src] =>
             let rest := fresh "rest" in
             destruct (copy_same fs' path n l dst src) as (rest & ->);
             [reflexivity | done | cbn [bind]]
         end.
  eexists. split; [reflexivity|].
  split; unfold holds; eexists; by simplify_map_eq.
Qed.

(** X19: tensors of at least two rows and two columns survive the round
    trip through a directory: [packed_tensors_to_dir] stores them, in any
    file system, under their row and column counts, and
    [packed_tensors_from_dir] on what it returns gives the same tensors
    back and leaves the files alone. *)
Lemma round_trip_two_dims (fs : FS) (dir' : string) (n l : nat)
    (pt : PackedTensors) :
  2 <= n -> 2 <= l -> all_shaped n l pt ->
  exists fs' d,
    packed_tensors_to_dir fs pt dir' = Ok (fs', d)
    /\ d = {| dir := dir'; num_sequences := n; sequence_length := l |}
    /\ packed_tensors_from_dir fs' d = Ok (fs', pt).
Proof.
  intros Hn Hl Hsh.
  destruct (to_dir_stored fs dir' n l pt Hn Hl Hsh) as (fs' & Hto & Hst).
  exists fs', {| dir := dir'; num_sequences := n; sequence_length := l |}.
  split; [done|]. split; [done|]. by apply from_dir_stored.
Qed.

(** * Further properties of the packer *)

(** ** Skipped results *)

Lemma pack_loop_filter_kept seq_len t rs s :
  pack_loop seq_len t s rs
  = pack_loop seq_len t s (filter (kept seq_len t) rs).
Proof.
  revert s. induction rs as [|r rs IH]; intros s; [done|].
  rewrite filter_cons. destruct (decide (kept seq_len t r)) as [Hk|Hk].
  - simpl. destruct (pack_iter seq_len t s r); simpl; [apply IH | done].
  - simpl. unfold kept in Hk. apply not_false_is_true in Hk.
    unfold pack_iter. rewrite Hk. simpl. apply IH.
Qed.

(** X1: results that are skipped (too long with truncation disabled, or
    without a non-zero mask sum) leave no trace: the packer gives the same
    outcome, same tensors or same exception, on the batch and on the batch
    without them.  In particular they consume no random draw. *)
Theorem skipped_results_ignored g rs seq_len pad_token_id t :
  packed_tensors_from_tokenized_results g rs seq_len pad_token_id t
  = packed_tensors_from_tokenized_results g (filter (kept seq_len t) rs)
      seq_len pad_token_id t.
Proof.
  unfold packed_tensors_from_tokenized_results, pack_rows.
  by rewrite pack_loop_filter_kept.
Qed.

(** ** A batch without content *)

Lemma zip_with_replicate_false {A} (f : A -> A) (n : nat) (xs : list A) :
  length xs = n ->
  zip_with (fun (m : bool) x => if m then f x else x) (replicate n false) xs
  = xs.
Proof.
  revert xs. induction n as [|n IH]; intros [|x xs] Hlen; try done.
  simpl. f_equal. apply IH. simpl in Hlen. lia.
Qed.

Lemma finalize_acc_init (seq_len pad_token_id : Z) :
  (0 <= seq_len)%Z -> in_int64 pad_token_id ->
  finalize seq_len pad_token_id acc_init = Ok (padding_only seq_len pad_token_id).
Proof.
  intros Hs Hfit.
  rewrite (finalize_ok seq_len pad_token_id acc_init Hs (acc_init_ok seq_len Hs)).
  rewrite (channels_fit_int64 seq_len pad_token_id acc_init acc_init_int64 Hfit).
  assert (forall {A} (v : A),
            concat (pad seq_len [[]] v) = replicate (Z.to_nat seq_len) v) as Hpad.
  { intros A v. unfold pad, py_repeat, py_len. simpl.
    rewrite app_nil_r. f_equal. lia. }
  assert (mask_elems seq_len acc_init = replicate (Z.to_nat seq_len) false)
    as Hmask.
  { unfold mask_elems, pad, py_repeat, py_len. simpl.
    rewrite app_nil_r, map_replicate. f_equal. lia. }
  assert (where_elems seq_len acc_init = replicate (Z.to_nat seq_len) (FNum 0))
    as Hwhere.
  { rewrite where_elems_alt, Hmask. cbn [acc_init acc_weights].
    rewrite Hpad. generalize (Z.to_nat seq_len). intros n.
    induction n as [|n IH]; [done|]. simpl. by rewrite IH. }
  unfold padding_only, padding_row, masked_div.
  cbn [acc_init acc_token_ids acc_group_ids acc_parent_ids acc_input_pos
       acc_logprobs acc_advantages acc_deferred length shape elems].
  rewrite !Hpad, Hmask, Hwhere.
  rewrite zip_with_replicate_false by apply length_replicate. reflexivity.
Qed.

(** X2: when every result of the batch is skipped, and in particular for
    the empty batch, and the pad token fits [torch.long], the packer
    returns one row of padding: the pad token, -1 for the group and parent
    ids, 0 for the positions, false for the mask and the deferred flag, NaN
    for the log-probabilities and 0 for the advantages and the weights. *)
Theorem skipped_batch_is_padding g rs seq_len pad_token_id t :
  (0 <= seq_len)%Z ->
  in_int64 pad_token_id ->
  Forall (fun r => skipped seq_len t r = true) rs ->
  packed_tensors_from_tokenized_results g rs seq_len pad_token_id t
  = Ok (padding_only seq_len pad_token_id).
Proof.
  intros Hs Hfit Hall.
  assert (filter (kept seq_len t) rs = []) as Hnil.
  { induction Hall as [|r rs Hr Hrs IH]; [done|].
    rewrite filter_cons, decide_False; [done|]. unfold kept. congruence. }
  unfold packed_tensors_from_tokenized_results, pack_rows.
  rewrite pack_loop_filter_kept, Hnil. simpl. by apply finalize_acc_init.
Qed.

Lemma skipped_batch_is_padding_witness :
  packed_tensors_from_tokenized_results sample_rng [unsupervised_result] 4
    (-100) true
  = Ok (padding_only 4 (-100)).
Proof.
  apply (skipped_batch_is_padding sample_rng [unsupervised_result] 4 (-100) true).
  - lia.
  - solve_int64.
  - repeat constructor.
Defined.

(** ** Rows of the output *)

Lemma tensor_rows_mask (seq_len : Z) (acc : Acc) :
  acc_ok seq_len acc ->
  tensor_rows {| shape := [length (acc_token_ids acc); Z.to_nat seq_len];
                 elems := mask_elems seq_len acc |}
  = map (map truthy) (pad seq_len (acc_assistant_mask acc) 0%Z).
Proof.
  intros [Hne [] Hb]. unfold tensor_rows, mask_elems. simpl.
  apply reshape_concat.
  rewrite lens_map_map, pad_lens by (by eapply lens_bounded).
  by rewrite (lens_length _ _ al_assistant_mask0).
Qed.

(** X3: the rows of every returned tensor are the rows the loop has built,
    each followed by the padding value of its channel up to [seq_len]: the
    pad token, -1 for group and parent ids, 0 for positions, false for the
    mask (whose other entries are the truth values of the mask integers),
    NaN for log-probabilities, 0 for advantages and false for the deferred
    flag. *)
Theorem output_rows_are_padded_rows g rs seq_len pad_token_id t acc pt :
  (0 <= seq_len)%Z ->
  Forall wf_result rs ->
  pack_rows g rs seq_len t = Ok acc ->
  packed_tensors_from_tokenized_results g rs seq_len pad_token_id t = Ok pt ->
  tensor_rows (pt_tokens pt) = pad seq_len (acc_token_ids acc) pad_token_id
  /\ tensor_rows (pt_group_ids pt) = pad seq_len (acc_group_ids acc) (-1)%Z
  /\ tensor_rows (pt_parent_ids pt) = pad seq_len (acc_parent_ids acc) (-1)%Z
  /\ tensor_rows (pt_input_pos pt) = pad seq_len (acc_input_pos acc) 0%Z
  /\ tensor_rows (pt_assistant_mask pt)
     = map (map truthy) (pad seq_len (acc_assistant_mask acc) 0%Z)
  /\ tensor_rows (pt_logprobs pt) = pad seq_len (acc_logprobs acc) FNaN
  /\ tensor_rows (pt_advantages pt) = pad seq_len (acc_advantages acc) (FNum 0)
  /\ tensor_rows (pt_deferred pt) = pad seq_len (acc_deferred acc) false.
Proof.
  intros Hs Hwf Hrows H.
  apply packed_inv in H as (acc0 & Hrows0 & Hfin).
  rewrite Hrows in Hrows0. injection Hrows0 as <-.
  pose proof (pack_rows_ok _ _ _ _ _ Hs Hwf Hrows) as Hok.
  rewrite (finalize_ok seq_len pad_token_id acc Hs Hok) in Hfin.
  destruct (channels_fit seq_len pad_token_id acc); [|discriminate].
  injection Hfin as <-. simpl.
  pose proof (tensor_rows_mask seq_len acc Hok) as Hmask.
  destruct Hok as [Hne [] Hb].
  rewrite !tensor_rows_pad by done. by repeat split.
Qed.

Lemma output_rows_are_padded_rows_witness :
  exists acc pt,
    pack_rows sample_rng sample_batch 5 true = Ok acc
    /\ packed_tensors_from_tokenized_results sample_rng sample_batch 5 (-100) true
       = Ok pt
    /\ tensor_rows (pt_tokens pt) = [[5; 6; 7; 8; -100]%Z]
    /\ tensor_rows (pt_tokens pt) = pad 5 (acc_token_ids acc) (-100)%Z.
Proof.
  assert (exists acc, pack_rows sample_rng sample_batch 5 true = Ok acc)
    as [acc Hacc] by (eexists; vm_compute; reflexivity).
  assert (exists pt,
            packed_tensors_from_tokenized_results sample_rng sample_batch 5
              (-100) true = Ok pt)
    as [pt Hpt] by (eexists; vm_compute; reflexivity).
  exists acc, pt. split; [done|]. split; [done|].
  split; [vm_compute in Hpt; by injection Hpt as <-|].
  apply (output_rows_are_padded_rows sample_rng sample_batch 5 (-100) true acc pt
           ltac:(lia) sample_batch_wf Hacc Hpt).
Defined.

(** ** Number of rows *)

Lemma pack_loop_rows_bound seq_len t rs s s' :
  pack_loop seq_len t s rs = Ok s' ->
  length (acc_token_ids s'.2)
  <= length (acc_token_ids s.2) + length (filter (kept seq_len t) rs).
Proof.
  revert s. induction rs as [|r rs IH]; intros s H.
  - injection H as <-. simpl. lia.
  - simpl in H. apply bind_Ok in H as (s1 & H1 & H). apply IH in H.
    rewrite filter_cons. destruct (decide (kept seq_len t r)) as [Hk|Hk].
    + destruct (pack_iter_token_rows seq_len t s r s1 Hk H1)
        as [[_ Ht]|[_ Ht]]; rewrite Ht in H.
      * rewrite length_app in H. simpl in *. lia.
      * rewrite set_last_row_length in H. simpl. lia.
    + unfold kept in Hk. apply not_false_is_true in Hk.
      unfold pack_iter in H1. rewrite Hk in H1. injection H1 as <-. lia.
Qed.

(** X4: the number of rows of the output is at least 1 and at most one more
    than the number of results that are not skipped. *)
Theorem row_count_bound g rs seq_len pad_token_id t pt :
  (0 <= seq_len)%Z ->
  Forall wf_result rs ->
  packed_tensors_from_tokenized_results g rs seq_len pad_token_id t = Ok pt ->
  exists R,
    shape (pt_tokens pt) = [R; Z.to_nat seq_len]
    /\ 1 <= R <= 1 + length (filter (kept seq_len t) rs).
Proof.
  intros Hs Hwf H.
  apply packed_inv in H as (acc & Hrows & Hfin).
  pose proof (pack_rows_ok _ _ _ _ _ Hs Hwf Hrows) as Hok.
  rewrite (finalize_ok seq_len pad_token_id acc Hs Hok) in Hfin.
  destruct (channels_fit seq_len pad_token_id acc); [|discriminate].
  injection Hfin as <-. simpl. eexists. split; [reflexivity|].
  unfold pack_rows in Hrows. apply bind_Ok in Hrows as (s & Hloop & Hrows).
  injection Hrows as <-. apply pack_loop_rows_bound in Hloop. simpl in Hloop.
  destruct Hok as [Hne _ _]. destruct (acc_token_ids s.2); [done|].
  simpl in *. lia.
Qed.

Lemma row_count_bound_witness :
  exists pt R,
    packed_tensors_from_tokenized_results sample_rng
      (unsupervised_result :: sample_batch) 4 (-100) true = Ok pt
    /\ shape (pt_tokens pt) = [R; Z.to_nat 4]
    /\ 1 <= R
       <= 1 + length (filter (kept 4 true) (unsupervised_result :: sample_batch)).
Proof.
  assert (exists pt,
            packed_tensors_from_tokenized_results sample_rng
              (unsupervised_result :: sample_batch) 4 (-100) true = Ok pt)
    as [pt Hpt] by (eexists; vm_compute; reflexivity).
  assert (Forall wf_result (unsupervised_result :: sample_batch)) as Hwf.
  { constructor; [|exact sample_batch_wf].
    split; simpl; unfold py_len; simpl; lia. }
  destruct (row_count_bound sample_rng (unsupervised_result :: sample_batch) 4
              (-100) true pt ltac:(lia) Hwf Hpt) as (R & Hshape & HR).
  exists pt, R. split; [exact Hpt|]. split; [exact Hshape | exact HR].
Defined.

(** ** Tokens are kept when nothing is truncated *)

Lemma concat_set_last_row {A} (rows : list (list A)) (x : list A) :
  rows <> [] ->
  concat (set_last_row (last_row rows ++ x) rows) = concat rows ++ x.
Proof.
  intros Hne. destruct (snoc_cases rows Hne) as (init & r & ->).
  rewrite last_row_snoc, set_last_row_snoc, !concat_app. simpl.
  by rewrite !app_nil_r, app_assoc.
Qed.

Lemma pack_loop_tokens_kept seq_len t rs s s' :
  (t = true -> Forall (fun r => (py_len (token_ids r) <= seq_len)%Z) rs) ->
  acc_token_ids s.2 <> [] ->
  pack_loop seq_len t s rs = Ok s' ->
  acc_token_ids s'.2 <> []
  /\ exists es,
       Forall2 form_of (filter (kept seq_len t) rs) es
       /\ concat (acc_token_ids s'.2)
          = concat (acc_token_ids s.2) ++ concat (token_ids <$> es).
Proof.
  revert s. induction rs as [|r rs IH]; intros s Hshort Hne H.
  - injection H as <-. split; [done|]. exists []. split; [constructor|].
    simpl. by rewrite app_nil_r.
  - simpl in H. apply bind_Ok in H as (s1 & H1 & H).
    assert (t = true -> Forall (fun r => (py_len (token_ids r) <= seq_len)%Z) rs)
      as Hshort' by (intros Ht; specialize (Hshort Ht); by inversion Hshort).
    rewrite filter_cons. destruct (decide (kept seq_len t r)) as [Hk|Hk].
    + assert (py_len (token_ids r) <= seq_len)%Z as Hlen.
      { destruct (skipped_false _ _ _ Hk) as [[Ht|Hl] _]; [|done].
        specialize (Hshort Ht). by inversion Hshort. }
      assert (acc_token_ids s1.2 <> []
              /\ exists e, form_of r e
                   /\ concat (acc_token_ids s1.2)
                      = concat (acc_token_ids s.2) ++ token_ids e)
        as (Hne1 & e & He & Hcat).
      { destruct (pack_iter_token_rows seq_len t s r s1 Hk H1)
          as [[_ ->]|[_ ->]].
        - split; [by destruct (acc_token_ids s.2)|]. exists r.
          split; [by left|]. rewrite concat_app, cut_fits by done. simpl.
          by rewrite app_nil_r.
        - split; [by apply set_last_row_nonempty|].
          exists (effective s.2 r). split.
          + unfold form_of, effective.
            destruct (prompt_in_row s.2 r); [by right | by left].
          + by apply concat_set_last_row. }
      destruct (IH s1 Hshort' Hne1 H) as (Hne' & es & Hes & Hcat').
      split; [done|]. exists (e :: es). split; [by constructor|].
      rewrite Hcat', Hcat, fmap_cons. simpl. by rewrite app_assoc.
    + unfold kept in Hk. apply not_false_is_true in Hk.
      unfold pack_iter in H1. rewrite Hk in H1. injection H1 as <-.
      by apply IH.
Qed.

(** X5: when no result is cut by truncation (truncation disabled, or no
    result longer than [seq_len]), the token rows read one after the other
    are the tokens of the results that are not skipped, in input order, each
    in full or in its [without_prompt] form: no token is lost, added or
    moved. *)
Theorem tokens_kept_in_order g rs seq_len t acc :
  (t = true -> Forall (fun r => (py_len (token_ids r) <= seq_len)%Z) rs) ->
  pack_rows g rs seq_len t = Ok acc ->
  exists es,
    Forall2 form_of (filter (kept seq_len t) rs) es
    /\ concat (acc_token_ids acc) = concat (token_ids <$> es).
Proof.
  intros Hshort H. unfold pack_rows in H.
  apply bind_Ok in H as (s & Hloop & H). injection H as <-.
  destruct (pack_loop_tokens_kept seq_len t rs (g, acc_init) s Hshort
              ltac:(done) Hloop) as (_ & es & Hes & Hcat).
  exists es. split; [done|]. by rewrite Hcat.
Qed.

Lemma tokens_kept_in_order_witness :
  exists acc es,
    pack_rows sample_rng sample_batch 4 false = Ok acc
    /\ Forall2 form_of (filter (kept 4 false) sample_batch) es
    /\ concat (acc_token_ids acc) = concat (token_ids <$> es).
Proof.
  assert (exists acc, pack_rows sample_rng sample_batch 4 false = Ok acc)
    as [acc Hacc] by (eexists; vm_compute; reflexivity).
  destruct (tokens_kept_in_order sample_rng sample_batch 4 false acc
              ltac:(discriminate) Hacc) as (es & Hes & Hcat).
  by exists acc, es.
Defined.

(** ** A result longer than a row *)





(** ** A stripped result without completion *)

Lemma truthy_indices_zero_sum (i0 : nat) (l : list Z) :
  Forall (fun m => m = 0%Z \/ m = 1%Z) l -> py_sum l = 0%Z ->
  truthy_indices_from i0 l = [].
Proof.
  intros H01 Hsum. rewrite (py_sum_counts i0 l H01) in Hsum.
  destruct (truthy_indices_from i0 l); [done | simpl in Hsum; lia].
Qed.

(** X7: the test of line 62 looks at the mask of the full result, the
    division of line 112 at the mask of the effective one.  A result whose
    only assistant positions lie inside its prompt, appended to a row that
    already holds its prompt id, passes the test and then raises
    [ZeroDivisionError]. *)
Theorem stripped_without_completion_raises seq_len t s r :
  (0 <= seq_len)%Z ->
  acc_ok seq_len s.2 ->
  mask01 r ->
  skipped seq_len t r = false ->
  prompt_in_row (maybe_flush seq_len s.2 r) r = true ->
  py_sum (assistant_mask (without_prompt r)) = 0%Z ->
  pack_iter seq_len t s r = Raise ZeroDivisionError.
Proof.
  intros Hs Hok H01 Hsk Hin Hsum.
  rewrite pack_iter_unfold by done.
  set (acc1 := maybe_flush seq_len s.2 r) in *.
  assert (effective acc1 r = without_prompt r) as ->
    by (unfold effective; by rewrite Hin).
  pose proof (maybe_flush_ok seq_len s.2 r Hs Hok) as Hok1. fold acc1 in Hok1.
  unfold append_result.
  assert (truthy_indices_from 0 (assistant_mask (without_prompt r)) = []) as Hai.
  { apply truthy_indices_zero_sum; [|done]. simpl. by apply Forall_drop. }
  assert (exists lp',
            overlay_logprobs (length (last_row (acc_logprobs acc1)))
              (without_prompt r)
              (last_row (acc_logprobs acc1)
               ++ py_repeat FNaN (py_len (token_ids (without_prompt r))))
            = Ok lp') as [lp' ->].
  { unfold overlay_logprobs.
    destruct (token_logprobs (without_prompt r)) as [[|lp0 lps0]|]; eauto.
    rewrite Hai. rewrite decide_True by (simpl; lia). simpl. eauto. }
  cbn [bind].
  assert (last_row (acc_advantages acc1) <> []) as Hadv.
  { apply bool_decide_eq_true in Hin. destruct Hok1 as [_ [] _].
    intros E. apply (f_equal length) in E.
    rewrite (lens_last_row _ _ al_advantages0),
      <- (lens_last_row _ _ al_group_ids0) in E.
    destruct (last_row (acc_group_ids acc1)); [by apply elem_of_nil in Hin|].
    done. }
  unfold set_last_item.
  destruct (last_row (acc_advantages acc1)
            ++ py_repeat (advantage (without_prompt r))
                 (py_len (token_ids (without_prompt r)))) eqn:E.
  { apply app_eq_nil in E as [E _]. done. }
  cbn [bind]. rewrite Hsum. reflexivity.
Qed.

Lemma stripped_without_completion_raises_witness :
  exists s1,
    pack_iter 4 true (sample_rng, acc_init)
      (sample_result 1 [5; 6; 7]%Z [0; 1; 1]%Z None 9 1) = Ok s1
    /\ pack_iter 4 true s1 prompt_only_result = Raise ZeroDivisionError.
Proof.
  assert (exists s1,
            pack_iter 4 true (sample_rng, acc_init)
              (sample_result 1 [5; 6; 7]%Z [0; 1; 1]%Z None 9 1) = Ok s1)
    as [s1 Hs1] by (eexists; vm_compute; reflexivity).
  exists s1. split; [exact Hs1|].
  assert (acc_ok 4 s1.2) as Hok.
  { eapply (pack_iter_ok 4 true (sample_rng, acc_init)); [lia| | |exact Hs1].
    - split; simpl; unfold py_len; simpl; lia.
    - apply acc_init_ok. lia. }
  apply (stripped_without_completion_raises 4 true s1 prompt_only_result).
  - lia.
  - exact Hok.
  - unfold mask01.
    repeat (apply Forall_cons; split); try apply Forall_nil; simpl; auto.
  - reflexivity.
  - vm_compute in Hs1. injection Hs1 as <-. reflexivity.
  - reflexivity.
Defined.

(** * Further properties of the tokenized results *)

(** ** [without_prompt] *)

Lemma slice_from_zero {A} (l : list A) : slice_from 0 l = l.
Proof. rewrite slice_from_nonneg by lia. apply drop_0. Qed.

Lemma slice_from_trailing_idem {A} (s : Z) (l : list A) :
  let l' := slice_from (py_len l - s) l in
  slice_from (py_len l' - s) l' = l'.
Proof.
  intros l'.
  assert (slice_bound (py_len l' - s) (py_len l') = 0) as Hb.
  { unfold l', slice_from, slice_bound, py_len. rewrite length_drop.
    unfold slice_bound.
    repeat match goal with
           | |- context [Z.ltb ?a ?b] => destruct (Z.ltb_spec a b)
           end; lia. }
  unfold slice_from at 1. rewrite Hb. apply drop_0.
Qed.

(** X8: stripping the prompt twice is stripping it once, for every
    result. *)
Theorem without_prompt_idempotent (r : TokenizedResult) :
  without_prompt (without_prompt r) = without_prompt r.
Proof.
  unfold without_prompt at 1 3. cbn [prompt_length].
  rewrite !slice_from_zero.
  destruct r as [rw adv df tks ids pos mask lps pid pl]. simpl.
  f_equal. destruct lps as [lps|]; [|done]. f_equal.
  apply slice_from_trailing_idem.
Qed.

Lemma truthy_indices_from_offset (i0 : nat) (l : list Z) :
  truthy_indices_from i0 l = (fun i => i0 + i) <$> truthy_indices_from 0 l.
Proof.
  revert i0. induction l as [|m l IH]; intros i0; [done|].
  simpl. rewrite (IH (S i0)), (IH 1).
  destruct (truthy m); rewrite ?fmap_cons, <- list_fmap_compose;
    [f_equal; [lia|]|]; apply list_fmap_ext; intros; simpl; lia.
Qed.

Lemma truthy_indices_from_zeros (i0 : nat) (zs l : list Z) :
  Forall (fun m => m = 0%Z) zs ->
  truthy_indices_from i0 (zs ++ l) = truthy_indices_from (i0 + length zs) l.
Proof.
  intros Hz. revert i0. induction Hz as [|z zs -> Hzs IH]; intros i0.
  - simpl. by rewrite Nat.add_0_r.
  - simpl. rewrite IH. f_equal. lia.
Qed.

(** X9: for a packable result that carries log-probabilities, stripping
    the prompt changes neither the log-probabilities that the packer
    overlays (the trailing ones, one per assistant position) nor the tokens
    they go to: the assistant positions of the stripped result are those of
    the full result moved down by [prompt_length]. *)
Theorem stripping_keeps_alignment (r : TokenizedResult)
    (lps : list ChatCompletionTokenLogprob) :
  packable r ->
  token_logprobs r = Some lps ->
  lps <> [] ->
  let ai := truthy_indices_from 0 (assistant_mask r) in
  let ai' := truthy_indices_from 0 (assistant_mask (without_prompt r)) in
  ai = (fun i => Z.to_nat (prompt_length r) + i) <$> ai'
  /\ exists lps',
       token_logprobs (without_prompt r) = Some lps'
       /\ slice_from (py_len lps' - py_len ai') lps'
          = slice_from (py_len lps - py_len ai) lps.
Proof.
  intros Hp Hlps Hne ai ai'.
  pose proof (without_prompt_count r Hp) as Hcount. fold ai ai' in Hcount.
  pose proof (without_prompt_mask_sum r Hp) as Hsum.
  destruct (pk_logprobs r Hp lps Hlps) as [|Hle]; [done|]. fold ai in Hle.
  pose proof (py_sum_counts 0 _ (pk_mask01 r Hp)) as Hs. fold ai in Hs.
  destruct Hp as [[_ Hmask Hk] H01 Hzero _]. split.
  - unfold ai, ai'. simpl. rewrite slice_from_nonneg by lia.
    rewrite <- (take_drop (Z.to_nat (prompt_length r)) (assistant_mask r)) at 1.
    rewrite (truthy_indices_from_zeros 0 _ _ Hzero), length_take.
    rewrite truthy_indices_from_offset. apply list_fmap_ext. intros _ i _.
    unfold py_len in Hk. lia.
  - simpl. rewrite Hlps. eexists. split; [reflexivity|].
    simpl in Hsum. rewrite Hsum, Hs.
    assert (py_len ai' = py_len ai) as -> by (unfold py_len; by rewrite Hcount).
    set (tail := slice_from (py_len lps - Z.of_nat (length ai)) lps).
    assert (py_len tail = py_len ai) as ->.
    { unfold tail. rewrite slice_from_nonneg by (unfold py_len; lia).
      unfold py_len. rewrite length_drop. lia. }
    rewrite Z.sub_diag. apply slice_from_zero.
Qed.

(** X10: [without_prompt] takes the log-probabilities from the index
    [len - sum], and a negative index counts from the end.  So when the
    stripped mask sums to more than the number of log-probabilities [len]
    but to less than twice that, only the last [sum - len] of them are
    kept. *)
Theorem without_prompt_short_logprobs (r : TokenizedResult)
    (lps : list ChatCompletionTokenLogprob) :
  token_logprobs r = Some lps ->
  let s := py_sum (assistant_mask (without_prompt r)) in
  (py_len lps < s < 2 * py_len lps)%Z ->
  exists lps',
    token_logprobs (without_prompt r) = Some lps'
    /\ lps' = drop (Z.to_nat (2 * py_len lps - s)) lps
    /\ py_len lps' = (s - py_len lps)%Z.
Proof.
  intros Hlps s Hs.
  assert (token_logprobs (without_prompt r)
          = Some (slice_from (py_len lps - s) lps)) as ->
    by (unfold s; simpl; by rewrite Hlps).
  eexists. split; [reflexivity|].
  assert (slice_bound (py_len lps - s) (py_len lps)
          = Z.to_nat (2 * py_len lps - s)) as Hb.
  { unfold slice_bound. destruct (Z.ltb_spec (py_len lps - s) 0); lia. }
  unfold slice_from. rewrite Hb. split; [done|].
  unfold py_len in *. rewrite length_drop. lia.
Qed.

Lemma without_prompt_short_logprobs_witness :
  exists lps',
    token_logprobs (without_prompt short_logprobs_result) = Some lps'
    /\ lps' = drop (Z.to_nat
                      (2 * py_len [sample_logprob (-1); sample_logprob (-2);
                                   sample_logprob (-3)]
                       - py_sum (assistant_mask
                                   (without_prompt short_logprobs_result))))
                [sample_logprob (-1); sample_logprob (-2); sample_logprob (-3)]
    /\ py_len lps'
       = (py_sum (assistant_mask (without_prompt short_logprobs_result))
          - py_len [sample_logprob (-1); sample_logprob (-2);
                    sample_logprob (-3)])%Z.
Proof.
  apply (without_prompt_short_logprobs short_logprobs_result
           [sample_logprob (-1); sample_logprob (-2); sample_logprob (-3)]).
  - reflexivity.
  - vm_compute. split; reflexivity.
Defined.

Ltac solve_packable :=
  split;
  [ split; simpl; unfold py_len; simpl; first [reflexivity | lia]
  | unfold mask01; simpl;
    repeat (apply Forall_cons; split); try apply Forall_nil; auto
  | simpl; repeat (apply Forall_cons; split); try apply Forall_nil; auto
  | simpl; intros ? [=]; subst; try (right; simpl; lia) ].

Lemma stripping_keeps_alignment_witness :
  truthy_indices_from 0 (assistant_mask zero_logprob_result)
  = (fun i => Z.to_nat (prompt_length zero_logprob_result) + i)
    <$> truthy_indices_from 0 (assistant_mask (without_prompt zero_logprob_result))
  /\ exists lps',
       token_logprobs (without_prompt zero_logprob_result) = Some lps'
       /\ slice_from
            (py_len lps'
             - py_len (truthy_indices_from 0
                         (assistant_mask (without_prompt zero_logprob_result))))
            lps'
          = slice_from
              (py_len [sample_logprob (-1); sample_logprob 0; sample_logprob (-3)]
               - py_len (truthy_indices_from 0
                           (assistant_mask zero_logprob_result)))
              [sample_logprob (-1); sample_logprob 0; sample_logprob (-3)].
Proof.
  apply (stripping_keeps_alignment zero_logprob_result
           [sample_logprob (-1); sample_logprob 0; sample_logprob (-3)]).
  - solve_packable.
  - reflexivity.
  - discriminate.
Defined.

(** ** The grouping pass and the packer *)

Lemma common_prompt_length_bound (rs : list TokenizedResult) (r : TokenizedResult) :
  r ∈ rs -> (0 <= common_prompt_length rs <= py_len (token_ids r))%Z.
Proof.
  intros Hr. unfold common_prompt_length, py_len. split; [lia|].
  set (cols := zip_star (token_ids <$> rs)).
  destruct (length (takewhile single_valued cols)) as [|n] eqn:Hn; [lia|].
  destruct (takewhile_length_spec single_valued cols) as [Hin _].
  destruct (Hin n) as (col & Hcol & Hsv); [lia|].
  assert (rs <> []) as Hne by (intros ->; by apply elem_of_nil in Hr).
  assert (uniform_column rs n) as [tok Htok]
    by (apply column_uniform_iff; [done | by exists col]).
  pose proof (lookup_lt_Some _ _ _ (Htok r Hr)). lia.
Qed.

Lemma common_prompt_length_identical (rs : list TokenizedResult)
    (r : TokenizedResult) :
  r ∈ rs -> (forall r', r' ∈ rs -> token_ids r' = token_ids r) ->
  common_prompt_length rs = py_len (token_ids r).
Proof.
  intros Hr Hsame. pose proof (common_prompt_length_bound rs r Hr) as [_ Hle].
  unfold common_prompt_length, py_len in *.
  set (cols := zip_star (token_ids <$> rs)) in *.
  destruct (decide (length (takewhile single_valued cols) < length (token_ids r)))
    as [Hlt|]; [exfalso | lia].
  destruct (lookup_lt_is_Some_2 _ _ Hlt) as [tok Htok].
  assert (rs <> []) as Hne by (intros ->; by apply elem_of_nil in Hr).
  assert (uniform_column rs (length (takewhile single_valued cols))) as Hu.
  { exists tok. intros r' Hr'. by rewrite (Hsame r' Hr'). }
  apply column_uniform_iff in Hu as (col & Hcol & Hsv); [|done].
  destruct (takewhile_length_spec single_valued cols) as [_ Hout].
  rewrite (Hout col Hcol) in Hsv. discriminate.
Qed.

Lemma zero_prefix_spec (n : nat) (mask : list Z) :
  zero_prefix (Z.of_nat n) mask = replicate n 0%Z ++ drop n mask.
Proof.
  unfold zero_prefix, py_repeat. rewrite slice_from_nonneg by lia.
  by rewrite Nat2Z.id.
Qed.

Lemma truthy_indices_from_app (i0 : nat) (l k : list Z) :
  truthy_indices_from i0 (l ++ k)
  = truthy_indices_from i0 l ++ truthy_indices_from (i0 + length l) k.
Proof.
  revert i0. induction l as [|m l IH]; intros i0.
  - simpl. by rewrite Nat.add_0_r.
  - simpl. rewrite IH. replace (S i0 + length l) with (i0 + S (length l)) by lia.
    by destruct (truthy m).
Qed.

Lemma zero_prefix_count (n : nat) (mask : list Z) :
  n <= length mask ->
  length (truthy_indices_from 0 (replicate n 0%Z ++ drop n mask))
  <= length (truthy_indices_from 0 mask).
Proof.
  intros Hn.
  rewrite truthy_indices_from_zeros
    by (apply Forall_forall; intros x Hx; by apply elem_of_replicate in Hx as [-> _]).
  rewrite length_replicate.
  rewrite <- (take_drop n mask) at 2.
  rewrite truthy_indices_from_app, length_app, length_take.
  rewrite Nat.min_l by done. lia.
Qed.

(** A sibling is packable once the grouping pass has set its prompt. *)
Lemma set_prompt_packable (rs : list TokenizedResult) (p : Z)
    (r : TokenizedResult) :
  r ∈ rs -> wf_result r -> mask01 r -> enough_logprobs r ->
  packable (set_prompt p (common_prompt_length rs) r).
Proof.
  intros Hr [Hpos Hmask _] H01 Hlps.
  pose proof (common_prompt_length_bound rs r Hr) as [H0 Hle].
  assert (exists n : nat, common_prompt_length rs = Z.of_nat n) as [n Hn]
    by (exists (Z.to_nat (common_prompt_length rs)); lia).
  rewrite Hn in *. clear Hn H0.
  assert (n <= length (assistant_mask r)) as Hkm
    by (unfold py_len in Hle; lia).
  assert (Forall (fun m => m = 0%Z) (replicate n 0%Z)) as Hzeros.
  { apply Forall_forall. intros x Hx. by apply elem_of_replicate in Hx as [-> _]. }
  split.
  - split; simpl; [done | | unfold py_len in *; lia].
    rewrite zero_prefix_spec, length_app, length_replicate, length_drop. lia.
  - unfold mask01. simpl. rewrite zero_prefix_spec. apply Forall_app. split.
    + eapply Forall_impl; [exact Hzeros|]. intros x ->. by left.
    + by apply Forall_drop.
  - simpl. rewrite zero_prefix_spec, Nat2Z.id.
    rewrite take_app_length' by (by rewrite length_replicate). exact Hzeros.
  - simpl. intros lps Hsome. destruct (Hlps lps Hsome) as [->|Hcount]; [by left|].
    right. rewrite zero_prefix_spec.
    pose proof (zero_prefix_count _ _ Hkm). lia.
Qed.

Lemma group_results_packable (g : RNG) (rs : list TokenizedResult) :
  Forall wf_result rs -> Forall mask01 rs -> Forall enough_logprobs rs ->
  Forall packable (group_results g rs).2.
Proof.
  intros Hwf H01 Hlps. unfold group_results.
  destruct (randint int64_min int64_max g) as [p g']. simpl.
  apply Forall_fmap, Forall_forall. intros r Hr. simpl.
  rewrite Forall_forall in Hwf, H01, Hlps.
  apply set_prompt_packable; auto.
Qed.

(** The grouping pass gives every sibling a prompt id of the signed 64-bit
    range and leaves its token ids and positions alone. *)
Lemma group_results_int64 (g : RNG) (rs : list TokenizedResult) :
  Forall int64_tokens rs -> Forall int64_result (group_results g rs).2.
Proof.
  intros Hint. unfold group_results.
  pose proof (randint_range g) as Hp.
  destruct (randint int64_min int64_max g) as [p g']. simpl in *.
  apply Forall_fmap. eapply Forall_impl; [exact Hint|].
  intros r Hr. by split.
Qed.

(** X11: the grouping pass hands the packer what it can process.  When the
    freshly tokenized siblings have per-token lists of one length, a 0/1
    mask, token ids and positions that fit [torch.long] and, where they
    carry log-probabilities, at least one per assistant position, every
    grouped result is packable and the packer returns tensors for the
    grouped batch, for every non-negative [seq_len] and every pad token of
    that range. *)
Theorem grouping_then_packing_returns (g : RNG) (rs : list TokenizedResult)
    (seq_len pad_token_id : Z) (t : bool) :
  (0 <= seq_len)%Z -> in_int64 pad_token_id ->
  Forall wf_result rs -> Forall mask01 rs -> Forall enough_logprobs rs ->
  Forall int64_tokens rs ->
  let '(g', rs') := group_results g rs in
  Forall packable rs'
  /\ exists pt,
       packed_tensors_from_tokenized_results g' rs' seq_len pad_token_id t
       = Ok pt.
Proof.
  intros Hs Hpad Hwf H01 Hlps Hint.
  pose proof (group_results_packable g rs Hwf H01 Hlps) as Hp.
  pose proof (group_results_int64 g rs Hint) as Hint'.
  destruct (group_results g rs) as [g' rs']. simpl in Hp, Hint'.
  split; [exact Hp|].
  destruct (pack_loop_total seq_len t rs' (g', acc_init) Hp) as [s Hloop].
  assert (pack_rows g' rs' seq_len t = Ok s.2) as Hrows
    by (unfold pack_rows; by rewrite Hloop).
  assert (Forall wf_result rs') as Hwf'
    by (eapply Forall_impl; [exact Hp | apply pk_wf]).
  pose proof (pack_rows_ok _ _ _ _ _ Hs Hwf' Hrows) as Hok.
  pose proof (pack_rows_int64 _ _ _ _ _ Hint' Hrows) as Hacc.
  unfold packed_tensors_from_tokenized_results. rewrite Hrows. simpl.
  rewrite (finalize_ok seq_len pad_token_id s.2 Hs Hok).
  rewrite (channels_fit_int64 seq_len pad_token_id s.2 Hacc Hpad). eauto.
Qed.

Lemma grouping_then_packing_returns_witness :
  let '(g', rs') := group_results sample_rng sample_batch in
  Forall packable rs'
  /\ exists pt,
       packed_tensors_from_tokenized_results g' rs' 4 (-100) true = Ok pt.
Proof.
  apply (grouping_then_packing_returns sample_rng sample_batch 4 (-100) true).
  - lia.
  - solve_int64.
  - repeat (apply Forall_cons; split); try apply Forall_nil;
      split; simpl; unfold py_len; simpl; first [reflexivity | lia].
  - repeat (apply Forall_cons; split); try apply Forall_nil;
      unfold mask01; simpl;
      repeat (apply Forall_cons; split); try apply Forall_nil; auto.
  - repeat (apply Forall_cons; split); try apply Forall_nil;
      try exact I; unfold enough_logprobs; simpl; intros ? [=]; subst;
      right; simpl; lia.
  - solve_int64.
Defined.

Lemma pack_loop_all_skipped seq_len t rs s :
  Forall (fun r => skipped seq_len t r = true) rs ->
  pack_loop seq_len t s rs = Ok s.
Proof.
  intros Hall. rewrite pack_loop_filter_kept.
  assert (filter (kept seq_len t) rs = []) as ->; [|done].
  induction Hall as [|r rs Hr Hrs IH]; [done|].
  rewrite filter_cons, decide_False; [done|]. unfold kept. congruence.
Qed.

Lemma py_sum_replicate_zero (n : nat) : py_sum (replicate n 0%Z) = 0%Z.
Proof. induction n as [|n IH]; [done|]. exact IH. Qed.

(** X12: siblings that hold the same token ids, and in particular the only
    candidate of a prompt, contribute nothing.  The grouping pass takes all
    their tokens for the shared prompt, so every mask it leaves is zero,
    the packer skips every sibling and, for a pad token that fits
    [torch.long], the batch packs to one row of padding. *)
Theorem identical_siblings_are_skipped (g : RNG) (rs : list TokenizedResult)
    (r : TokenizedResult) (seq_len pad_token_id : Z) (t : bool) :
  (0 <= seq_len)%Z ->
  in_int64 pad_token_id ->
  Forall wf_result rs ->
  r ∈ rs -> (forall r', r' ∈ rs -> token_ids r' = token_ids r) ->
  let '(g', rs') := group_results g rs in
  Forall (fun r' => prompt_length r' = py_len (token_ids r')
                    /\ Forall (fun m => m = 0%Z) (assistant_mask r')
                    /\ skipped seq_len t r' = true) rs'
  /\ packed_tensors_from_tokenized_results g' rs' seq_len pad_token_id t
     = Ok (padding_only seq_len pad_token_id).
Proof.
  intros Hs Hfit Hwf Hr Hsame.
  pose proof (common_prompt_length_identical rs r Hr Hsame) as Hk.
  unfold group_results. destruct (randint int64_min int64_max g) as [p g'].
  rewrite Hk.
  assert (Forall (fun r' => prompt_length r' = py_len (token_ids r')
                    /\ Forall (fun m => m = 0%Z) (assistant_mask r')
                    /\ skipped seq_len t r' = true)
            (set_prompt p (py_len (token_ids r)) <$> rs)) as Hall.
  { apply Forall_fmap, Forall_forall. intros r' Hr'. simpl.
    rewrite Forall_forall in Hwf. destruct (Hwf r' Hr') as [_ Hmask _].
    rewrite (Hsame r' Hr').
    assert (zero_prefix (py_len (token_ids r)) (assistant_mask r')
            = replicate (length (token_ids r)) 0%Z) as Hz.
    { unfold py_len. rewrite zero_prefix_spec.
      rewrite drop_ge by (rewrite Hmask, (Hsame r' Hr'); lia).
      apply app_nil_r. }
    split; [done|]. unfold skipped. simpl. rewrite Hz. split.
    - apply Forall_forall. intros x Hx. by apply elem_of_replicate in Hx as [-> _].
    - rewrite py_sum_replicate_zero. simpl. apply orb_true_r. }
  split; [exact Hall|].
  unfold packed_tensors_from_tokenized_results, pack_rows.
  rewrite pack_loop_all_skipped
    by (eapply Forall_impl; [exact Hall|]; by intros ? (_ & _ & ?)).
  simpl. by apply finalize_acc_init.
Qed.

Lemma identical_siblings_are_skipped_witness :
  let '(g', rs') := group_results sample_rng [long_result; long_result] in
  Forall (fun r' => prompt_length r' = py_len (token_ids r')
                    /\ Forall (fun m => m = 0%Z) (assistant_mask r')
                    /\ skipped 4 true r' = true) rs'
  /\ packed_tensors_from_tokenized_results g' rs' 4 (-100) true
     = Ok (padding_only 4 (-100)).
Proof.
  apply (identical_siblings_are_skipped sample_rng [long_result; long_result]
           long_result 4 (-100) true).
  - lia.
  - solve_int64.
  - repeat (apply Forall_cons; split); try apply Forall_nil;
      split; simpl; unfold py_len; simpl; first [reflexivity | lia].
  - apply elem_of_cons. by left.
  - intros r' Hr'. repeat (apply elem_of_cons in Hr' as [->|Hr']; [done|]).
    by apply elem_of_nil in Hr'.
Defined.

(** ** [get_token_logprobs] *)

(** One step of the realignment loop. *)
Lemma align_tokens_eq (a : list pystr) (r : list ChatCompletionTokenLogprob)
    (c rc : pystr) (acc : list ChatCompletionTokenLogprob) :
  align_tokens a r c rc acc
  = if bool_decide (c = rc) then
      match a, r with
      | tok :: a', e :: r' =>
          align_tokens a' r' (c ++ tok) (rc ++ token e)
            (acc ++ [if bool_decide (tok = token e) then e else nan_logprob tok])
      | _, _ => Some acc
      end
    else if length c <? length rc then
      match a with
      | tok :: a' => align_tokens a' r (c ++ tok) rc (acc ++ [nan_logprob tok])
      | [] => Some acc
      end
    else if length rc <? length c then
      match r with
      | e :: r' => align_tokens a r' c (rc ++ token e) acc
      | [] => Some acc
      end
    else None.
Proof. destruct a, r; reflexivity. Qed.

(** What the loop adds to the entries collected so far: one entry per
    consumed assistant token, in order, each either the entry of the
    completion with that token or a NaN entry for it. *)
Lemma align_tokens_spec (a : list pystr) (r : list ChatCompletionTokenLogprob)
    (c rc : pystr) (acc out : list ChatCompletionTokenLogprob) :
  align_tokens a r c rc acc = Some out ->
  exists new,
    out = acc ++ new
    /\ (token <$> new) `prefix_of` a
    /\ Forall (fun e => e ∈ r \/ logprob e = Some FNaN) new.
Proof.
  revert r c rc acc out.
  induction a as [|tok a IHa]; intros r; induction r as [|e r IHr];
    intros c rc acc out; rewrite align_tokens_eq;
    (destruct (bool_decide (c = rc));
     [| destruct (length c <? length rc);
        [| destruct (length rc <? length c)]]);
    try discriminate;
    try (intros [= <-]; exists []; rewrite app_nil_r;
         split; [done|]; split; [apply prefix_nil | constructor]).
  - intros H. destruct (IHr _ _ _ _ H) as (new & -> & Hpre & Hall).
    exists new. split; [done|]. split; [done|].
    eapply Forall_impl; [exact Hall|]. intros x [Hx|Hx]; [left|by right].
    apply elem_of_cons. by right.
  - intros H. destruct (IHa _ _ _ _ _ H) as (new & -> & Hpre & Hall).
    exists (nan_logprob tok :: new). rewrite <- app_assoc. split; [done|].
    split; [by apply prefix_cons|]. constructor; [by right | done].
  - intros H. destruct (IHa _ _ _ _ _ H) as (new & -> & Hpre & Hall).
    clear H. case_bool_decide as Heq.
    + exists (e :: new). rewrite <- app_assoc. split; [done|]. split.
      * rewrite fmap_cons, <- Heq. by apply prefix_cons.
      * constructor; [left; apply elem_of_cons; by left|].
        eapply Forall_impl; [exact Hall|]. intros x [Hx|Hx]; [left|by right].
        apply elem_of_cons. by right.
    + exists (nan_logprob tok :: new). rewrite <- app_assoc. split; [done|].
      split; [by apply prefix_cons|]. constructor; [by right|].
      eapply Forall_impl; [exact Hall|]. intros x [Hx|Hx]; [left|by right].
      apply elem_of_cons. by right.
  - intros H. destruct (IHa _ _ _ _ _ H) as (new & -> & Hpre & Hall).
    exists (nan_logprob tok :: new). rewrite <- app_assoc. split; [done|].
    split; [by apply prefix_cons|]. constructor; [by right | done].
  - intros H. destruct (IHr _ _ _ _ H) as (new & -> & Hpre & Hall).
    exists new. split; [done|]. split; [done|].
    eapply Forall_impl; [exact Hall|]. intros x [Hx|Hx]; [left|by right].
    apply elem_of_cons. by right.
Qed.

Lemma get_token_logprobs_spec (lp : option ChoiceLogprobs) (a : list pystr)
    (out : list ChatCompletionTokenLogprob) :
  get_token_logprobs lp a = Some out ->
  exists c rtl,
    lp = Some c /\ content c = Some rtl /\ rtl <> []
    /\ (token <$> out) `prefix_of` a
    /\ Forall (fun e => e ∈ rtl \/ logprob e = Some FNaN) out.
Proof.
  unfold get_token_logprobs. destruct lp as [c|]; [|done].
  destruct (content c) as [[|e rtl]|] eqn:Hc; try done.
  destruct (_ && _); [done|].
  destruct (bool_decide _) eqn:Heq.
  - intros [= <-]. apply bool_decide_eq_true in Heq.
    exists c, (e :: rtl). split; [done|]. split; [done|]. split; [done|].
    split; [by rewrite Heq|]. apply Forall_forall. intros x Hx. by left.
  - intros H. apply align_tokens_spec in H as (new & -> & Hpre & Hall).
    exists c, (e :: rtl). simpl.
    split; [done|]. split; [done|]. split; [done|]. split; [exact Hpre | exact Hall].
Qed.

(** X13: the tokens of the log-probabilities that [get_token_logprobs]
    returns are the assistant tokens, in order, from the first one on: the
    returned list covers a prefix of the assistant tokens and is never
    longer than them. *)
Theorem token_logprobs_follow_assistant_tokens (lp : option ChoiceLogprobs)
    (a : list pystr) (out : list ChatCompletionTokenLogprob) :
  get_token_logprobs lp a = Some out ->
  (token <$> out) `prefix_of` a /\ length out <= length a.
Proof.
  intros H. apply get_token_logprobs_spec in H as (c & rtl & _ & _ & _ & Hpre & _).
  split; [done|]. apply prefix_length in Hpre. by rewrite length_fmap in Hpre.
Qed.

(** X14: [get_token_logprobs] invents no log-probability: every entry it
    returns is an entry of the completion's [logprobs.content], or holds
    NaN. *)
Theorem token_logprobs_from_content_or_nan (lp : option ChoiceLogprobs)
    (a : list pystr) (out : list ChatCompletionTokenLogprob) :
  get_token_logprobs lp a = Some out ->
  exists c rtl,
    lp = Some c /\ content c = Some rtl
    /\ Forall (fun e => e ∈ rtl \/ logprob e = Some FNaN) out.
Proof.
  intros H. apply get_token_logprobs_spec in H as (c & rtl & ? & ? & _ & _ & ?).
  by exists c, rtl.
Qed.

Lemma token_logprobs_follow_assistant_tokens_witness :
  exists out,
    get_token_logprobs sample_choice_logprobs sample_assistant_tokens = Some out
    /\ (token <$> out) `prefix_of` sample_assistant_tokens
    /\ length out <= length sample_assistant_tokens.
Proof.
  eexists. split; [vm_compute; reflexivity|].
  apply (token_logprobs_follow_assistant_tokens sample_choice_logprobs).
  vm_compute. reflexivity.
Defined.

Lemma token_logprobs_from_content_or_nan_witness :
  exists out,
    get_token_logprobs sample_choice_logprobs sample_assistant_tokens = Some out
    /\ exists c rtl,
         sample_choice_logprobs = Some c /\ content c = Some rtl
         /\ Forall (fun e => e ∈ rtl \/ logprob e = Some FNaN) out.
Proof.
  eexists. split; [vm_compute; reflexivity|].
  apply (token_logprobs_from_content_or_nan sample_choice_logprobs
           sample_assistant_tokens).
  vm_compute. reflexivity.
Defined.

(** * Further properties of the dataset *)

Lemma reshape_lookup_row {A} (n l i : nat) (xs : list A) :
  i < n -> reshape (replicate n l) xs !! i = Some (take l (drop (i * l) xs)).
Proof.
  revert i xs. induction n as [|n IH]; intros i xs Hi; [lia|].
  destruct i as [|i]; [done|].
  cbn [replicate reshape lookup list_lookup]. rewrite IH by lia.
  by rewrite drop_drop.
Qed.

Lemma tensor_getitem_row {A} (n l i : nat) (t : Tensor A) :
  has_shape n l t -> i < n ->
  exists item, tensor_getitem t (Z.of_nat i) = Ok item /\ row_of i l t item.
Proof.
  intros [Hshape _] Hi. unfold tensor_getitem, row_of, tensor_rows.
  rewrite Hshape.
  destruct (Z.ltb_spec (Z.of_nat i) 0); [lia|].
  destruct (Z.leb_spec 0 (Z.of_nat i)); [|lia].
  destruct (Z.ltb_spec (Z.of_nat i) (Z.of_nat n)); [|lia].
  eexists. split; [reflexivity|]. simpl. split; [done|].
  rewrite reshape_lookup_row by done.
  by rewrite Nat2Z.id, Nat.mul_1_r.
Qed.

(** X15: a dataset over tensors of [n] rows of [l] elements has length [n],
    and its item at an index [i] below [n] holds, for each of the nine
    channels, row [i] of the channel as a tensor of shape [[l]]. *)
Theorem dataset_item_is_row (ds : PackedDataset) (n l i : nat) :
  all_shaped n l (tensors ds) -> i < n ->
  PackedDataset_len ds = Ok n
  /\ exists item,
       PackedDataset_getitem ds (Z.of_nat i) = Ok item
       /\ item_of i l (tensors ds) item.
Proof.
  intros [H1 H2 H3 H4 H5 H6 H7 H8 H9] Hi. split.
  - unfold PackedDataset_len. by rewrite (proj1 H1).
  - destruct (tensor_getitem_row n l i _ H1 Hi) as (x1 & E1 & R1).
    destruct (tensor_getitem_row n l i _ H2 Hi) as (x2 & E2 & R2).
    destruct (tensor_getitem_row n l i _ H3 Hi) as (x3 & E3 & R3).
    destruct (tensor_getitem_row n l i _ H4 Hi) as (x4 & E4 & R4).
    destruct (tensor_getitem_row n l i _ H5 Hi) as (x5 & E5 & R5).
    destruct (tensor_getitem_row n l i _ H6 Hi) as (x6 & E6 & R6).
    destruct (tensor_getitem_row n l i _ H7 Hi) as (x7 & E7 & R7).
    destruct (tensor_getitem_row n l i _ H8 Hi) as (x8 & E8 & R8).
    destruct (tensor_getitem_row n l i _ H9 Hi) as (x9 & E9 & R9).
    unfold PackedDataset_getitem.
    rewrite E1, E2, E3, E4, E5, E6, E7, E8, E9. simpl.
    eexists. split; [reflexivity|]. by split.
Qed.

Lemma sample_dataset_shaped : all_shaped 2 2 (tensors sample_dataset).
Proof. by repeat split. Qed.

Lemma dataset_item_is_row_witness :
  PackedDataset_len sample_dataset = Ok 2
  /\ exists item,
       PackedDataset_getitem sample_dataset (Z.of_nat 1) = Ok item
       /\ item_of 1 2 (tensors sample_dataset) item.
Proof.
  apply (dataset_item_is_row sample_dataset 2 2 1).
  - exact sample_dataset_shaped.
  - lia.
Defined.

Lemma tensor_getitem_wraps {A} (n : nat) (ds : list nat) (t : Tensor A)
    (index : Z) :
  shape t = n :: ds -> (- Z.of_nat n <= index < 0)%Z ->
  tensor_getitem t index = tensor_getitem t (index + Z.of_nat n).
Proof.
  intros Hshape Hi. unfold tensor_getitem. rewrite Hshape.
  destruct (Z.ltb_spec index 0); [|lia].
  destruct (Z.ltb_spec (index + Z.of_nat n) 0); [lia|]. reflexivity.
Qed.

(** X16: a negative index counts from the end: for [-n <= index < 0] the
    item at [index] is the item at [index + n]. *)
Theorem dataset_negative_index (ds : PackedDataset) (n l : nat) (index : Z) :
  all_shaped n l (tensors ds) -> (- Z.of_nat n <= index < 0)%Z ->
  PackedDataset_getitem ds index
  = PackedDataset_getitem ds (index + Z.of_nat n).
Proof.
  intros [H1 H2 H3 H4 H5 H6 H7 H8 H9] Hi. unfold PackedDataset_getitem.
  rewrite (tensor_getitem_wraps n [l] _ index (proj1 H1) Hi),
          (tensor_getitem_wraps n [l] _ index (proj1 H2) Hi),
          (tensor_getitem_wraps n [l] _ index (proj1 H3) Hi),
          (tensor_getitem_wraps n [l] _ index (proj1 H4) Hi),
          (tensor_getitem_wraps n [l] _ index (proj1 H5) Hi),
          (tensor_getitem_wraps n [l] _ index (proj1 H6) Hi),
          (tensor_getitem_wraps n [l] _ index (proj1 H7) Hi),
          (tensor_getitem_wraps n [l] _ index (proj1 H8) Hi),
          (tensor_getitem_wraps n [l] _ index (proj1 H9) Hi).
  reflexivity.
Qed.

Lemma dataset_negative_index_witness :
  PackedDataset_getitem sample_dataset (-1)
  = PackedDataset_getitem sample_dataset (-1 + Z.of_nat 2).
Proof.
  apply (dataset_negative_index sample_dataset 2 2 (-1)).
  - exact sample_dataset_shaped.
  - simpl. lia.
Defined.



(** * Further properties of the pipeline *)

Lemma packer_returns_witness :
  exists pt,
    packed_tensors_from_tokenized_results sample_rng sample_batch 4 (-100) true
    = Ok pt.
Proof.
  apply (packer_returns sample_rng sample_batch 4 (-100) true).
  - lia.
  - solve_int64.
  - repeat (apply Forall_cons; split); try apply Forall_nil; try exact I;
      solve_packable.
  - solve_int64.
Defined.

Lemma round_trip_two_dims_witness :
  exists fs' d,
    packed_tensors_to_dir (∅ : FS) (tensors sample_dataset) "d" = Ok (fs', d)
    /\ d = {| dir := "d"; num_sequences := 2; sequence_length := 2 |}
    /\ packed_tensors_from_dir fs' d = Ok (fs', tensors sample_dataset).
Proof.
  apply (round_trip_two_dims ∅ "d" 2 2 (tensors sample_dataset)).
  - lia.
  - lia.
  - exact sample_dataset_shaped.
Defined.

(** The channels of the packer's output have one shape. *)
Lemma packed_all_shaped g rs seq_len pad_token_id t pt :
  (0 <= seq_len)%Z -> Forall wf_result rs ->
  packed_tensors_from_tokenized_results g rs seq_len pad_token_id t = Ok pt ->
  exists n, shape (pt_tokens pt) = [n; Z.to_nat seq_len]
            /\ all_shaped n (Z.to_nat seq_len) pt.
Proof.
  intros Hs Hwf H.
  apply packed_inv in H as (acc & Hrows & Hfin).
  pose proof (pack_rows_ok _ _ _ _ _ Hs Hwf Hrows) as Hok.
  rewrite (finalize_ok seq_len pad_token_id acc Hs Hok) in Hfin.
  destruct (channels_fit seq_len pad_token_id acc); [|discriminate].
  injection Hfin as <-. exists (length (acc_token_ids acc)).
  split; [done|].
  pose proof (mask_elems_length _ _ Hok) as Hm.
  pose proof (where_elems_length _ _ Hok) as Hw.
  destruct Hok as [Hne Hal Hb]. destruct Hal.
  split; unfold has_shape; simpl;
    rewrite ?(pad_concat_length seq_len _ _ (acc_token_ids acc)) by done;
    rewrite ?length_zip_with, ?Hm, ?Hw; (split; [reflexivity | lia]).
Qed.

(** X20: what the packer returns can be stored and loaded as a dataset.
    When the output has at least two rows of at least two tokens,
    [packed_tensors_to_dir] stores it, in any file system and directory,
    under the row count and [seq_len], and a [PackedDataset] opened on the
    stored directory holds the same tensors and leaves the files alone. *)
Theorem packing_survives_storage (g : RNG) (rs : list TokenizedResult)
    (seq_len pad_token_id : Z) (t : bool) (pt : PackedTensors) (n : nat)
    (fs : FS) (dir' : string) :
  (2 <= seq_len)%Z -> Forall wf_result rs ->
  packed_tensors_from_tokenized_results g rs seq_len pad_token_id t = Ok pt ->
  shape (pt_tokens pt) = [n; Z.to_nat seq_len] -> 2 <= n ->
  exists fs',
    let d := {| dir := dir'; num_sequences := n;
                sequence_length := Z.to_nat seq_len |} in
    packed_tensors_to_dir fs pt dir' = Ok (fs', d)
    /\ PackedDataset_init fs' d = Ok (fs', {| tensors := pt |}).
Proof.
  intros Hs Hwf Hpt Hshape Hn.
  destruct (packed_all_shaped g rs seq_len pad_token_id t pt) as (n' & Hn' & Hsh);
    [lia | done | done |].
  assert (n' = n) as -> by congruence.
  destruct (to_dir_stored fs dir' n (Z.to_nat seq_len) pt) as (fs' & Hto & Hst);
    [done | lia | done |].
  exists fs'. split; [exact Hto|]. unfold PackedDataset_init.
  rewrite (from_dir_stored fs' dir' n (Z.to_nat seq_len) pt) by (done || lia).
  reflexivity.
Qed.

Lemma packing_survives_storage_witness :
  exists pt fs',
    packed_tensors_from_tokenized_results sample_rng [long_result] 2 (-100) true
    = Ok pt
    /\ packed_tensors_to_dir (∅ : FS) pt "d"
       = Ok (fs', {| dir := "d"; num_sequences := 2;
                     sequence_length := Z.to_nat 2 |})
    /\ PackedDataset_init fs'
         {| dir := "d"; num_sequences := 2; sequence_length := Z.to_nat 2 |}
       = Ok (fs', {| tensors := pt |}).
Proof.
  assert (exists pt,
            packed_tensors_from_tokenized_results sample_rng [long_result] 2
              (-100) true = Ok pt
            /\ shape (pt_tokens pt) = [2; Z.to_nat 2]) as (pt & Hpt & Hshape)
    by (eexists; split; vm_compute; reflexivity).
  destruct (packing_survives_storage sample_rng [long_result] 2 (-100) true pt 2
              ∅ "d") as (fs' & Hto & Hinit).
  - lia.
  - repeat (apply Forall_cons; split); try apply Forall_nil; try exact I;
      split; simpl; unfold py_len; simpl; first [reflexivity | lia].
  - exact Hpt.
  - exact Hshape.
  - lia.
  - exists pt, fs'. split; [exact Hpt|]. split; [exact Hto | exact Hinit].
Defined.
